(* ===== verification/_CoqProject ===== *)
-Q . S2P
Prelude.v
Loops.v
Scalar.v
NumPy.v
Params.v
Provider.v
Fixtures.v
Fickian.v
Sweep.v
Radial.v
Binary64.v
Sign.v
Scenarios.v
Steps.v
Typed.v
