(* ===== verification/Prelude.v ===== *)
(** * Verification of the PEMFC transport kernels

    The program is [src/Shared_Funcs/pemfc_transport_funcs.py]: two
    functions that a fuel-cell simulation calls once per interface of its
    mesh.  [fickian_adf] (lines 12 to 59) computes the advection-diffusion
    mass flux between two gas-phase nodes; [radial_fdiff] (lines 71 to 98)
    computes the radial diffusion rate between two shells of an
    agglomerate.  Both are straight-line arithmetic on NumPy arrays, on a
    parameter dictionary keyed by strings and, for [fickian_adf], on a
    Cantera solution object that is mutated in order to be queried.  The
    two functions do not call each other.

    ** Files

    - [Prelude] (this file): Python exceptions as the error type [exn],
      computations that may raise ([result]), computations that also
      mutate a shared object and keep the mutation when they raise
      ([prog]), their equivalences, the tactics and the hint database
      [pemfc] that the other files use.
    - [Loops]: a loop over a list that stops at the first exception
      ([mapM] on [result] and on [prog]), with the lemmas for one more
      iteration and for the whole loop.
    - [Scalar]: the arithmetic as a class [Scalar] of operations with the
      laws of a field as a second class [ScalarField]; the rationals
      (a field) and the kernel's binary64 floats (not one).
    - [NumPy]: numbers and one-dimensional arrays ([value]), elementwise
      operators with broadcasting ([vbinop], [vmul], [vadd], [vsub],
      [vdiv], [vneg], [vsquare]) and subscripting ([getitem], with the
      wrap-around of negative indices in [py_index]).
    - [Params]: the dictionary [p] as a finite map, [p['k']] as [getkey];
      the typed records [planar_params] and [radial_params] and the
      relations [has_planar], [has_radial] between a dictionary and the
      coefficients it holds.
    - [Provider]: the Cantera object as the class [Provider] (assigning
      [TDY], reading five attributes) and the laws [LawfulProvider] of a
      provider that answers a pure query of the assigned state; a provider
      built from a query and a scripted one.
    - [Fixtures]: concrete providers, states and dictionaries.
    - [Fickian]: [fickian_adf], its specification [fickian_spec] and its
      theorems.
    - [Sweep]: the caller's loop of one call of [fickian_adf] per
      interface on one provider ([sweep]), from the design document.
    - [Radial]: [radial_fdiff], its specification [rate_k] and its
      theorems.
    - [Binary64]: what both kernels return in binary64 where the field
      gives an exact zero, for all doubles.
    - [Sign]: the sign conventions of both kernels, over the rationals.
    - [Scenarios]: runs of [fickian_adf] on the scenario of the design
      document, exactly and in binary64.
    - [Steps]: the statements of [fickian_adf] as the atomic steps of a
      call ([step_thread]), and two calls on one provider along a
      schedule ([run_sched], [cstep]).
    - [Typed]: the interface of the design notes (an enumeration of the
      variants, records read from the dictionaries, the provider as a
      pure query) and the code called through it.

    ** How the model corresponds to the code

    Every statement of the source is one line of a definition, in the
    order of the source.  In [Fickian], [node_props] is [gas.TDY = TDY1]
    with the six assignments after it (lines 26 to 32, and again lines 35
    to 41 for node 2), [wavg] is one weighted average of lines 46 to 49,
    [J_conv] and [J_diff] are lines 52 and 53, [mass_flux] is line 56 and
    [fickian_adf] composes them.  In [Radial], [radial_base] is the
    expression of lines 89 to 90 (and 92 to 93), [radial_shell] the two
    factors of line 94, and [radial_fdiff] the [if]/[elif] on [ver] with
    the [return] of line 98.

    Numbers.  The source computes in IEEE binary64.  Every definition is
    written once over the operations of [Scalar] and is read twice: over
    a field with a setoid equality (the rationals), where the algebraic
    properties are proved, and over the kernel's binary64 floats, where
    the definitions run bit for bit.  [x**2] is [x*x].

    Errors.  A Python exception is a value [Raise e] of [result]; the
    order of the binds in a definition is the evaluation order of the
    source line, so the first failing sub-expression decides the
    exception.  A missing key is [KeyError], a subscript out of range
    [IndexError], operands that do not broadcast [ValueError], a variant
    other than 1 and 2 [UnboundLocalError] (there is no [else], and the
    local [drho_dt] is unbound at the [return]).

    State.  The Cantera object is the state of [prog]; an exception does
    not roll the object back, so what the object holds after a failed
    call is part of what the theorems state.

    ** What the theorems show

    - Refinement ([fickian_adf_refines], [fickian_adf_pure_query],
      [radial_fdiff_ver1_spec], [radial_fdiff_ver2_spec]): with the
      coefficients in the dictionary, the code returns exactly the closed
      formulas of the specification, for every species.  These hold over
      any scalars, hence in binary64 as equalities of floats.
    - Algebra, over a field: antisymmetry under the exchange of the two
      nodes or shells, zero flux for equal states, zero rate for equal
      densities ([radial_fdiff_equal_densities]), gating and scaling by
      the toggle ([fickian_adf_tog_zero], [fickian_adf_tog_scales]), the
      advective term alone between nodes of one composition
      ([fickian_adf_equal_fractions], with [darcy_k]), the averages as
      means, the relation between the two radial variants.
    - Errors and state: what is raised, in which order, and what the
      provider holds afterwards ([fickian_adf_raises_first],
      [fickian_adf_raises_second], [fickian_adf_leaves_state2],
      [fickian_adf_missing_wt1], [radial_fdiff_invalid_ver],
      [radial_fdiff_index_error], [radial_fdiff_reads_both]).
    - Indices and shapes: the wrap-around of a negative [node]
      ([radial_fdiff_negative_node]) and the shape of the results
      ([fickian_adf_shape], [radial_fdiff_shape]).
    - Direction, over the rationals ([fickian_adf_direction],
      [radial_fdiff_direction]).
    - Binary64, for all doubles and every provider
      ([fickian_adf_tog_zero_binary64],
      [fickian_adf_zero_gradient_binary64], [radial_fdiff_equal_binary64]):
      where the field gives the zero vector (toggle zero, equal states,
      equal densities) the code gives entries that are the positive zero,
      the negative zero or NaN, and nothing else.  With the toggle at
      zero the entry is decided by the net flux of the call: [gate0]
      keeps the sign of a finite entry and turns an infinite one into NaN
      ([fickian_adf_tog_zero_signs]).  These are proved from the
      specification of the primitive floats in the standard library.
    - Steps and schedules: a call run statement by statement is
      [fickian_adf] ([call_refines]) and keeps its outcome
      ([cstep_out_stable]); calls that follow one another on a lawful
      provider return what they return alone ([serialized_calls]); a call
      that another call overtakes after its first assignment returns the
      flux between the last node of the other call and its own second
      node, whatever the two calls are given
      ([overtaken_call_reads_other_state]).
    - The caller's loop: on a lawful provider the calls of a sweep do not
      disturb one another ([sweep_serialized]); a state that the provider
      refuses surfaces from the sweep as the provider's exception, after
      the interfaces before it have given their fluxes
      ([sweep_refused_state]); the provider ends at the last node
      ([sweep_leaves_last]); a column at rest has no flux
      ([sweep_column_at_rest]).
    - The typed interface ([fickian_adf_typed], [radial_fdiff_typed]):
      the code returns and raises what the typed functions of the design
      notes say.

    The lemmas of [Scenarios] and the lemmas named [_run] are evaluations
    of the model on concrete inputs; they record what the code computes
    there and are instances of the theorems above.

    ** Bounds

    No definition uses fuel: the kernels have no loop, and every function
    of the development is total by structural recursion on lists.  The
    integers [node] and [ver] are unbounded ([Z]), as Python's are.  A
    call has fourteen statements and one step for the arithmetic and the
    return, so fifteen steps finish it; [run_thread] counts steps
    and [call_refines] holds for every count from fifteen on.  The
    schedule [overtaking] has thirty turns, fifteen for each call.
    Nothing is claimed of termination: the code has no loop and no
    recursion, and a model by structural recursion could not fail to
    terminate.  A sweep is a structural
    recursion on the list of interfaces.  The theorems of [Binary64]
    quantify over all doubles, NaN and the infinities included.

    ** What is not modelled

    Cantera: the provider is an interface, and the theorems that need
    more than the interface assume the laws of [LawfulProvider].  Only
    the assignment of a state can raise; reading an attribute always
    returns.  A subscript applied to a number raises [TypeError], as it
    does on a Python float; a NumPy scalar would raise [IndexError].
    Arrays
    of two or more dimensions, dtypes other than binary64, and values of
    [ver] that are not integers.  Rounding error: the theorems over a
    field say nothing about the distance between the exact flux and the
    computed one, and in the rationals a division by zero is zero where
    binary64 gives an infinity or NaN; [Scenarios] shows the difference.
    The callers of the kernels (time integration, mesh setup) are
    outside the repository; [Sweep] models, from the design document, the
    loop over the interfaces and nothing else of them: the conservation
    equations, the time stepping and the handling of a failed step are
    not described there.  Lines 1 to 10 and 61 to 69 of the source are
    two string literals that document the sign conventions; they bind no
    name that the functions use and no definition translates them (the
    conventions themselves are the theorems of [Sign]).  Of the
    concurrent use of one provider,
    [Steps] models two calls whose statements are atomic; the threads of
    the host language and what Cantera does inside one statement are not
    modelled.  Calls that each have a provider object of their own share
    nothing and are not modelled as a machine of their own: each is
    [fickian_adf] on its object. *)

From stdpp Require Import base tactics option list strings.

(** ** Python exceptions *)

(** The exception classes that the two kernels can raise: a missing
    dictionary key, a subscript out of range, a subscript applied to a
    number, operands that do not broadcast, a local variable read before it
    is bound, and a state that the property provider refuses. *)
Inductive exn : Type :=
| KeyError (key : string)
| IndexError
| TypeError
| ValueError
| UnboundLocalError (name : string)
| CanteraError (msg : string).

#[export] Instance exn_eq_dec : EqDecision exn.
Proof. solve_decision. Defined.

(** ** Computations that may raise *)

Inductive result (A : Type) : Type :=
| Ok (a : A)
| Raise (e : exn).

Arguments Ok {A} a.
Arguments Raise {A} e.

#[export] Instance result_ret : MRet result := @Ok.

#[export] Instance result_bind : MBind result :=
  λ A B f m, match m with Ok a => f a | Raise e => Raise e end.

#[export] Instance result_fmap : FMap result :=
  λ A B f m, match m with Ok a => Ok (f a) | Raise e => Raise e end.

Definition is_Ok {A} (m : result A) : Prop := ∃ a, m = Ok a.

Definition raises {A} (m : result A) (e : exn) : Prop := m = Raise e.

(** Two results are equivalent when both return equivalent values or both
    raise the same exception. *)
Inductive result_equiv `{Equiv A} : Equiv (result A) :=
| Ok_equiv a b : a ≡ b → Ok a ≡ Ok b
| Raise_equiv e : Raise e ≡ Raise e.

#[export] Existing Instance result_equiv.

(** ** Computations on a shared mutable object *)

(** [prog S A] runs on an object of type [S] and gives back the object
    together with the outcome.  When a step raises, the object stays as
    that step left it: nothing is rolled back. *)
Definition prog (S A : Type) : Type := S → result A * S.

#[export] Instance prog_ret {S} : MRet (prog S) := λ A a s, (Ok a, s).

#[export] Instance prog_bind {S} : MBind (prog S) :=
  λ A B f m s,
    match m s with
    | (Ok a, s') => f a s'
    | (Raise e, s') => (Raise e, s')
    end.

(** A pure computation, run without touching the object. *)
Definition lift {S A} (m : result A) : prog S A := λ s, (m, s).

(** Reading an attribute of the object. *)
Definition gets {S A} (f : S → A) : prog S A := λ s, (Ok (f s), s).

(** ** Automation *)

Create HintDb pemfc discriminated.
Create Rewrite HintDb pemfc.

(** [simplify_result] turns hypotheses on the outcome of a bind into the
    outcomes of its parts and discharges the impossible cases. *)
Ltac simplify_result :=
  repeat match goal with
  | H : Ok _ = Ok _ |- _ => injection H as H; try subst
  | H : Ok _ = Raise _ |- _ => discriminate H
  | H : Raise _ = Ok _ |- _ => discriminate H
  | H : Raise _ = Raise _ |- _ => injection H as H; try subst
  | H : (_, _) = (_, _) |- _ => injection H as ? ?; try subst
  | H : mbind _ ?m = Ok _ |- _ =>
      let E := fresh "E" in destruct m eqn:E; simpl in H; [|discriminate H]
  | H : _ ≡@{result _} _ |- _ => progress (inversion H; subst; clear H)
  end.

(** [solve_length] proves equations between the lengths of lists built
    by [fmap] and [zip_with] from the length hypotheses in context. *)
Ltac solve_length :=
  repeat first [rewrite length_fmap | rewrite length_zip_with]; lia.

(** [list_pointwise] proves an equation between two lists built by [fmap]
    and [zip_with] from the same lists, by comparing them position by
    position; what is left is the equation between the two elements, when
    it is not closed by computation. *)
Ltac list_pointwise_with lem :=
  apply lem; intros ?i;
  repeat first
    [ rewrite list_lookup_fmap
    | rewrite lookup_zip_with
    | match goal with
      | |- context [?l !! ?i] =>
          lazymatch l with
          | fmap _ _ => fail
          | zip_with _ _ _ => fail
          | _ => destruct (l !! i); simpl
          end
      end ];
  try reflexivity.

Ltac list_pointwise := list_pointwise_with @list_eq.

(** [case_result m] splits on whether [m] returns or raises. *)
Ltac case_result m := let E := fresh "E" in destruct m eqn:E; simpl.

(** ** Laws of [result] *)

Section result.
Context {A B C : Type}.
Implicit Types (a : A) (b : B) (m : result A) (f : A → result B) (g : B → result C).

Lemma bind_Ok a f : Ok a ≫= f = f a.
Proof. reflexivity. Qed.

Lemma bind_Raise e f : Raise e ≫= f = Raise e.
Proof. reflexivity. Qed.

Lemma bind_ret m : m ≫= mret = m.
Proof. by destruct m. Qed.

Lemma bind_assoc m f g : (m ≫= f) ≫= g = m ≫= (λ a, f a ≫= g).
Proof. by destruct m. Qed.

(** Two computations that start alike and continue alike are equal. *)
Lemma bind_ext m f f' : (∀ a, f a = f' a) → m ≫= f = m ≫= f'.
Proof. intros Hf. destruct m; simpl; [apply Hf | done]. Qed.

Lemma bind_Ok_inv m f b : m ≫= f = Ok b ↔ ∃ a, m = Ok a ∧ f a = Ok b.
Proof.
  split; [|by intros (a & -> & ?)].
  destruct m as [a|e]; simpl; [eauto | discriminate].
Qed.

Lemma bind_Raise_inv m f e :
  m ≫= f = Raise e ↔ m = Raise e ∨ ∃ a, m = Ok a ∧ f a = Raise e.
Proof.
  split.
  - destruct m as [a|e']; simpl; [eauto | intros [= ->]; eauto].
  - by intros [-> | (a & -> & ?)].
Qed.

Lemma fmap_Ok (h : A → B) a : h <$> Ok a = Ok (h a).
Proof. reflexivity. Qed.

Lemma fmap_Raise (h : A → B) e : h <$> Raise e = Raise e.
Proof. reflexivity. Qed.

Lemma is_Ok_Ok a : is_Ok (Ok a).
Proof. by exists a. Qed.

Lemma is_Ok_Raise e : ¬ is_Ok (@Raise A e).
Proof. by intros [a ?]. Qed.

Lemma result_total m : is_Ok m ∨ ∃ e, raises m e.
Proof. destruct m as [a|e]; [left | right]; eexists; reflexivity. Qed.

End result.

#[export] Hint Rewrite @bind_Ok @bind_Raise @fmap_Ok @fmap_Raise : pemfc.
#[export] Hint Resolve is_Ok_Ok : pemfc.

(** ** The equivalence on results *)

Section result_setoid.
Context `{Equiv A, Equiv B}.

#[export] Instance result_equivalence :
  Equivalence (≡@{A}) → Equivalence (≡@{result A}).
Proof.
  intros HA. split.
  - intros [a|e]; by constructor.
  - intros ?? []; by constructor.
  - intros ??? [] Hyz; inversion Hyz; subst; constructor. by etrans.
Qed.

#[export] Instance Ok_proper : Proper ((≡) ==> (≡@{result A})) Ok.
Proof. by constructor. Qed.

#[export] Instance Ok_inj_equiv : Inj (≡) (≡@{result A}) Ok.
Proof. by inversion 1. Qed.

#[export] Instance result_bind_proper :
  Proper (((≡) ==> (≡)) ==> (≡@{result A}) ==> (≡@{result B})) mbind.
Proof. intros f g Hfg ?? []; simpl; [by apply Hfg | constructor]. Qed.

#[export] Instance result_fmap_proper :
  Proper (((≡) ==> (≡)) ==> (≡@{result A}) ==> (≡@{result B})) fmap.
Proof. intros f g Hfg ?? []; simpl; constructor. by apply Hfg. Qed.

(** Two binds on the same computation agree when their continuations do. *)
Lemma bind_equiv_ext {C} (m : result C) (f g : C → result A) :
  (∀ c, f c ≡ g c) → m ≫= f ≡ m ≫= g.
Proof. intros Hfg. destruct m; simpl; [done | constructor]. Qed.

Lemma fmap_bind {C} (h : A → B) (m : result C) (f : C → result A) :
  h <$> (m ≫= f) = m ≫= (λ c, h <$> f c).
Proof. by destruct m. Qed.

Lemma Ok_equiv_inv (m : result A) a : m ≡ Ok a ↔ ∃ b, m = Ok b ∧ b ≡ a.
Proof.
  split; [inversion 1; subst; eauto | intros (b & -> & ?); by constructor].
Qed.

Lemma Raise_equiv_inv (m : result A) e : m ≡ Raise e ↔ m = Raise e.
Proof. split; [by inversion 1 | intros ->; constructor]. Qed.

End result_setoid.

(** ** Laws of [prog] *)

Section prog.
Context {S A B : Type}.
Implicit Types (m : prog S A) (f : A → prog S B) (s : S).

Lemma prog_bind_Ok m f s a s' : m s = (Ok a, s') → (m ≫= f) s = f a s'.
Proof. unfold mbind, prog_bind. by intros ->. Qed.

Lemma prog_bind_Raise m f s e s' :
  m s = (Raise e, s') → (m ≫= f) s = (Raise e, s').
Proof. unfold mbind, prog_bind. by intros ->. Qed.

Lemma prog_bind_lift (r : result A) f s :
  (lift r ≫= f) s = match r with Ok a => f a s | Raise e => (Raise e, s) end.
Proof. by destruct r. Qed.

Lemma prog_bind_gets (h : S → A) f s : (gets h ≫= f) s = f (h s) s.
Proof. reflexivity. Qed.

Lemma prog_bind_ret a f s : (mret a ≫= f) s = f a s.
Proof. reflexivity. Qed.

Lemma lift_pure (r : result A) s : lift r s = (r, s).
Proof. reflexivity. Qed.

End prog.

(** ** Lists of equal length *)

Section lists.
Context {A B C : Type}.

Lemma zip_with_fmap_diag (f : A → B → C) (g : C → A) (h : C → B) (l : list C) :
  zip_with f (g <$> l) (h <$> l) = (λ x, f (g x) (h x)) <$> l.
Proof. induction l; csimpl; congruence. Qed.

Lemma zip_with_fmap_diag_l (f : A → B → C) (h : A → B) (l : list A) :
  zip_with f l (h <$> l) = (λ x, f x (h x)) <$> l.
Proof. induction l; csimpl; congruence. Qed.

Lemma zip_with_fmap_diag_r (f : A → B → C) (g : B → A) (l : list B) :
  zip_with f (g <$> l) l = (λ x, f (g x) x) <$> l.
Proof. induction l; csimpl; congruence. Qed.

Lemma fmap_equiv_replicate `{Equiv B} (f : A → B) (c : B) (l : list A) :
  (∀ x, f x ≡ c) → f <$> l ≡ replicate (length l) c.
Proof. intros Hf. induction l; csimpl; by constructor. Qed.

Lemma fst_zip_eq (l : list A) (k : list B) :
  length l = length k → l = fst <$> zip l k.
Proof.
  revert k. induction l as [|a l IH]; intros [|b k]; csimpl; try done.
  intros [=]. f_equal. by apply IH.
Qed.

Lemma snd_zip_eq (l : list A) (k : list B) :
  length l = length k → k = snd <$> zip l k.
Proof.
  revert k. induction l as [|a l IH]; intros [|b k]; csimpl; try done.
  intros [=]. f_equal. by apply IH.
Qed.

End lists.
