(* ===== verification/Loops.v ===== *)
(** * Loops over a list

    A caller of the kernels runs one call per element of a list, in
    order, and stops at the first exception.  That loop is [mapM], both
    for the computations that may raise ([result]) and for those that
    also mutate the provider ([prog]).  This file holds the lemmas on
    [mapM] that the sweeps of [Sweep] are proved with: one more iteration
    at either end, the outcome of the whole loop from the outcomes of its
    iterations, and the loop on a shared object whose iterations do not
    depend on what the object holds. *)

From stdpp Require Import base tactics option list.
From S2P Require Import Prelude.

(** ** Loops that may raise *)

Section mapM_result.
Context {A B : Type}.
Implicit Types (f : A → result B) (l : list A) (k : list B).

Lemma mapM_cons f x l :
  mapM f (x :: l) = f x ≫= λ y, mapM f l ≫= λ k, mret (y :: k).
Proof. reflexivity. Qed.

(** The loop returns exactly when every iteration does. *)
Lemma mapM_Ok f l k : mapM f l = Ok k ↔ Forall2 (λ x y, f x = Ok y) l k.
Proof.
  revert k. induction l as [|x l IH]; intros k.
  { split; [intros [= <-]; constructor | by inversion 1]. }
  rewrite mapM_cons. split.
  - intros (y & Hy & (k' & Hk & [= <-])%bind_Ok_inv)%bind_Ok_inv.
    constructor; [done|]. by apply IH.
  - inversion 1 as [|? y ? k' Hy Hk]; subst.
    apply IH in Hk. by rewrite Hy, bind_Ok, Hk.
Qed.

Lemma mapM_Ok_length f l k : mapM f l = Ok k → length k = length l.
Proof. intros Hk%mapM_Ok. symmetry. by eapply Forall2_length. Qed.

Lemma mapM_Ok_lookup f l k i x :
  mapM f l = Ok k → l !! i = Some x → ∃ y, k !! i = Some y ∧ f x = Ok y.
Proof.
  intros Hk%mapM_Ok Hx. destruct (Forall2_lookup_l _ _ _ _ _ Hk Hx) as (y & ? & ?).
  by exists y.
Qed.

Lemma mapM_is_Ok f l : Forall (λ x, is_Ok (f x)) l → is_Ok (mapM f l).
Proof.
  induction 1 as [|x l [y Hy] _ [k Hk]]; [by exists []|].
  exists (y :: k). by rewrite mapM_cons, Hy, bind_Ok, Hk.
Qed.

(** The first iteration that raises decides the outcome of the loop. *)
Lemma mapM_Raise f l1 x l2 e :
  is_Ok (mapM f l1) → f x = Raise e → mapM f (l1 ++ x :: l2) = Raise e.
Proof.
  intros [k Hk] Hx. revert k Hk. induction l1 as [|x1 l1 IH]; intros k Hk.
  { by rewrite app_nil_l, mapM_cons, Hx. }
  rewrite mapM_cons in Hk.
  apply bind_Ok_inv in Hk as (y & Hy & (k' & Hk' & _)%bind_Ok_inv).
  rewrite <-app_comm_cons, mapM_cons, Hy, bind_Ok. by rewrite (IH k').
Qed.

Lemma mapM_fmap_Ok (g : A → B) l : mapM (λ x, Ok (g x)) l = Ok (g <$> l).
Proof. apply mapM_Ok. induction l; by constructor. Qed.

(** A loop over equal elements. *)
Lemma mapM_replicate f x y n :
  f x = Ok y → mapM f (replicate n x) = Ok (replicate n y).
Proof.
  intros Hx. apply mapM_Ok. induction n; by constructor.
Qed.

Lemma mapM_replicate_equiv `{Equiv B} f x y n :
  f x ≡ Ok y → mapM f (replicate n x) ≡ Ok (replicate n y).
Proof.
  intros (y' & Hx & Hy)%Ok_equiv_inv. rewrite (mapM_replicate f x y' n Hx).
  constructor. induction n; by constructor.
Qed.

End mapM_result.

(** ** Loops on a shared object *)

Section mapM_prog.
Context {S A B : Type}.
Implicit Types (f : A → prog S B) (l : list A) (k : list B) (s : S).

(** One iteration and the rest of the loop. *)
Lemma prog_mapM_cons f x l s :
  mapM f (x :: l) s =
    match f x s with
    | (Ok y, s') =>
        match mapM f l s' with
        | (Ok k, s'') => (Ok (y :: k), s'')
        | (Raise e, s'') => (Raise e, s'')
        end
    | (Raise e, s') => (Raise e, s')
    end.
Proof. reflexivity. Qed.

(** One more iteration at the end of a loop that has returned. *)
Lemma prog_mapM_snoc f l x s k s' :
  mapM f l s = (Ok k, s') →
  mapM f (l ++ [x]) s =
    match f x s' with
    | (Ok y, s'') => (Ok (k ++ [y]), s'')
    | (Raise e, s'') => (Raise e, s'')
    end.
Proof.
  revert s k. induction l as [|x1 l IH]; intros s k Hk.
  { injection Hk as <- <-. rewrite app_nil_l, prog_mapM_cons.
    by destruct (f x s) as [[y|e] s'']. }
  rewrite <-app_comm_cons, prog_mapM_cons. rewrite prog_mapM_cons in Hk.
  destruct (f x1 s) as [[y1|e] s1]; [|done].
  destruct (mapM f l s1) as [[k1|e] s2] eqn:Hl; [|done].
  injection Hk as <- <-. rewrite (IH _ _ Hl).
  by destruct (f x s2) as [[y|e] s''].
Qed.

(** A loop that has raised is not continued. *)
Lemma prog_mapM_app_Raise f l1 l2 s e s' :
  mapM f l1 s = (Raise e, s') → mapM f (l1 ++ l2) s = (Raise e, s').
Proof.
  revert s. induction l1 as [|x1 l1 IH]; intros s Hl; [done|].
  rewrite <-app_comm_cons, prog_mapM_cons. rewrite prog_mapM_cons in Hl.
  destruct (f x1 s) as [[y1|e1] s1]; [|done].
  destruct (mapM f l1 s1) as [[k1|e1] s2] eqn:Hl1; [done|].
  injection Hl as -> ->. by rewrite (IH _ Hl1).
Qed.

(** An iteration that raises after a loop that has returned ends the
    loop, with the object as that iteration left it. *)
Lemma prog_mapM_Raise f l1 x l2 s k s1 e s2 :
  mapM f l1 s = (Ok k, s1) → f x s1 = (Raise e, s2) →
  mapM f (l1 ++ x :: l2) s = (Raise e, s2).
Proof.
  revert s k. induction l1 as [|x1 l1 IH]; intros s k Hk Hx.
  { injection Hk as <- <-. by rewrite app_nil_l, prog_mapM_cons, Hx. }
  rewrite <-app_comm_cons, prog_mapM_cons. rewrite prog_mapM_cons in Hk.
  destruct (f x1 s) as [[y1|e1] s']; [|done].
  destruct (mapM f l1 s') as [[k1|e1] s''] eqn:Hl; [|done].
  injection Hk as <- <-. by rewrite (IH _ _ Hl Hx).
Qed.

(** When no iteration depends on what the object holds, the outcome of
    the loop is the outcome of the iterations run on any object. *)
Lemma prog_mapM_indep f l s s0 :
  (∀ x s s', (f x s).1 = (f x s').1) →
  (mapM f l s).1 = mapM (λ x, (f x s0).1) l.
Proof.
  intros Hf. revert s. induction l as [|x l IH]; intros s; [done|].
  rewrite prog_mapM_cons. cbn [mapM]. rewrite <-(Hf x s s0).
  destruct (f x s) as [[y|e] s']; [|done].
  cbn [fst]. rewrite bind_Ok, <-(IH s').
  by destruct (mapM f l s') as [[k|e] s''].
Qed.
End mapM_prog.
