(* ===== verification/Scalar.v ===== *)
(** * Scalars: the numbers the kernels compute with

    The source computes with Python floats and NumPy float64 arrays.  The
    kernels are modelled over an interface of scalar operations
    ([Scalar]), so that one definition can be read in two ways:

    - over a field with a setoid equality ([ScalarField]; the instance is
      the rationals [Q] with [Qeq]), where [ring] and [field] prove the
      algebraic properties of the kernels;
    - over the binary64 floats of the kernel ([float]), where the same
      definitions evaluate exactly as the source does, with rounding,
      infinities and NaN.

    [ScalarField] is the standard library's [field_theory] together with
    the morphism instances that let [rewrite] work under the operations;
    its division is multiplication by the inverse, as in every field of
    the standard library. *)

From Stdlib Require Import QArith Qfield Ring Field Floats.
From stdpp Require Import base tactics.
From S2P Require Import Prelude.

(** ** The operations *)

Class Scalar (R : Type) : Type := {
  szero : R;
  sone : R;
  sadd : R → R → R;
  smul : R → R → R;
  ssub : R → R → R;
  sopp : R → R;
  sdiv : R → R → R;
  sinv : R → R }.

Declare Scope scalar_scope.
Delimit Scope scalar_scope with S.
Notation "0" := szero : scalar_scope.
Notation "1" := sone : scalar_scope.
Infix "+" := sadd : scalar_scope.
Infix "*" := smul : scalar_scope.
Infix "-" := ssub : scalar_scope.
Infix "/" := sdiv : scalar_scope.
Notation "- x" := (sopp x) : scalar_scope.

(** [x ** 2] of the source. *)
Definition ssquare `{Scalar R} (x : R) : R := (x * x)%S.

(** ** The laws *)

Class ScalarField (R : Type) `{Equiv R, Scalar R} : Prop := {
  sf_equivalence :: Equivalence (≡@{R});
  sf_add_proper :: Proper ((≡) ==> (≡) ==> (≡)) (sadd (R:=R));
  sf_mul_proper :: Proper ((≡) ==> (≡) ==> (≡)) (smul (R:=R));
  sf_sub_proper :: Proper ((≡) ==> (≡) ==> (≡)) (ssub (R:=R));
  sf_opp_proper :: Proper ((≡) ==> (≡)) (sopp (R:=R));
  sf_div_proper :: Proper ((≡) ==> (≡) ==> (≡)) (sdiv (R:=R));
  sf_inv_proper :: Proper ((≡) ==> (≡)) (sinv (R:=R));
  sf_field : field_theory 0%S 1%S sadd smul ssub sopp sdiv sinv (≡@{R}) }.

(** ** Consequences of the laws *)

Section laws.
Context `{ScalarField R}.
Implicit Types x y z : R.
Local Open Scope scalar_scope.

Add Field scalar_laws_field : sf_field.

Lemma scalar_ring_theory : ring_theory 0 1 sadd smul ssub sopp (≡@{R}).
Proof. exact (F_R sf_field). Qed.

#[export] Instance ssquare_proper : Proper ((≡) ==> (≡)) (ssquare (R:=R)).
Proof. intros x y Hxy. unfold ssquare. by rewrite Hxy. Qed.

Lemma smul_0_l x : 0 * x ≡ 0.
Proof. ring. Qed.

Lemma smul_0_r x : x * 0 ≡ 0.
Proof. ring. Qed.

Lemma smul_1_l x : 1 * x ≡ x.
Proof. ring. Qed.

Lemma smul_1_r x : x * 1 ≡ x.
Proof. ring. Qed.

Lemma ssub_diag x : x - x ≡ 0.
Proof. ring. Qed.

Lemma ssub_opp x y : - (x - y) ≡ y - x.
Proof. ring. Qed.

Lemma sdiv_mul_inv x y : x / y ≡ x * sinv y.
Proof. exact (Fdiv_def sf_field x y). Qed.

Lemma sdiv_0_l y : 0 / y ≡ 0.
Proof. rewrite sdiv_mul_inv. ring. Qed.

Lemma sdiv_opp_l x y : (- x) / y ≡ - (x / y).
Proof. rewrite !sdiv_mul_inv. ring. Qed.

Lemma sdiv_mul_l x y z : (x * y) / z ≡ x * (y / z).
Proof. rewrite !sdiv_mul_inv. ring. Qed.

Lemma sdiv_mul_cancel x y : y ≢ 0 → (x / y) * y ≡ x.
Proof. intros Hy. by field. Qed.

Lemma ssquare_opp x : ssquare (- x) ≡ ssquare x.
Proof. unfold ssquare. ring. Qed.

End laws.

(** ** The rationals: exact arithmetic *)

#[export] Instance Q_equiv : Equiv Q := Qeq.

#[export] Instance Q_equiv_dec : RelDecision (≡@{Q}) := Qeq_dec.

#[export] Instance Q_scalar : Scalar Q := {|
  szero := 0%Q; sone := 1%Q;
  sadd := Qplus; smul := Qmult; ssub := Qminus;
  sopp := Qopp; sdiv := Qdiv; sinv := Qinv |}.

#[export] Instance Q_field : ScalarField Q.
Proof. split; try exact Qsft; unfold equiv, Q_equiv; simpl; apply _. Qed.

(** ** Binary64: the arithmetic of the source *)

(** Equality on floats is equality of the bit patterns (the kernel has one
    NaN); it is finer than NumPy's [==], which equates the two zeros and
    separates NaN from itself. *)
#[export] Instance float_equiv : Equiv float := eq.

#[export] Instance float_scalar : Scalar float := {|
  szero := 0%float; sone := 1%float;
  sadd := PrimFloat.add; smul := PrimFloat.mul; ssub := PrimFloat.sub;
  sopp := PrimFloat.opp; sdiv := PrimFloat.div;
  sinv := PrimFloat.div 1%float |}.

(** The floats are not a field: zero times a quotient by zero is NaN, and
    the difference of a number with itself, negated, is the negative
    zero. *)
Lemma float_mul_0_not_absorbing :
  (0 * (1 / 0))%S ≠ (0 : float)%S.
Proof. vm_compute. discriminate. Qed.

Lemma float_ssub_opp_fails :
  (- (1 - 1))%S ≠ ((1 - 1) : float)%S.
Proof. vm_compute. discriminate. Qed.
