(* ===== verification/NumPy.v ===== *)
(** * Python numbers and one-dimensional NumPy arrays

    The values the kernels compute with: a number (a Python float or a
    NumPy scalar) or a one-dimensional array.  The arithmetic operators of
    the source are the elementwise NumPy operators; between two arrays
    they broadcast, and raise [ValueError] when the lengths cannot be
    broadcast together.  Subscripting follows Python: an index counts from
    the end when it is negative, raises [IndexError] when it is out of
    range, and [TypeError] when the subscripted value is a number.

    The file gives the operations, the shape each one returns
    ([vbinop_shape]), their behaviour on every combination of operands,
    their compatibility with the equivalence of scalars ([Proper]
    instances) and the lemmas that move an elementwise map through an
    operator. *)

From stdpp Require Import base tactics option list.
From S2P Require Import Prelude Scalar.

(** ** Values and shapes *)

Inductive value (R : Type) : Type :=
| VNum (x : R)
| VArr (xs : list R).

Arguments VNum {R} x.
Arguments VArr {R} xs.

Inductive shape : Type :=
| SNum
| SArr (n : nat).

#[export] Instance shape_eq_dec : EqDecision shape.
Proof. solve_decision. Defined.

Definition vshape {R} (v : value R) : shape :=
  match v with
  | VNum _ => SNum
  | VArr xs => SArr (length xs)
  end.

(** The shape of the result of an operator, when the operands broadcast. *)
Definition bshape (s t : shape) : option shape :=
  match s, t with
  | SNum, _ => Some t
  | _, SNum => Some s
  | SArr n, SArr m =>
      if decide (n = m) then Some (SArr n)
      else if decide (n = 1) then Some (SArr m)
      else if decide (m = 1) then Some (SArr n)
      else None
  end.

(** ** Elementwise operations *)

Definition vmap {R} (f : R → R) (v : value R) : value R :=
  match v with
  | VNum x => VNum (f x)
  | VArr xs => VArr (f <$> xs)
  end.

(** Two arrays: equal lengths combine position by position, an array of
    length one is stretched over the other, anything else is refused. *)
Definition broadcast {R} (f : R → R → R) (xs ys : list R) : result (list R) :=
  if decide (length xs = length ys) then Ok (zip_with f xs ys)
  else match xs, ys with
       | [x], _ => Ok (f x <$> ys)
       | _, [y] => Ok ((λ x, f x y) <$> xs)
       | _, _ => Raise ValueError
       end.

Definition vbinop {R} (f : R → R → R) (a b : value R) : result (value R) :=
  match a, b with
  | VNum x, VNum y => Ok (VNum (f x y))
  | VNum x, VArr ys => Ok (VArr (f x <$> ys))
  | VArr xs, VNum y => Ok (VArr ((λ x, f x y) <$> xs))
  | VArr xs, VArr ys => VArr <$> broadcast f xs ys
  end.

(** Subscripts: where index [i] lands in a sequence of length [n]. *)
Definition py_index (n : nat) (i : Z) : option nat :=
  if decide (0 ≤ i < Z.of_nat n)%Z then Some (Z.to_nat i)
  else if decide (- Z.of_nat n ≤ i < 0)%Z then Some (Z.to_nat (Z.of_nat n + i))
  else None.

Section ops.
Context `{Scalar R}.

(** [a + b], [a - b], [a * b], [a / b], [- a], [a ** 2]. *)
Definition vadd : value R → value R → result (value R) := vbinop sadd.
Definition vsub : value R → value R → result (value R) := vbinop ssub.
Definition vmul : value R → value R → result (value R) := vbinop smul.
Definition vdiv : value R → value R → result (value R) := vbinop sdiv.
Definition vneg : value R → value R := vmap sopp.
Definition vsquare : value R → value R := vmap ssquare.

(** An array of zeros of the shape of [v]. *)
Definition vzeros_like : value R → value R := vmap (λ _, 0%S).

(** [v[i]]. *)
Definition getitem (v : value R) (i : Z) : result (value R) :=
  match v with
  | VNum _ => Raise TypeError
  | VArr xs =>
      match py_index (length xs) i ≫= (xs !!.) with
      | Some x => Ok (VNum x)
      | None => Raise IndexError
      end
  end.

End ops.

(** ** Equivalence of values *)

Inductive value_equiv `{Equiv R} : Equiv (value R) :=
| VNum_equiv x y : x ≡ y → VNum x ≡ VNum y
| VArr_equiv xs ys : xs ≡ ys → VArr xs ≡ VArr ys.

#[export] Existing Instance value_equiv.

Section value_setoid.
Context `{Equiv R}.

#[export] Instance value_equivalence :
  Equivalence (≡@{R}) → Equivalence (≡@{value R}).
Proof.
  intros HR. split.
  - intros [x|xs]; by constructor.
  - intros ?? []; by constructor.
  - intros ??? [] Hyz; inversion Hyz; subst; constructor; by etrans.
Qed.

#[export] Instance VNum_proper : Proper ((≡) ==> (≡@{value R})) VNum.
Proof. by constructor. Qed.

#[export] Instance VArr_proper : Proper ((≡) ==> (≡@{value R})) VArr.
Proof. by constructor. Qed.

#[export] Instance vshape_proper : Proper ((≡@{value R}) ==> (=)) vshape.
Proof. intros ?? [x y ?|xs ys Hxy]; simpl; [done|]. by rewrite Hxy. Qed.

#[export] Instance vmap_proper :
  Proper (((≡) ==> (≡)) ==> (≡@{value R}) ==> (≡)) vmap.
Proof.
  intros f g Hfg ?? [x y ?|xs ys Hxy]; simpl; constructor; [by apply Hfg|].
  by apply list_fmap_proper.
Qed.

#[export] Instance broadcast_proper :
  Proper (((≡) ==> (≡) ==> (≡)) ==> (≡@{list R}) ==> (≡) ==> (≡)) broadcast.
Proof.
  intros f g Hfg xs xs' Hx ys ys' Hy. unfold broadcast.
  rewrite <-(length_proper _ _ Hx), <-(length_proper _ _ Hy).
  case_decide; [constructor; by apply zip_with_proper|].
  assert (∀ x x', x ≡ x' → f x <$> ys ≡ g x' <$> ys') as Hl.
  { intros x x' Hxx. apply list_fmap_proper; [|done]. intros ???. by apply Hfg. }
  assert (∀ y y', y ≡ y' → (λ x, f x y) <$> xs ≡ (λ x, g x y') <$> xs') as Hr.
  { intros y y' Hyy. apply list_fmap_proper; [|done]. intros ???. by apply Hfg. }
  destruct Hx as [|???? ? [|]]; destruct Hy as [|???? ? [|]];
    constructor; auto.
Qed.

#[export] Instance vbinop_proper :
  Proper (((≡) ==> (≡) ==> (≡)) ==> (≡@{value R}) ==> (≡) ==> (≡)) vbinop.
Proof.
  intros f g Hfg a a' [x x' Hx|xs xs' Hx] b b' [y y' Hy|ys ys' Hy]; simpl.
  - do 2 constructor. by apply Hfg.
  - do 2 constructor. apply list_fmap_proper; [intros ???; by apply Hfg | done].
  - do 2 constructor. apply list_fmap_proper; [intros ???; by apply Hfg | done].
  - apply result_fmap_proper; [apply VArr_proper | by apply broadcast_proper].
Qed.

End value_setoid.

(** ** The operators case by case *)

Section vbinop.
Context {R : Type}.
Implicit Types (f : R → R → R) (x y : R) (xs ys : list R) (a b c : value R).

Lemma broadcast_same_length f xs ys :
  length xs = length ys → broadcast f xs ys = Ok (zip_with f xs ys).
Proof. intros Hlen. unfold broadcast. by rewrite decide_True. Qed.

Lemma broadcast_stretch_l f x ys :
  broadcast f [x] ys = Ok (f x <$> ys).
Proof.
  unfold broadcast. case_decide as Hlen; [|done].
  by destruct ys as [|y [|??]].
Qed.

Lemma broadcast_stretch_r f xs y :
  broadcast f xs [y] = Ok ((λ x, f x y) <$> xs).
Proof.
  unfold broadcast. case_decide as Hlen.
  - by destruct xs as [|x [|??]].
  - by destruct xs as [|x [|??]].
Qed.

Lemma broadcast_mismatch f xs ys :
  length xs ≠ length ys → length xs ≠ 1 → length ys ≠ 1 →
  broadcast f xs ys = Raise ValueError.
Proof.
  intros Hne Hx Hy. unfold broadcast. rewrite decide_False by done.
  destruct xs as [|? [|??]], ys as [|? [|??]]; simpl in *; congruence.
Qed.

(** What an operator returns is decided by the operands' shapes alone, and
    the shape of the result is the broadcast of their shapes. *)
Lemma broadcast_length f xs ys :
  length <$> broadcast f xs ys =
    match bshape (SArr (length xs)) (SArr (length ys)) with
    | Some (SArr n) => Ok n
    | _ => Raise ValueError
    end.
Proof.
  unfold broadcast; simpl. case_decide as Hlen.
  { simpl. by rewrite length_zip_with_l_eq. }
  destruct xs as [|x [|??]], ys as [|y [|??]]; simpl in *;
    repeat case_decide; simplify_eq; simpl;
    by rewrite ?length_fmap.
Qed.

Lemma vbinop_shape f a b :
  vshape <$> vbinop f a b =
    match bshape (vshape a) (vshape b) with
    | Some s => Ok s
    | None => Raise ValueError
    end.
Proof.
  destruct a as [x|xs], b as [y|ys]; simpl; rewrite ?length_fmap; try done.
  pose proof (broadcast_length f xs ys) as Hl. simpl in Hl.
  destruct (broadcast f xs ys) as [zs|e]; simpl in *;
    repeat case_decide; congruence.
Qed.

Lemma vbinop_num_num f x y : vbinop f (VNum x) (VNum y) = Ok (VNum (f x y)).
Proof. reflexivity. Qed.

Lemma vbinop_num_arr f x ys :
  vbinop f (VNum x) (VArr ys) = Ok (VArr (f x <$> ys)).
Proof. reflexivity. Qed.

Lemma vbinop_arr_num f xs y :
  vbinop f (VArr xs) (VNum y) = Ok (VArr ((λ x, f x y) <$> xs)).
Proof. reflexivity. Qed.

Lemma vbinop_arr_arr f xs ys :
  length xs = length ys →
  vbinop f (VArr xs) (VArr ys) = Ok (VArr (zip_with f xs ys)).
Proof. intros Hlen. simpl. by rewrite broadcast_same_length. Qed.

Lemma vbinop_num_l f x b : vbinop f (VNum x) b = Ok (vmap (f x) b).
Proof. by destruct b. Qed.

Lemma vbinop_num_r f a y : vbinop f a (VNum y) = Ok (vmap (λ x, f x y) a).
Proof. by destruct a. Qed.

Lemma vbinop_is_Ok f a b :
  is_Ok (vbinop f a b) ↔ is_Some (bshape (vshape a) (vshape b)).
Proof.
  pose proof (vbinop_shape f a b) as Hs.
  destruct (vbinop f a b), (bshape _ _); simpl in Hs; simplify_eq;
    split; intros [??]; simplify_eq; eauto using is_Ok_Ok.
Qed.

Lemma vmap_num (g : R → R) x : vmap g (VNum x) = VNum (g x).
Proof. reflexivity. Qed.

Lemma vmap_arr (g : R → R) xs : vmap g (VArr xs) = VArr (g <$> xs).
Proof. reflexivity. Qed.

Lemma vshape_vmap (g : R → R) a : vshape (vmap g a) = vshape a.
Proof. destruct a; simpl; by rewrite ?length_fmap. Qed.

Lemma vmap_vmap (g h : R → R) a : vmap g (vmap h a) = vmap (g ∘ h) a.
Proof. destruct a; simpl; by rewrite <-?list_fmap_compose. Qed.

Lemma vmap_ext (g h : R → R) a : (∀ x, g x = h x) → vmap g a = vmap h a.
Proof.
  intros Hgh. destruct a as [x|xs]; simpl; f_equal; [done|].
  by apply list_fmap_ext.
Qed.

(** A function applied to every element of an operator's result can be
    made part of the operator. *)
Lemma broadcast_compose (g : R → R) f xs ys :
  fmap (M:=list) g <$> broadcast f xs ys = broadcast (λ x y, g (f x y)) xs ys.
Proof.
  unfold broadcast. case_decide.
  { rewrite fmap_Ok. f_equal. list_pointwise. }
  destruct xs as [|x [|??]], ys as [|y [|??]]; try done;
    rewrite fmap_Ok; f_equal; list_pointwise.
Qed.

Lemma vbinop_compose (g : R → R) f a b :
  vmap g <$> vbinop f a b = vbinop (λ x y, g (f x y)) a b.
Proof.
  destruct a as [x|xs], b as [y|ys]; simpl; rewrite <-?list_fmap_compose;
    try done.
  rewrite <-broadcast_compose. by destruct (broadcast f xs ys).
Qed.

(** Functions applied to every element of the operands can be made part
    of the operator, too. *)
Lemma broadcast_fmap_args (g1 g2 : R → R) f xs ys :
  broadcast f (g1 <$> xs) (g2 <$> ys) =
    broadcast (λ x y, f (g1 x) (g2 y)) xs ys.
Proof.
  unfold broadcast. rewrite !length_fmap. case_decide.
  { f_equal. list_pointwise. }
  destruct xs as [|x [|??]], ys as [|y [|??]]; try done;
    csimpl; by rewrite <-?list_fmap_compose.
Qed.

Lemma vbinop_vmap_args (g1 g2 : R → R) f a b :
  vbinop f (vmap g1 a) (vmap g2 b) = vbinop (λ x y, f (g1 x) (g2 y)) a b.
Proof.
  destruct a as [x|xs], b as [y|ys]; simpl; rewrite <-?list_fmap_compose;
    try done.
  by rewrite broadcast_fmap_args.
Qed.

(** The shape of a result does not depend on the operator. *)
Lemma vbinop_shape_indep f f' a b :
  vshape <$> vbinop f a b = vshape <$> vbinop f' a b.
Proof. by rewrite !vbinop_shape. Qed.

End vbinop.

#[export] Hint Rewrite @vbinop_num_num @vbinop_num_arr @vbinop_arr_num
  @vmap_num @vmap_arr : pemfc.
#[export] Hint Rewrite @vbinop_arr_arr using solve_length : pemfc.

(** [vsimpl] evaluates the operators on operands whose shapes are known;
    the lengths of arrays are compared with the hypotheses in context. *)
Ltac vsimpl :=
  unfold vadd, vsub, vmul, vdiv, vneg, vsquare, vzeros_like in *;
  autorewrite with pemfc.

(** ** Moving an elementwise map through an operator *)

(** Closes [g <$> l ≡ h <$> l] from the pointwise hypothesis in context. *)
Ltac solve_fmap_ext :=
  rewrite <-?list_fmap_compose; apply list_fmap_equiv_ext; intros; simpl; auto.

Section naturality.
Context `{Equiv R, !Equivalence (≡@{R})}.
Implicit Types (f : R → R → R) (g h : R → R) (xs ys : list R) (a b : value R).

Lemma vmap_id a : vmap id a = a.
Proof. destruct a; simpl; by rewrite ?list_fmap_id. Qed.

Lemma vmap_equiv_ext g h a : (∀ x, g x ≡ h x) → vmap g a ≡ vmap h a.
Proof.
  intros Hgh. destruct a; simpl; constructor; [done|]. solve_fmap_ext.
Qed.

Lemma zip_with_fmap_equiv f f' g1 g2 h xs ys :
  (∀ x y, f (g1 x) (g2 y) ≡ h (f' x y)) →
  zip_with f (g1 <$> xs) (g2 <$> ys) ≡ h <$> zip_with f' xs ys.
Proof.
  intros Hf. revert ys.
  induction xs as [|x xs IH]; intros [|y ys]; csimpl; constructor; auto.
Qed.

Lemma zip_with_flip_equiv f f' xs ys :
  (∀ x y, f x y ≡ f' y x) → zip_with f xs ys ≡ zip_with f' ys xs.
Proof.
  intros Hf. revert ys.
  induction xs as [|x xs IH]; intros [|y ys]; csimpl; constructor; auto.
Qed.

Lemma broadcast_fmap f f' g1 g2 h xs ys :
  (∀ x y, f (g1 x) (g2 y) ≡ h (f' x y)) →
  broadcast f (g1 <$> xs) (g2 <$> ys) ≡ fmap (M:=list) h <$> broadcast f' xs ys.
Proof.
  intros Hf. unfold broadcast. rewrite !length_fmap.
  case_decide; [constructor; by apply zip_with_fmap_equiv|].
  destruct xs as [|x [|??]], ys as [|y [|??]]; csimpl; try done;
    repeat constructor; auto; solve_fmap_ext.
Qed.

Lemma broadcast_flip f f' xs ys :
  (∀ x y, f x y ≡ f' y x) → broadcast f xs ys ≡ broadcast f' ys xs.
Proof.
  intros Hf. unfold broadcast.
  destruct (decide (length xs = length ys)) as [Hlen|Hlen].
  { rewrite decide_True by done. constructor. by apply zip_with_flip_equiv. }
  rewrite decide_False by done.
  destruct xs as [|x [|??]], ys as [|y [|??]]; csimpl; try done;
    repeat constructor; auto; solve_fmap_ext.
Qed.

(** The general form: maps on both operands against a map on the result. *)
Lemma vbinop_vmap f f' g1 g2 h a b :
  (∀ x y, f (g1 x) (g2 y) ≡ h (f' x y)) →
  vbinop f (vmap g1 a) (vmap g2 b) ≡ vmap h <$> vbinop f' a b.
Proof.
  intros Hf. destruct a as [x|xs], b as [y|ys]; simpl.
  - by do 2 constructor.
  - do 2 constructor. solve_fmap_ext.
  - do 2 constructor. solve_fmap_ext.
  - pose proof (broadcast_fmap f f' g1 g2 h xs ys Hf) as Hb.
    destruct (broadcast f' xs ys); inversion Hb; subst; simpl;
      by repeat constructor.
Qed.

Lemma vbinop_vmap_l f g h a b :
  (∀ x y, f (g x) y ≡ h (f x y)) →
  vbinop f (vmap g a) b ≡ vmap h <$> vbinop f a b.
Proof.
  intros Hf. rewrite <-(vmap_id b) at 1. by apply vbinop_vmap.
Qed.

Lemma vbinop_vmap_r f g h a b :
  (∀ x y, f x (g y) ≡ h (f x y)) →
  vbinop f a (vmap g b) ≡ vmap h <$> vbinop f a b.
Proof.
  intros Hf. rewrite <-(vmap_id a) at 1. by apply vbinop_vmap.
Qed.

Lemma vbinop_flip f f' a b :
  (∀ x y, f x y ≡ f' y x) → vbinop f a b ≡ vbinop f' b a.
Proof.
  intros Hf. destruct a as [x|xs], b as [y|ys]; simpl.
  - by do 2 constructor.
  - do 2 constructor. solve_fmap_ext.
  - do 2 constructor. solve_fmap_ext.
  - pose proof (broadcast_flip f f' xs ys Hf) as Hb.
    destruct Hb; simpl; by repeat constructor.
Qed.

Lemma vbinop_equiv_ext f f' a b :
  (∀ x y, f x y ≡ f' x y) → vbinop f a b ≡ vbinop f' a b.
Proof.
  intros Hf. rewrite <-(vmap_id a), <-(vmap_id b) at 1.
  rewrite (vbinop_vmap f f' id id id) by done.
  destruct (vbinop f' a b); simpl; [|done]. by rewrite vmap_id.
Qed.

End naturality.

(** ** Algebra of the operators over a field *)

Section field.
Context `{ScalarField R}.
Implicit Types (x y : R) (xs ys : list R) (a b v : value R).
Local Open Scope scalar_scope.

Add Field numpy_field : sf_field.

Lemma vbinop_post (f f' : R → R → R) (h : R → R) a b :
  (∀ x y, f x y ≡ h (f' x y)) → vbinop f a b ≡ vmap h <$> vbinop f' a b.
Proof.
  intros Hf. rewrite <-(vmap_id a), <-(vmap_id b) at 1.
  by apply vbinop_vmap.
Qed.

Lemma vmul_comm a b : vmul a b ≡ vmul b a.
Proof. apply vbinop_flip. intros. ring. Qed.

Lemma vadd_comm a b : vadd a b ≡ vadd b a.
Proof. apply vbinop_flip. intros. ring. Qed.

(** [b - a] is [-(a - b)]: the root of both antisymmetry properties. *)
Lemma vsub_swap a b : vsub b a ≡ vneg <$> vsub a b.
Proof.
  unfold vsub. rewrite (vbinop_flip ssub (flip ssub) b a) by done.
  apply vbinop_post. intros. unfold flip. ring.
Qed.

Lemma vmul_vneg_l a b : vmul (vneg a) b ≡ vneg <$> vmul a b.
Proof. apply vbinop_vmap_l. intros. ring. Qed.

Lemma vmul_vneg_r a b : vmul a (vneg b) ≡ vneg <$> vmul a b.
Proof. apply vbinop_vmap_r. intros. ring. Qed.

Lemma vdiv_vneg_l a b : vdiv (vneg a) b ≡ vneg <$> vdiv a b.
Proof. apply vbinop_vmap_l. intros. apply sdiv_opp_l. Qed.

Lemma vadd_vneg a b : vadd (vneg a) (vneg b) ≡ vneg <$> vadd a b.
Proof. apply vbinop_vmap. intros. ring. Qed.

Lemma vneg_vneg a : vneg (vneg a) ≡ a.
Proof.
  unfold vneg. rewrite vmap_vmap.
  trans (vmap id a); [|by rewrite vmap_id].
  apply vmap_equiv_ext. intros. simpl. ring.
Qed.

(** Multiplying by the number zero gives zeros of the same shape, and by
    the number one gives the operand back. *)
Lemma vmul_zero_l v : vmul (VNum 0) v ≡ Ok (vzeros_like v).
Proof.
  destruct v as [x|xs]; simpl; do 2 constructor; [ring|].
  solve_fmap_ext. ring.
Qed.

Lemma vmul_one_l v : vmul (VNum 1) v ≡ Ok v.
Proof.
  destruct v as [x|xs]; simpl; do 2 constructor; [ring|].
  rewrite <-(list_fmap_id xs) at 2. solve_fmap_ext. ring.
Qed.

Lemma vmul_zeros_r a b : vmul a (vzeros_like b) ≡ vzeros_like <$> vmul a b.
Proof. apply vbinop_vmap_r. intros. ring. Qed.

Lemma vmul_zeros_l a b : vmul (vzeros_like a) b ≡ vzeros_like <$> vmul a b.
Proof. apply vbinop_vmap_l. intros. ring. Qed.

Lemma vdiv_zeros_l a b : vdiv (vzeros_like a) b ≡ vzeros_like <$> vdiv a b.
Proof.
  apply vbinop_vmap_l. intros x y.
  change ((0 / y) ≡ 0). apply sdiv_0_l.
Qed.

Lemma vadd_zeros a b :
  vadd (vzeros_like a) (vzeros_like b) ≡ vzeros_like <$> vadd a b.
Proof. apply vbinop_vmap. intros. ring. Qed.

(** A value minus itself is zero everywhere. *)
(** An operator applied to a value and itself is a function applied to
    every element. *)
Lemma vbinop_diag f g a : (∀ x, f x x ≡ g x) → vbinop f a a ≡ Ok (vmap g a).
Proof.
  intros Hf. destruct a as [x|xs]; simpl.
  - by do 2 constructor.
  - rewrite broadcast_same_length by done. simpl. do 2 constructor.
    rewrite zip_with_diag. solve_fmap_ext.
Qed.

Lemma vsub_diag a : vsub a a ≡ Ok (vzeros_like a).
Proof. apply (vbinop_diag _ (λ _, 0)). intros. ring. Qed.

Lemma vzeros_like_idemp a : vzeros_like (vzeros_like a) = vzeros_like a.
Proof. unfold vzeros_like. by rewrite vmap_vmap. Qed.

Lemma vneg_zeros a : vneg (vzeros_like a) ≡ vzeros_like a.
Proof.
  unfold vneg, vzeros_like. rewrite vmap_vmap.
  apply vmap_equiv_ext. intros. simpl. ring.
Qed.

#[export] Instance vadd_proper : Proper ((≡) ==> (≡) ==> (≡)) (vadd (R:=R)).
Proof. apply vbinop_proper. apply sf_add_proper. Qed.

#[export] Instance vsub_proper : Proper ((≡) ==> (≡) ==> (≡)) (vsub (R:=R)).
Proof. apply vbinop_proper. apply sf_sub_proper. Qed.

#[export] Instance vmul_proper : Proper ((≡) ==> (≡) ==> (≡)) (vmul (R:=R)).
Proof. apply vbinop_proper. apply sf_mul_proper. Qed.

#[export] Instance vdiv_proper : Proper ((≡) ==> (≡) ==> (≡)) (vdiv (R:=R)).
Proof. apply vbinop_proper. apply sf_div_proper. Qed.

#[export] Instance vneg_proper : Proper ((≡) ==> (≡)) (vneg (R:=R)).
Proof. apply vmap_proper. apply sf_opp_proper. Qed.

#[export] Instance vsquare_proper : Proper ((≡) ==> (≡)) (vsquare (R:=R)).
Proof. apply vmap_proper. apply ssquare_proper. Qed.

#[export] Instance vzeros_like_proper :
  Proper ((≡) ==> (≡)) (vzeros_like (R:=R)).
Proof. apply vmap_proper. by intros ???. Qed.

End field.

(** ** Subscripts *)

Section getitem.
Context `{Scalar R}.
Implicit Types (x : R) (xs : list R) (v w : value R) (i : Z) (n k : nat).

Lemma py_index_nonneg n i :
  (0 ≤ i < Z.of_nat n)%Z → py_index n i = Some (Z.to_nat i).
Proof. intros Hi. unfold py_index. by rewrite decide_True. Qed.

Lemma py_index_neg n i :
  (- Z.of_nat n ≤ i < 0)%Z → py_index n i = Some (Z.to_nat (Z.of_nat n + i)).
Proof.
  intros Hi. unfold py_index.
  rewrite decide_False by lia. by rewrite decide_True.
Qed.

Lemma py_index_None n i :
  py_index n i = None ↔ (i < - Z.of_nat n ∨ Z.of_nat n ≤ i)%Z.
Proof. unfold py_index. repeat case_decide; split; intros; try done; lia. Qed.

Lemma py_index_lt n i k : py_index n i = Some k → k < n.
Proof. unfold py_index. repeat case_decide; intros; simplify_eq; lia. Qed.

(** The two ways of naming the same element. *)
Lemma py_index_wrap n i :
  (- Z.of_nat n ≤ i < 0)%Z → py_index n i = py_index n (Z.of_nat n + i).
Proof.
  intros Hi. rewrite py_index_neg by done. by rewrite py_index_nonneg by lia.
Qed.

Lemma getitem_num x i : getitem (VNum x) i = Raise TypeError.
Proof. reflexivity. Qed.

Lemma getitem_Ok xs i k x :
  py_index (length xs) i = Some k → xs !! k = Some x →
  getitem (VArr xs) i = Ok (VNum x).
Proof. intros Hk Hx. simpl. rewrite Hk. simpl. by rewrite Hx. Qed.

Lemma getitem_Ok_inv v i w :
  getitem v i = Ok w →
  ∃ xs k x, v = VArr xs ∧ py_index (length xs) i = Some k ∧
            xs !! k = Some x ∧ w = VNum x.
Proof.
  destruct v as [y|xs]; simpl; [done|].
  destruct (py_index (length xs) i) as [k|] eqn:Hk; simpl; [|done].
  destruct (xs !! k) as [x|] eqn:Hx; [|done].
  intros [= <-]. by exists xs, k, x.
Qed.

(** Subscripting an array either returns one of its elements or raises
    [IndexError], and it raises exactly when the index is out of range. *)
Lemma getitem_IndexError xs i :
  getitem (VArr xs) i = Raise IndexError ↔
  (i < - Z.of_nat (length xs) ∨ Z.of_nat (length xs) ≤ i)%Z.
Proof.
  rewrite <-py_index_None. simpl.
  destruct (py_index (length xs) i) as [k|] eqn:Hk; simpl; [|done].
  destruct (lookup_lt_is_Some_2 xs k) as [x ->];
    [by eapply py_index_lt | done].
Qed.

Lemma getitem_in_range xs i :
  (- Z.of_nat (length xs) ≤ i < Z.of_nat (length xs))%Z →
  ∃ x, getitem (VArr xs) i = Ok (VNum x) ∧ x ∈ xs.
Proof.
  intros Hi.
  destruct (py_index (length xs) i) as [k|] eqn:Hk;
    [|apply py_index_None in Hk; lia].
  destruct (lookup_lt_is_Some_2 xs k) as [x Hx]; [by eapply py_index_lt|].
  exists x. split; [by eapply getitem_Ok | by eapply list_elem_of_lookup_2].
Qed.

(** A negative index names the element [length + i]. *)
Lemma getitem_wrap xs i :
  (- Z.of_nat (length xs) ≤ i < 0)%Z →
  getitem (VArr xs) i = getitem (VArr xs) (Z.of_nat (length xs) + i).
Proof. intros Hi. simpl. by rewrite py_index_wrap. Qed.

Lemma getitem_nat xs k x :
  xs !! k = Some x → getitem (VArr xs) (Z.of_nat k) = Ok (VNum x).
Proof.
  intros Hx. apply getitem_Ok with k; [|done].
  rewrite py_index_nonneg, Nat2Z.id; [done|].
  apply lookup_lt_Some in Hx. lia.
Qed.

Lemma getitem_shape v i w : getitem v i = Ok w → vshape w = SNum.
Proof. intros (?&?&?&_&_&_&->)%getitem_Ok_inv. done. Qed.

End getitem.

Section getitem_setoid.
Context `{Scalar R, Equiv R}.

#[export] Instance getitem_proper :
  Proper ((≡) ==> (=) ==> (≡)) (getitem (R:=R)).
Proof.
  intros v w Hvw i ? <-.
  destruct Hvw as [x y ?|xs ys Hxy]; simpl; [constructor|].
  rewrite <-(length_proper _ _ Hxy).
  destruct (py_index (length xs) i) as [k|]; simpl; [|constructor].
  assert (xs !! k ≡ ys !! k) as Hk by (by apply list_equiv_lookup).
  destruct Hk; by repeat constructor.
Qed.

End getitem_setoid.

(** ** Properties of all entries *)

(** The entries of a value, and a property that all of them have.  An
    operator's result has a property on all its entries when the operator
    gives it on all pairs of entries of its operands. *)

Section entries.
Context {R : Type}.
Implicit Types (P Q : R → Prop) (f : R → R → R) (g : R → R)
  (xs ys zs : list R) (a b c : value R).

Definition velems a : list R :=
  match a with VNum x => [x] | VArr xs => xs end.

Definition vall P a : Prop := Forall P (velems a).

Lemma vall_True a : vall (λ _, True) a.
Proof. by apply Forall_forall. Qed.

Lemma vall_vmap P Q g a : (∀ x, P x → Q (g x)) → vall P a → vall Q (vmap g a).
Proof.
  intros Hg. destruct a as [x|xs]; unfold vall; cbn [velems vmap].
  - rewrite !Forall_singleton. auto.
  - intros Hxs. apply Forall_fmap. eapply Forall_impl; [done|]. apply Hg.
Qed.

Lemma broadcast_all P P' Q f xs ys zs :
  (∀ x y, P x → P' y → Q (f x y)) → Forall P xs → Forall P' ys →
  broadcast f xs ys = Ok zs → Forall Q zs.
Proof.
  intros Hf Hxs Hys Hb.
  destruct (decide (length xs = length ys)) as [Hl|Hl].
  { rewrite broadcast_same_length in Hb by done. injection Hb as <-.
    apply Forall_lookup. intros i z.
    rewrite lookup_zip_with_Some. intros (x & y & -> & Hx & Hy).
    apply Hf; by eapply Forall_lookup_1. }
  destruct (decide (length xs = 1)) as [H1|H1].
  { destruct xs as [|x [|??]]; try done. rewrite broadcast_stretch_l in Hb.
    injection Hb as <-. rewrite Forall_singleton in Hxs. apply Forall_fmap.
    eapply Forall_impl; [exact Hys|]. simpl. auto. }
  destruct (decide (length ys = 1)) as [H2|H2].
  { destruct ys as [|y [|??]]; try done. rewrite broadcast_stretch_r in Hb.
    injection Hb as <-. rewrite Forall_singleton in Hys. apply Forall_fmap.
    eapply Forall_impl; [exact Hxs|]. simpl. auto. }
  by rewrite broadcast_mismatch in Hb.
Qed.

Lemma vbinop_all P P' Q f a b c :
  (∀ x y, P x → P' y → Q (f x y)) → vall P a → vall P' b →
  vbinop f a b = Ok c → vall Q c.
Proof.
  intros Hf. destruct a as [x|xs], b as [y|ys]; unfold vall; cbn [velems vbinop].
  - rewrite !Forall_singleton. intros Hx Hy [= <-].
    apply Forall_singleton; auto.
  - rewrite Forall_singleton. intros Hx Hy [= <-]. apply Forall_fmap.
    eapply Forall_impl; [done|]. simpl. auto.
  - rewrite Forall_singleton. intros Hx Hy [= <-]. apply Forall_fmap.
    eapply Forall_impl; [done|]. simpl. auto.
  - intros Hx Hy. destruct (broadcast f xs ys) as [zs|e] eqn:Hb; [|done].
    intros [= <-]. by eapply broadcast_all.
Qed.

Lemma vbinop_all_l P Q f a b c :
  (∀ x y, P x → Q (f x y)) → vall P a → vbinop f a b = Ok c → vall Q c.
Proof.
  intros Hf Ha. apply (vbinop_all P (λ _, True)); auto using vall_True.
Qed.

Lemma vbinop_all_r P Q f a b c :
  (∀ x y, P y → Q (f x y)) → vall P b → vbinop f a b = Ok c → vall Q c.
Proof.
  intros Hf Hb. apply (vbinop_all (λ _, True) P); auto using vall_True.
Qed.

(** An operator applied to a value and itself. *)
Lemma vbinop_all_diag Q f a c :
  (∀ x, Q (f x x)) → vbinop f a a = Ok c → vall Q c.
Proof.
  intros Hf. destruct a as [x|xs]; unfold vall; cbn [velems vbinop].
  { intros [= <-]. by apply Forall_singleton. }
  rewrite broadcast_same_length by done. intros [= <-]. cbn [velems].
  apply Forall_lookup. intros i z. rewrite lookup_zip_with_Some.
  intros (x & y & -> & Hx & Hy). assert (x = y) as -> by congruence. apply Hf.
Qed.

End entries.

(** ** Computations that commute with negation *)

(** A continuation is odd when negating its argument negates its result
    (and an exception stays the same exception).  Products with a fixed
    operand are odd, and odd continuations compose; this is what carries
    the sign of a difference through a chain of products. *)

Section odd.
Context `{ScalarField R}.
Implicit Types (k : value R → result (value R)) (c v : value R).

Definition odd_k (k : value R → result (value R)) : Prop :=
  Proper ((≡) ==> (≡)) k ∧ ∀ v, k (vneg v) ≡ vneg <$> k v.

Lemma bind_odd (X Y : result (value R)) k :
  X ≡ vneg <$> Y → odd_k k → X ≫= k ≡ vneg <$> (Y ≫= k).
Proof.
  intros HXY [Hk Hodd]. destruct Y as [y|e]; simpl in *.
  - apply Ok_equiv_inv in HXY as (x & -> & Hx). simpl.
    rewrite <-Hodd. by apply Hk.
  - apply Raise_equiv_inv in HXY as ->. constructor.
Qed.

Lemma odd_vmul_l c : odd_k (λ v, vmul c v).
Proof.
  split; [intros v w Hvw; by apply vmul_proper | intros v; apply vmul_vneg_r].
Qed.

Lemma odd_vmul_r c : odd_k (λ v, vmul v c).
Proof.
  split; [intros v w Hvw; by apply vmul_proper | intros v; apply vmul_vneg_l].
Qed.

Lemma odd_vdiv_r c : odd_k (λ v, vdiv v c).
Proof.
  split; [intros v w Hvw; by apply vdiv_proper | intros v; apply vdiv_vneg_l].
Qed.

Lemma odd_bind k1 k2 : odd_k k1 → odd_k k2 → odd_k (λ v, k1 v ≫= k2).
Proof.
  intros [Hk1 Ho1] Hk2. split.
  - intros v w Hvw. apply result_bind_proper; [apply Hk2 | by apply Hk1].
  - intros v. by apply bind_odd.
Qed.

(** A step that does not look at the value (a lookup, a subscript) may
    come first. *)
Lemma odd_after {C} (m : result C) (k : C → value R → result (value R)) :
  (∀ x, odd_k (k x)) → odd_k (λ v, m ≫= λ x, k x v).
Proof.
  intros Hk. split.
  - intros v w Hvw. apply bind_equiv_ext. intros x. by apply (Hk x).
  - intros v. rewrite fmap_bind. apply bind_equiv_ext. intros x.
    apply (Hk x).
Qed.

End odd.
