(* ===== verification/Params.v ===== *)
(** * The parameter dictionaries

    Both kernels receive their coefficients in a Python dictionary [p]
    keyed by strings.  The dictionary is a finite map from strings to
    values; [p['k']] is [getkey], which raises [KeyError] for a missing
    key.

    The second half of the file gives the typed reading of the two
    dictionaries: the record of coefficients that [fickian_adf] expects
    ([planar_params]) and the one that [radial_fdiff] expects
    ([radial_params]), the dictionary each record stands for, and the
    relation [has_planar] / [has_radial] saying that a dictionary holds
    those coefficients (and possibly more keys). *)

From stdpp Require Import base tactics option list strings gmap.
From S2P Require Import Prelude Scalar NumPy.

(** ** Lookup *)

Section getkey.
Context {R : Type}.
Implicit Types (p : gmap string (value R)) (k : string) (v : value R).

(** [p[k]]. *)
Definition getkey (p : gmap string (value R)) (k : string) : result (value R) :=
  match p !! k with
  | Some v => Ok v
  | None => Raise (KeyError k)
  end.

Lemma getkey_Some p k v : p !! k = Some v → getkey p k = Ok v.
Proof. unfold getkey. by intros ->. Qed.

Lemma getkey_None p k : p !! k = None → getkey p k = Raise (KeyError k).
Proof. unfold getkey. by intros ->. Qed.

Lemma getkey_Ok_iff p k v : getkey p k = Ok v ↔ p !! k = Some v.
Proof. unfold getkey. destruct (p !! k); split; congruence. Qed.

(** The only exception a lookup raises is the [KeyError] of its key. *)
Lemma getkey_Raise_iff p k e :
  getkey p k = Raise e ↔ p !! k = None ∧ e = KeyError k.
Proof.
  unfold getkey. destruct (p !! k).
  - split; [done | by intros [??]].
  - split; [by intros [= <-] | by intros [_ ->]].
Qed.

Lemma getkey_insert p k v : getkey (<[k:=v]> p) k = Ok v.
Proof. apply getkey_Some, lookup_insert_eq. Qed.

Lemma getkey_insert_ne p k k' v :
  k ≠ k' → getkey (<[k:=v]> p) k' = getkey p k'.
Proof. intros Hne. unfold getkey. by rewrite lookup_insert_ne. Qed.

Lemma getkey_delete p k : getkey (delete k p) k = Raise (KeyError k).
Proof. apply getkey_None, lookup_delete_eq. Qed.

Lemma getkey_delete_ne p k k' :
  k ≠ k' → getkey (delete k p) k' = getkey p k'.
Proof. intros Hne. unfold getkey. by rewrite lookup_delete_ne. Qed.

(** A larger dictionary answers every lookup the smaller one answers. *)
Lemma getkey_subseteq p p' k v :
  p ⊆ p' → getkey p k = Ok v → getkey p' k = Ok v.
Proof.
  rewrite !getkey_Ok_iff. intros Hsub Hk. by eapply lookup_weaken.
Qed.

End getkey.

#[export] Hint Rewrite @getkey_insert : pemfc.
#[export] Hint Rewrite @getkey_insert_ne @getkey_delete_ne using done : pemfc.

(** ** The coefficients of the planar kernel *)

(** The keys ['wt1'], ['wt2'], ['K_g'], ['1/dy'] and ['eps/tau2']: the
    weights of the two nodes in the boundary averages, the permeability,
    the inverse of the distance between the nodes, and the porosity over
    the squared tortuosity. *)
Record planar_params (R : Type) : Type := PlanarParams {
  wt1 : R;
  wt2 : R;
  K_g : R;
  inv_dy : R;
  eps_tau2 : R }.

Arguments PlanarParams {R} _ _ _ _ _.
Arguments wt1 {R} _.
Arguments wt2 {R} _.
Arguments K_g {R} _.
Arguments inv_dy {R} _.
Arguments eps_tau2 {R} _.

Definition planar_dict {R} (q : planar_params R) : gmap string (value R) :=
  <["wt1" := VNum (wt1 q)]> (<["wt2" := VNum (wt2 q)]> (<["K_g" := VNum (K_g q)]>
  (<["1/dy" := VNum (inv_dy q)]> (<["eps/tau2" := VNum (eps_tau2 q)]> ∅)))).

Definition has_planar {R} (p : gmap string (value R)) (q : planar_params R) : Prop :=
  planar_dict q ⊆ p.

(** The dictionary of the call with the two nodes exchanged. *)
Definition swap_weights {R} (q : planar_params R) : planar_params R :=
  PlanarParams (wt2 q) (wt1 q) (K_g q) (inv_dy q) (eps_tau2 q).

(** ** The coefficients of the radial kernel *)

(** The keys ['D_eff_naf'], ['p_eff_SAnaf'], ['eps/tau2_n2'] (numbers) and
    ['r_jph'], ['1/dr'], ['1/r_j'], ['1/t_shl'] (one entry per node). *)
Record radial_params (R : Type) : Type := RadialParams {
  D_eff_naf : R;
  p_eff_SAnaf : R;
  eps_tau2_n2 : R;
  r_jph : list R;
  inv_dr : list R;
  inv_r_j : list R;
  inv_t_shl : list R }.

Arguments RadialParams {R} _ _ _ _ _ _ _.
Arguments D_eff_naf {R} _.
Arguments p_eff_SAnaf {R} _.
Arguments eps_tau2_n2 {R} _.
Arguments r_jph {R} _.
Arguments inv_dr {R} _.
Arguments inv_r_j {R} _.
Arguments inv_t_shl {R} _.

(** The keys both variants read. *)
Definition radial_dict_core {R} (q : radial_params R) : gmap string (value R) :=
  <["D_eff_naf" := VNum (D_eff_naf q)]> (<["p_eff_SAnaf" := VNum (p_eff_SAnaf q)]>
  (<["eps/tau2_n2" := VNum (eps_tau2_n2 q)]> (<["r_jph" := VArr (r_jph q)]>
  (<["1/dr" := VArr (inv_dr q)]> ∅)))).

(** All seven keys. *)
Definition radial_dict {R} (q : radial_params R) : gmap string (value R) :=
  <["1/r_j" := VArr (inv_r_j q)]> (<["1/t_shl" := VArr (inv_t_shl q)]>
  (radial_dict_core q)).

Definition has_radial_core {R} (p : gmap string (value R)) (q : radial_params R) : Prop :=
  radial_dict_core q ⊆ p.

Definition has_radial {R} (p : gmap string (value R)) (q : radial_params R) : Prop :=
  radial_dict q ⊆ p.

(** ** Reading a typed dictionary *)

Section typed.
Context {R : Type}.
Implicit Types (p : gmap string (value R)).

(** Solves [m !! k = Some v] for a dictionary built from inserts. *)
Ltac solve_lookup :=
  repeat (rewrite lookup_insert_ne by done); by rewrite lookup_insert_eq.

Lemma has_planar_lookup p q :
  has_planar p q →
  getkey p "wt1" = Ok (VNum (wt1 q)) ∧ getkey p "wt2" = Ok (VNum (wt2 q)) ∧
  getkey p "K_g" = Ok (VNum (K_g q)) ∧ getkey p "1/dy" = Ok (VNum (inv_dy q)) ∧
  getkey p "eps/tau2" = Ok (VNum (eps_tau2 q)).
Proof.
  intros Hp.
  repeat split; apply getkey_Some;
    (eapply lookup_weaken; [|exact Hp]); unfold planar_dict; solve_lookup.
Qed.

Lemma has_planar_dict (q : planar_params R) : has_planar (planar_dict q) q.
Proof. unfold has_planar. reflexivity. Qed.

Lemma has_radial_core_lookup p q :
  has_radial_core p q →
  getkey p "D_eff_naf" = Ok (VNum (D_eff_naf q)) ∧
  getkey p "p_eff_SAnaf" = Ok (VNum (p_eff_SAnaf q)) ∧
  getkey p "eps/tau2_n2" = Ok (VNum (eps_tau2_n2 q)) ∧
  getkey p "r_jph" = Ok (VArr (r_jph q)) ∧
  getkey p "1/dr" = Ok (VArr (inv_dr q)).
Proof.
  intros Hp.
  repeat split; apply getkey_Some;
    (eapply lookup_weaken; [|exact Hp]); unfold radial_dict_core; solve_lookup.
Qed.

Lemma has_radial_core_of p q : has_radial p q → has_radial_core p q.
Proof.
  unfold has_radial, has_radial_core, radial_dict. intros Hp.
  trans (<["1/r_j":=VArr (inv_r_j q)]>
           (<["1/t_shl":=VArr (inv_t_shl q)]> (radial_dict_core q))); [|done].
  etrans; [|apply insert_subseteq; by rewrite lookup_insert_ne].
  by apply insert_subseteq.
Qed.

Lemma has_radial_dict (q : radial_params R) : has_radial (radial_dict q) q.
Proof. unfold has_radial. reflexivity. Qed.

Lemma has_radial_lookup p q :
  has_radial p q →
  getkey p "1/r_j" = Ok (VArr (inv_r_j q)) ∧
  getkey p "1/t_shl" = Ok (VArr (inv_t_shl q)).
Proof.
  intros Hp.
  repeat split; apply getkey_Some;
    (eapply lookup_weaken; [|exact Hp]); unfold radial_dict; solve_lookup.
Qed.

End typed.
