(* ===== verification/Provider.v ===== *)
(** * The property provider

    [fickian_adf] receives a Cantera solution object [gas].  It assigns a
    state to it ([gas.TDY = ...]) and then reads five attributes off it.
    The object is not part of the repository; this file states the
    interface the kernel consumes:

    - [Provider]: the assignment and the five attributes, over any type
      [G] of provider objects.  Assigning a state may raise, and returns
      the object as the assignment left it;
    - [LawfulProvider]: what the kernel's properties need the object to
      promise: the attributes after a successful assignment are a function
      [props_at] of the state that was assigned (the pure query), an
      assignment succeeds exactly when that function is defined, and the
      per-species attributes have one entry per species;
    - two providers to run the kernels on: [pure_provider], built from any
      such function, and [scripted_provider], a test double that serves a
      prepared list of attribute records whatever state is assigned. *)

From stdpp Require Import base tactics option list strings.
From S2P Require Import Prelude Scalar NumPy.

(** ** States and attributes *)

(** A thermodynamic state: temperature, mass density, mass fractions. *)
Record TDY (R : Type) : Type := MkTDY {
  tdy_T : R;
  tdy_D : R;
  tdy_Y : list R }.

Arguments MkTDY {R} _ _ _.
Arguments tdy_T {R} _.
Arguments tdy_D {R} _.
Arguments tdy_Y {R} _.

(** The attributes the kernel reads, as one record. *)
Record props (R : Type) : Type := Props {
  pr_D_k : list R;
  pr_rho : R;
  pr_mu : R;
  pr_P : R;
  pr_Y : list R }.

Arguments Props {R} _ _ _ _ _.
Arguments pr_D_k {R} _.
Arguments pr_rho {R} _.
Arguments pr_mu {R} _.
Arguments pr_P {R} _.
Arguments pr_Y {R} _.

(** ** The interface *)

Class Provider (R G : Type) : Type := {
  set_TDY : TDY R → prog G unit;
  mix_diff_coeffs_mass : G → list R;
  density_mass : G → R;
  viscosity : G → R;
  gas_P : G → R;
  gas_Y : G → list R }.

(** All attributes of the object at once. *)
Definition snapshot `{Provider R G} (g : G) : props R :=
  Props (mix_diff_coeffs_mass g) (density_mass g) (viscosity g) (gas_P g) (gas_Y g).

(** The per-species attributes of a record have [n] entries. *)
Definition props_species {R} (n : nat) (pr : props R) : Prop :=
  length (pr_D_k pr) = n ∧ length (pr_Y pr) = n.

Class LawfulProvider (R G : Type) `{Provider R G} : Type := {
  n_species : nat;
  props_at : TDY R → result (props R);
  set_TDY_Ok s g pr :
    props_at s = Ok pr → ∃ g', set_TDY s g = (Ok (), g') ∧ snapshot g' = pr;
  set_TDY_Raise s g e :
    props_at s = Raise e → ∃ g', set_TDY s g = (Raise e, g');
  props_at_species s pr : props_at s = Ok pr → props_species n_species pr }.

Arguments n_species {R} G {_ _}.
Arguments props_at {R} G {_ _} s.

(** ** Consequences of the laws *)

Section lawful.
Context `{LawfulProvider R G}.
Implicit Types (s : TDY R) (g : G) (pr : props R).

(** Whether an assignment succeeds does not depend on the object. *)
Lemma set_TDY_outcome s g :
  (set_TDY s g).1 = (λ _, ()) <$> props_at G s.
Proof.
  destruct (props_at G s) as [pr|e] eqn:Hs; simpl.
  - by destruct (set_TDY_Ok s g pr Hs) as (g' & -> & _).
  - by destruct (set_TDY_Raise s g e Hs) as (g' & ->).
Qed.

Lemma set_TDY_Ok_inv s g g' :
  set_TDY s g = (Ok (), g') → props_at G s = Ok (snapshot g').
Proof.
  intros Hset. destruct (props_at G s) as [pr|e] eqn:Hs.
  - destruct (set_TDY_Ok s g pr Hs) as (g'' & Hset' & <-). congruence.
  - destruct (set_TDY_Raise s g e Hs) as (g'' & Hset'). congruence.
Qed.

(** What is read after an assignment does not depend on what the object
    held before. *)
Lemma set_TDY_deterministic s g1 g2 g1' g2' :
  set_TDY s g1 = (Ok (), g1') → set_TDY s g2 = (Ok (), g2') →
  snapshot g1' = snapshot g2'.
Proof.
  intros H1%set_TDY_Ok_inv H2%set_TDY_Ok_inv. congruence.
Qed.

Lemma set_TDY_species s g g' :
  set_TDY s g = (Ok (), g') → props_species (n_species G) (snapshot g').
Proof. intros Hset%set_TDY_Ok_inv. by eapply props_at_species. Qed.

End lawful.

(** ** A provider from a pure query *)

(** The object holds the attributes of the state assigned last; a state
    the query refuses leaves it as it was. *)
Definition pure_provider {R} (f : TDY R → result (props R)) : Provider R (props R) := {|
  set_TDY s g := match f s with Ok pr => (Ok (), pr) | Raise e => (Raise e, g) end;
  mix_diff_coeffs_mass := pr_D_k;
  density_mass := pr_rho;
  viscosity := pr_mu;
  gas_P := pr_P;
  gas_Y := pr_Y |}.

Lemma pure_provider_snapshot {R} (f : TDY R → result (props R)) (g : props R) :
  @snapshot R _ (pure_provider f) g = g.
Proof. by destruct g. Qed.

Definition pure_provider_lawful {R} (f : TDY R → result (props R)) (n : nat)
    (Hn : ∀ s pr, f s = Ok pr → props_species n pr) :
  @LawfulProvider R (props R) (pure_provider f).
Proof.
  refine {| n_species := n; props_at := f |}.
  - intros s g pr Hs. exists pr. simpl. rewrite Hs.
    by rewrite pure_provider_snapshot.
  - intros s g e Hs. exists g. simpl. by rewrite Hs.
  - exact Hn.
Defined.

(** ** A scripted provider *)

(** The object holds the records still to be served and the current one;
    an assignment moves to the next record and ignores the state.  It
    raises when the script is exhausted. *)
Definition scripted_provider {R} : Provider R (list (props R) * props R) := {|
  set_TDY s g :=
    match g.1 with
    | pr :: rest => (Ok (), (rest, pr))
    | [] => (Raise (CanteraError "script exhausted"), g)
    end;
  mix_diff_coeffs_mass g := pr_D_k g.2;
  density_mass g := pr_rho g.2;
  viscosity g := pr_mu g.2;
  gas_P g := pr_P g.2;
  gas_Y g := pr_Y g.2 |}.
