(* ===== verification/Fixtures.v ===== *)
(** * Concrete inputs

    The inputs on which the theorems of the development are applied and
    the kernels are run: a two-species provider over the rationals built
    from a pure query ([ideal_gas]), thermodynamic states, and parameter
    dictionaries for both kernels.  None of this is code of the
    repository; the provider stands in for Cantera, with an ideal-gas
    pressure and constant transport coefficients. *)

From Stdlib Require Import QArith.
From stdpp Require Import base tactics option list strings gmap.
From S2P Require Import Prelude Scalar NumPy Params Provider.

Local Open Scope Q_scope.

(** ** A provider *)

(** The attributes of a state: refused unless it has two mass fractions, a
    positive temperature and a positive density. *)
Definition ideal_props (s : TDY Q) : result (props Q) :=
  if decide (length (tdy_Y s) = 2%nat) then
    if Qlt_le_dec 0 (tdy_T s) then
      if Qlt_le_dec 0 (tdy_D s) then
        Ok (Props [2 # 100000; 3 # 100000] (tdy_D s) (2 # 100000)
              (tdy_D s * 287 * tdy_T s) (tdy_Y s))
      else Raise (CanteraError "density")
    else Raise (CanteraError "temperature")
  else Raise (CanteraError "species").

Lemma ideal_props_species s pr :
  ideal_props s = Ok pr → props_species 2 pr.
Proof.
  unfold ideal_props. repeat case_match; intros; simplify_result.
  by split.
Qed.

Definition ideal_gas : Provider Q (props Q) := pure_provider ideal_props.

Definition ideal_gas_lawful : @LawfulProvider Q (props Q) ideal_gas :=
  pure_provider_lawful ideal_props 2 ideal_props_species.

(** A provider object that has not been assigned a state yet. *)
Definition gas0 : props Q := Props [] 0 0 0 [].

(** ** States *)

Definition state_a : TDY Q := MkTDY 350 1 [1 # 2; 1 # 2].

Definition state_b : TDY Q := MkTDY 340 (9 # 10) [3 # 10; 7 # 10].

(** What the provider reports at the two states. *)
Definition props_a : props Q :=
  Props [2 # 100000; 3 # 100000] 1 (2 # 100000) (1 * 287 * 350) [1 # 2; 1 # 2].

Definition props_b : props Q :=
  Props [2 # 100000; 3 # 100000] (9 # 10) (2 # 100000) ((9 # 10) * 287 * 340)
    [3 # 10; 7 # 10].

(** A colder state of the composition of [state_a], at a lower
    pressure. *)
Definition state_c : TDY Q := MkTDY 340 1 [1 # 2; 1 # 2].

Definition props_c : props Q :=
  Props [2 # 100000; 3 # 100000] 1 (2 # 100000) (1 * 287 * 340) [1 # 2; 1 # 2].

(** A state the provider refuses. *)
Definition state_bad : TDY Q := MkTDY 350 (-1) [1 # 2; 1 # 2].

(** ** Dictionaries *)

(** An interior interface: both weights one half. *)
Definition planar_q : planar_params Q :=
  PlanarParams (1 # 2) (1 # 2) (1 # 1000000) 100 (1 # 2).

Definition planar_p : gmap string (value Q) := planar_dict planar_q.

(** An interface between two domains: weights one quarter and three
    quarters. *)
Definition planar_q' : planar_params Q :=
  PlanarParams (1 # 4) (3 # 4) (1 # 1000000) 100 (1 # 2).

(** Three radial nodes. *)
Definition radial_q : radial_params Q :=
  RadialParams (1 # 1000) (1 # 2) (1 # 4) [1; 2; 3] [10; 20; 30]
    [1 # 2; 1 # 3; 1 # 4] [5; 6; 7].

Definition radial_p : gmap string (value Q) := radial_dict radial_q.
