(* ===== verification/Fickian.v ===== *)
(** * The planar kernel: [fickian_adf]

    [fickian_adf(TDY1, TDY2, gas, p, tog)] of
    [src/Shared_Funcs/pemfc_transport_funcs.py], lines 12 to 59: the mass
    flux of every species from node 1 into node 2, from a pressure-driven
    term and a term driven by the gradient of the mass fractions, both
    formed with properties averaged over the two nodes.

    The model follows the source statement by statement.  [node_props]
    assigns a state to the provider and reads the attributes (lines 26 to
    32, and again 35 to 41); [wavg] is one weighted average (each of lines
    46 to 49); [J_conv], [J_diff] and [mass_flux] are lines 52, 53 and 56.
    The provider is threaded as the state of [prog], so that the theorems
    can say what the object holds after the call, also when the call
    raises.

    [fickian_spec] is the specification: the flux of one species as a
    closed formula ([flux_k]) applied to every species.  The refinement
    theorem [fickian_adf_refines] says that the code computes exactly this
    list, over any scalars, hence also in floating point.  The algebraic
    properties (gating and scaling by the toggle, zero gradient,
    antisymmetry, averaging, and the advective term [darcy_k] alone
    between nodes of one composition) are proved over a field. *)

From Stdlib Require Import QArith.
From stdpp Require Import base tactics option list strings gmap.
From S2P Require Import Prelude Scalar NumPy Params Provider Fixtures.

(** ** Data *)

(** The toggle [tog]: the callers pass [0] or [1]; Python accepts a
    boolean or any number in its place. *)
Inductive toggle (R : Type) : Type :=
| TogBool (b : bool)
| TogNum (x : R).

Arguments TogBool {R} b.
Arguments TogNum {R} x.

(** The local variables of one node: [D_k1], [rho1], [mu1], [P1], [Y1],
    [rho_k1]. *)
Record node (R : Type) : Type := Node {
  n_D_k : value R;
  n_rho : value R;
  n_mu : value R;
  n_P : value R;
  n_Y : value R;
  n_rho_k : value R }.

Arguments Node {R} _ _ _ _ _ _.
Arguments n_D_k {R} _.
Arguments n_rho {R} _.
Arguments n_mu {R} _.
Arguments n_P {R} _.
Arguments n_Y {R} _.
Arguments n_rho_k {R} _.

(** ** The kernel *)

Section kernel.
Context `{Scalar R, Provider R G}.
Local Open Scope scalar_scope.

(** The number a toggle multiplies with. *)
Definition tog_num (t : toggle R) : R :=
  match t with
  | TogBool b => if b then 1 else 0
  | TogNum x => x
  end.

Definition tog_value (t : toggle R) : value R := VNum (tog_num t).

(** [gas.TDY = TDY1] and the six assignments that follow it. *)
Definition node_props (s : TDY R) : prog G (node R) :=
  _ ← set_TDY s;
  D_k ← gets mix_diff_coeffs_mass;
  rho ← gets density_mass;
  mu ← gets viscosity;
  P ← gets gas_P;
  Y ← gets gas_Y;
  rho_k ← lift (vmul (VNum rho) (VArr Y));
  mret (Node (VArr D_k) (VNum rho) (VNum mu) (VNum P) (VArr Y) rho_k).

(** [p['wt1']*x1 + p['wt2']*x2]. *)
Definition wavg (p : gmap string (value R)) (x1 x2 : value R) : result (value R) :=
  w1 ← getkey p "wt1";
  a ← vmul w1 x1;
  w2 ← getkey p "wt2";
  b ← vmul w2 x2;
  vadd a b.

(** [-rho_k*p['K_g']*(P2 - P1)*p['1/dy'] / mu]. *)
Definition J_conv (p : gmap string (value R)) (rho_k P1 P2 mu : value R) : result (value R) :=
  K ← getkey p "K_g";
  a ← vmul (vneg rho_k) K;
  dP ← vsub P2 P1;
  b ← vmul a dP;
  dy ← getkey p "1/dy";
  c ← vmul b dy;
  vdiv c mu.

(** [-p['eps/tau2']*D_k*rho*(Y2 - Y1)*p['1/dy']]. *)
Definition J_diff (p : gmap string (value R)) (D_k rho Y1 Y2 : value R) : result (value R) :=
  et ← getkey p "eps/tau2";
  a ← vmul (vneg et) D_k;
  b ← vmul a rho;
  dY ← vsub Y2 Y1;
  c ← vmul b dY;
  dy ← getkey p "1/dy";
  vmul c dy.

(** [J_conv + J_diff], before the toggle is applied. *)
Definition net_flux (p : gmap string (value R)) (n1 n2 : node R) : result (value R) :=
  D_k ← wavg p (n_D_k n1) (n_D_k n2);
  rho ← wavg p (n_rho n1) (n_rho n2);
  mu ← wavg p (n_mu n1) (n_mu n2);
  rho_k ← wavg p (n_rho_k n1) (n_rho_k n2);
  Jc ← J_conv p rho_k (n_P n1) (n_P n2) mu;
  Jd ← J_diff p D_k rho (n_Y n1) (n_Y n2);
  vadd Jc Jd.

(** [tog*(J_conv + J_diff)]. *)
Definition mass_flux (tog : toggle R) (J : value R) : result (value R) :=
  vmul (tog_value tog) J.

(** The function: what it returns or raises, and the provider after the
    call. *)
Definition fickian_adf (TDY1 TDY2 : TDY R) (gas : G)
    (p : gmap string (value R)) (tog : toggle R) : result (value R) * G :=
  (n1 ← node_props TDY1;
   n2 ← node_props TDY2;
   lift (net_flux p n1 n2 ≫= mass_flux tog)) gas.

(** ** The specification *)

(** The flux of one species, from the attributes [a] and [b] of the two
    nodes, the species' diffusion coefficients [d1], [d2] and mass
    fractions [y1], [y2] at the two nodes. *)
Definition flux_k (q : planar_params R) (a b : props R) (tog : R)
    (d1 d2 y1 y2 : R) : R :=
  let D_k := wt1 q * d1 + wt2 q * d2 in
  let rho := wt1 q * pr_rho a + wt2 q * pr_rho b in
  let mu := wt1 q * pr_mu a + wt2 q * pr_mu b in
  let rho_k := wt1 q * (pr_rho a * y1) + wt2 q * (pr_rho b * y2) in
  let J_conv := - rho_k * K_g q * (pr_P b - pr_P a) * inv_dy q / mu in
  let J_diff := - eps_tau2 q * D_k * rho * (y2 - y1) * inv_dy q in
  tog * (J_conv + J_diff).

(** The advective term of one species with mass fraction [y] at both
    nodes, times the toggle: step 4 of the algorithm. *)
Definition darcy_k (q : planar_params R) (a b : props R) (tog : R) (y : R) : R :=
  tog * (- (wt1 q * (pr_rho a * y) + wt2 q * (pr_rho b * y)) * K_g q *
           (pr_P b - pr_P a) * inv_dy q /
         (wt1 q * pr_mu a + wt2 q * pr_mu b)).

(** Per species: the diffusion coefficients at the two nodes and the mass
    fractions at the two nodes. *)
Definition species_rows (a b : props R) : list ((R * R) * (R * R)) :=
  zip (zip (pr_D_k a) (pr_D_k b)) (zip (pr_Y a) (pr_Y b)).

Definition fickian_spec (q : planar_params R) (a b : props R) (tog : R) : list R :=
  (λ r, flux_k q a b tog r.1.1 r.1.2 r.2.1 r.2.2) <$> species_rows a b.

(** Both nodes describe the same [n] species. *)
Definition species_wf (n : nat) (a b : props R) : Prop :=
  props_species n a ∧ props_species n b.

End kernel.

(** ** Running the kernel *)

Section run.
Context `{Scalar R, Provider R G}.
Implicit Types (s : TDY R) (g gas : G) (p : gmap string (value R))
  (q : planar_params R) (tog : toggle R) (e : exn).
Local Open Scope scalar_scope.

(** The node read off the provider [g]. *)
Definition node_of (g : G) : node R :=
  Node (VArr (mix_diff_coeffs_mass g)) (VNum (density_mass g))
    (VNum (viscosity g)) (VNum (gas_P g)) (VArr (gas_Y g))
    (VArr (smul (density_mass g) <$> gas_Y g)).

Lemma node_props_Ok s g g' :
  set_TDY s g = (Ok (), g') → node_props s g = (Ok (node_of g'), g').
Proof. intros Hs. unfold node_props, mbind, prog_bind. by rewrite Hs. Qed.

Lemma node_props_Raise s g g' e :
  set_TDY s g = (Raise e, g') → node_props s g = (Raise e, g').
Proof. intros Hs. unfold node_props, mbind, prog_bind. by rewrite Hs. Qed.

(** [node_props] returns or raises as the assignment does, and leaves the
    provider as the assignment left it. *)
Lemma node_props_state s g : (node_props s g).2 = (set_TDY s g).2.
Proof.
  destruct (set_TDY s g) as [[[]|e] g'] eqn:Hs.
  - by rewrite (node_props_Ok _ _ _ Hs).
  - by rewrite (node_props_Raise _ _ _ _ Hs).
Qed.

(** The three ways a call can go: the first assignment raises, the second
    one raises, or both return and the arithmetic decides. *)
Lemma fickian_adf_unfold s1 s2 gas p tog :
  fickian_adf s1 s2 gas p tog =
    match set_TDY s1 gas with
    | (Raise e, g') => (Raise e, g')
    | (Ok _, g1) =>
        match set_TDY s2 g1 with
        | (Raise e, g') => (Raise e, g')
        | (Ok _, g2) =>
            (net_flux p (node_of g1) (node_of g2) ≫= mass_flux tog, g2)
        end
    end.
Proof.
  unfold fickian_adf.
  destruct (set_TDY s1 gas) as [[[]|e] g1] eqn:H1.
  - rewrite (prog_bind_Ok _ _ _ _ _ (node_props_Ok _ _ _ H1)).
    destruct (set_TDY s2 g1) as [[[]|e] g2] eqn:H2.
    + by rewrite (prog_bind_Ok _ _ _ _ _ (node_props_Ok _ _ _ H2)).
    + by rewrite (prog_bind_Raise _ _ _ _ _ (node_props_Raise _ _ _ _ H2)).
  - by rewrite (prog_bind_Raise _ _ _ _ _ (node_props_Raise _ _ _ _ H1)).
Qed.

(** After two successful assignments the call is the pure part of the
    function, run on the two nodes that were read. *)
Lemma fickian_adf_run s1 s2 gas p tog g1 g2 :
  set_TDY s1 gas = (Ok (), g1) → set_TDY s2 g1 = (Ok (), g2) →
  fickian_adf s1 s2 gas p tog =
    (net_flux p (node_of g1) (node_of g2) ≫= mass_flux tog, g2).
Proof. intros H1 H2. by rewrite fickian_adf_unfold, H1, H2. Qed.

(** The toggle multiplies every entry of the flux. *)
Lemma mass_flux_vmap tog J :
  mass_flux tog J = Ok (vmap (smul (tog_num tog)) J).
Proof. unfold mass_flux, tog_value, vmul. apply vbinop_num_l. Qed.

(** What a call returns is the flux before the toggle, every entry
    multiplied by the toggle; the flux before the toggle, the exception
    and the provider after the call do not depend on the toggle. *)
Lemma fickian_adf_toggle s1 s2 gas p :
  ∃ r g, ∀ tog,
    fickian_adf s1 s2 gas p tog = (vmap (smul (tog_num tog)) <$> r, g).
Proof.
  destruct (set_TDY s1 gas) as [[[]|e] g1] eqn:H1.
  2: { exists (Raise e), g1. intros tog. by rewrite fickian_adf_unfold, H1. }
  destruct (set_TDY s2 g1) as [[[]|e] g2] eqn:H2.
  2: { exists (Raise e), g2. intros tog.
       by rewrite fickian_adf_unfold, H1, H2. }
  exists (net_flux p (node_of g1) (node_of g2)), g2. intros tog.
  rewrite (fickian_adf_run _ _ _ _ _ _ _ H1 H2).
  destruct (net_flux p _ _) as [J|e]; [|done].
  by rewrite bind_Ok, fmap_Ok, mass_flux_vmap.
Qed.

(** C17: a state that the provider refuses for node 1 ends the call with
    the provider's exception, unchanged, before node 2 is looked at; the
    provider is left as the failed assignment left it. *)
Theorem fickian_adf_raises_first s1 s2 gas p tog e g' :
  set_TDY s1 gas = (Raise e, g') →
  fickian_adf s1 s2 gas p tog = (Raise e, g').
Proof. intros H1. by rewrite fickian_adf_unfold, H1. Qed.

(** C18: a state that the provider refuses for node 2 ends the call with
    the provider's exception; the provider has been moved to node 1
    by then and is not moved back. *)
Theorem fickian_adf_raises_second s1 s2 gas p tog e g1 g' :
  set_TDY s1 gas = (Ok (), g1) → set_TDY s2 g1 = (Raise e, g') →
  fickian_adf s1 s2 gas p tog = (Raise e, g').
Proof. intros H1 H2. by rewrite fickian_adf_unfold, H1, H2. Qed.

(** C16: whatever the dictionary and the toggle are, and whether the
    arithmetic returns or raises, the provider is left holding the state
    of node 2. *)
Theorem fickian_adf_leaves_state2 s1 s2 gas p tog g1 g2 :
  set_TDY s1 gas = (Ok (), g1) → set_TDY s2 g1 = (Ok (), g2) →
  (fickian_adf s1 s2 gas p tog).2 = g2.
Proof. intros H1 H2. by rewrite (fickian_adf_run _ _ _ _ _ _ _ H1 H2). Qed.

(** One average of lines 46 to 49, as one NumPy operator on the two
    operands, and on the two shapes the provider gives. *)
Lemma wavg_spec p q a b :
  has_planar p q →
  wavg p a b = vbinop (λ x y, wt1 q * x + wt2 q * y) a b.
Proof.
  intros (Hw1 & Hw2 & _)%has_planar_lookup.
  unfold wavg, vmul. rewrite Hw1, Hw2.
  rewrite bind_Ok, vbinop_num_l, bind_Ok, bind_Ok, vbinop_num_l, bind_Ok.
  apply vbinop_vmap_args.
Qed.

Lemma wavg_num p q x y :
  has_planar p q →
  wavg p (VNum x) (VNum y) = Ok (VNum (wt1 q * x + wt2 q * y)).
Proof. intros Hp. by rewrite (wavg_spec p q). Qed.

Lemma wavg_arr p q xs ys :
  has_planar p q → length xs = length ys →
  wavg p (VArr xs) (VArr ys) =
    Ok (VArr (zip_with (λ x y, wt1 q * x + wt2 q * y) xs ys)).
Proof. intros Hp Hlen. by rewrite (wavg_spec p q), vbinop_arr_arr. Qed.

(** C32: the first key the arithmetic reads is ['wt1']; without it the
    call raises [KeyError] after the provider has been assigned both
    states. *)
Theorem fickian_adf_missing_wt1 s1 s2 gas p tog g1 g2 :
  set_TDY s1 gas = (Ok (), g1) → set_TDY s2 g1 = (Ok (), g2) →
  p !! "wt1" = None →
  fickian_adf s1 s2 gas p tog = (Raise (KeyError "wt1"), g2).
Proof.
  intros H1 H2 Hp. rewrite (fickian_adf_run _ _ _ _ _ _ _ H1 H2).
  unfold net_flux, wavg. by rewrite (getkey_None _ _ Hp).
Qed.

(** The arithmetic of the function on two nodes that describe the same
    species, with the five coefficients given as numbers. *)
Lemma net_flux_spec p q tog g1 g2 n :
  species_wf n (snapshot g1) (snapshot g2) → has_planar p q →
  net_flux p (node_of g1) (node_of g2) ≫= mass_flux tog =
    Ok (VArr (fickian_spec q (snapshot g1) (snapshot g2) (tog_num tog))).
Proof.
  intros [[Ha1 Ha2] [Hb1 Hb2]] Hp.
  destruct (has_planar_lookup _ _ Hp) as (Hw1 & Hw2 & HK & Hdy & Het).
  unfold net_flux, wavg, J_conv, J_diff, mass_flux, tog_value, node_of.
  cbn [n_D_k n_rho n_mu n_P n_Y n_rho_k snapshot pr_D_k pr_Y] in *.
  rewrite Hw1, Hw2, HK, Hdy, Het. vsimpl.
  do 2 f_equal. unfold fickian_spec, species_rows, snapshot.
  cbn [pr_D_k pr_Y]. list_pointwise.
Qed.

(** C1: with a dictionary that holds the five coefficients as numbers and
    a provider that describes the same species at both nodes, the call
    returns the array of the specification's per-species fluxes, and
    leaves the provider at node 2.  This holds over any scalars: in
    binary64 the two sides are the same floats. *)
Theorem fickian_adf_refines s1 s2 gas p q tog g1 g2 n :
  set_TDY s1 gas = (Ok (), g1) →
  set_TDY s2 g1 = (Ok (), g2) →
  species_wf n (snapshot g1) (snapshot g2) →
  has_planar p q →
  fickian_adf s1 s2 gas p tog =
    (Ok (VArr (fickian_spec q (snapshot g1) (snapshot g2) (tog_num tog))), g2).
Proof.
  intros H1 H2 Hwf Hp.
  rewrite (fickian_adf_run _ _ _ _ _ _ _ H1 H2). f_equal.
  by eapply net_flux_spec.
Qed.

End run.

(** ** The specification over a field *)

Section spec_algebra.
Context `{ScalarField R}.
Implicit Types (q : planar_params R) (a b : props R) (tog d y : R).
Local Open Scope scalar_scope.

Add Field fickian_spec_field : sf_field.

Lemma flux_k_tog_zero q a b d1 d2 y1 y2 : flux_k q a b 0 d1 d2 y1 y2 ≡ 0.
Proof. unfold flux_k. ring. Qed.

Lemma flux_k_tog_one q a b d1 d2 y1 y2 :
  flux_k q a b 1 d1 d2 y1 y2 ≡
    - (wt1 q * (pr_rho a * y1) + wt2 q * (pr_rho b * y2)) * K_g q *
      (pr_P b - pr_P a) * inv_dy q / (wt1 q * pr_mu a + wt2 q * pr_mu b) +
    - eps_tau2 q * (wt1 q * d1 + wt2 q * d2) *
      (wt1 q * pr_rho a + wt2 q * pr_rho b) * (y2 - y1) * inv_dy q.
Proof. unfold flux_k. ring. Qed.

(** The toggle scales the flux: it is the flux with toggle one, times the
    toggle. *)
Lemma flux_k_scale q a b tog d1 d2 y1 y2 :
  flux_k q a b tog d1 d2 y1 y2 ≡ tog * flux_k q a b 1 d1 d2 y1 y2.
Proof. unfold flux_k. ring. Qed.

(** With equal pressures and mass fractions nothing flows. *)
Lemma flux_k_zero_gradient q a b tog d1 d2 y :
  pr_P a ≡ pr_P b → flux_k q a b tog d1 d2 y y ≡ 0.
Proof.
  intros HP. unfold flux_k. rewrite sdiv_mul_inv, HP. ring.
Qed.

(** Exchanging the nodes, with their weights, negates the flux. *)
Lemma flux_k_antisym q a b tog d1 d2 y1 y2 :
  flux_k (swap_weights q) b a tog d2 d1 y2 y1 ≡ - flux_k q a b tog d1 d2 y1 y2.
Proof.
  unfold flux_k, swap_weights. cbn [wt1 wt2 K_g inv_dy eps_tau2].
  rewrite !sdiv_mul_inv.
  setoid_replace (wt2 q * pr_mu b + wt1 q * pr_mu a)
    with (wt1 q * pr_mu a + wt2 q * pr_mu b) by ring.
  ring.
Qed.

Lemma species_rows_length n a b :
  species_wf n a b → length (species_rows a b) = n.
Proof.
  intros [[??] [??]]. unfold species_rows. rewrite !length_zip_with. lia.
Qed.

Lemma fickian_spec_length n q a b tog :
  species_wf n a b → length (fickian_spec q a b tog) = n.
Proof.
  intros Hwf. unfold fickian_spec.
  by rewrite length_fmap, (species_rows_length n).
Qed.

Lemma fickian_spec_tog_zero n q a b :
  species_wf n a b → fickian_spec q a b 0 ≡ replicate n 0.
Proof.
  intros Hwf. rewrite <-(species_rows_length n a b Hwf).
  apply fmap_equiv_replicate. intros. apply flux_k_tog_zero.
Qed.

Lemma species_rows_diag a :
  species_rows a a =
    (λ r, ((r.1, r.1), (r.2, r.2))) <$> zip (pr_D_k a) (pr_Y a).
Proof. unfold species_rows. list_pointwise. Qed.

Lemma species_rows_swap a b :
  species_rows b a =
    (λ r, ((r.1.2, r.1.1), (r.2.2, r.2.1))) <$> species_rows a b.
Proof. unfold species_rows. list_pointwise. Qed.

Lemma fickian_spec_zero_gradient n q a b tog :
  species_wf n a b → pr_P a ≡ pr_P b →
  pr_D_k a = pr_D_k b → pr_Y a = pr_Y b →
  fickian_spec q a b tog ≡ replicate n 0.
Proof.
  intros Hwf HP HD HY. rewrite <-(species_rows_length n a b Hwf).
  unfold fickian_spec, species_rows. rewrite <-HD, <-HY.
  fold (species_rows a a). rewrite species_rows_diag, <-list_fmap_compose.
  rewrite length_fmap. apply fmap_equiv_replicate.
  intros r. by apply flux_k_zero_gradient.
Qed.

Lemma fickian_spec_antisym q a b tog :
  fickian_spec (swap_weights q) b a tog ≡ sopp <$> fickian_spec q a b tog.
Proof.
  unfold fickian_spec. rewrite species_rows_swap, <-!list_fmap_compose.
  apply list_fmap_equiv_ext. intros i r _. apply flux_k_antisym.
Qed.

Lemma fickian_spec_scale q a b tog :
  fickian_spec q a b tog ≡ smul tog <$> fickian_spec q a b 1.
Proof.
  unfold fickian_spec. rewrite <-list_fmap_compose.
  apply list_fmap_equiv_ext. intros i r _. apply flux_k_scale.
Qed.

(** With the same mass fraction at both nodes the diffusive term
    vanishes and the advective term is left. *)
Lemma flux_k_equal_fraction q a b tog d1 d2 y :
  flux_k q a b tog d1 d2 y y ≡ darcy_k q a b tog y.
Proof. unfold flux_k, darcy_k. rewrite !sdiv_mul_inv. ring. Qed.

Lemma fickian_spec_equal_fractions n q a b tog :
  species_wf n a b → pr_Y a = pr_Y b →
  fickian_spec q a b tog ≡ darcy_k q a b tog <$> pr_Y a.
Proof.
  intros [[Ha1 Ha2] [Hb1 Hb2]] HY. unfold fickian_spec, species_rows.
  rewrite <-HY. apply list_equiv_lookup. intros i.
  rewrite !list_lookup_fmap, !lookup_zip_with.
  destruct (pr_Y a !! i) as [y|] eqn:Hy; simpl.
  - destruct (lookup_lt_is_Some_2 (pr_D_k a) i) as [d1 ->];
      [apply lookup_lt_Some in Hy; lia|].
    destruct (lookup_lt_is_Some_2 (pr_D_k b) i) as [d2 ->];
      [apply lookup_lt_Some in Hy; lia|].
    simpl. constructor. apply flux_k_equal_fraction.
  - destruct (pr_D_k a !! i), (pr_D_k b !! i); simpl; constructor.
Qed.

(** *** The averages *)

Implicit Types (p : gmap string (value R)) (v w : value R).

(** With weights that sum to one, the average of a property that is
    the same at both nodes is that property. *)
Lemma wavg_idempotent p q v :
  has_planar p q → wt1 q + wt2 q ≡ 1 → wavg p v v ≡ Ok v.
Proof.
  intros Hp Hsum. rewrite (wavg_spec p q) by done.
  rewrite <-(vmap_id v) at 3. apply vbinop_diag. intros x. unfold id.
  setoid_replace (wt1 q * x + wt2 q * x) with ((wt1 q + wt2 q) * x) by ring.
  rewrite Hsum. ring.
Qed.

(** C36: with equal weights that sum to one, twice the average is the
    sum of the two node properties: the average is their arithmetic
    mean. *)
Theorem wavg_mean p q v w :
  has_planar p q → wt1 q ≡ wt2 q → wt1 q + wt2 q ≡ 1 →
  vmap (smul (1 + 1)) <$> wavg p v w ≡ vadd v w.
Proof.
  intros Hp Heq Hsum. rewrite (wavg_spec p q), vbinop_compose by done.
  apply vbinop_equiv_ext. intros x y. rewrite <-Heq in Hsum |- *.
  setoid_replace ((1 + 1) * (wt1 q * x + wt1 q * y))
    with ((wt1 q + wt1 q) * (x + y)) by ring.
  rewrite Hsum. ring.
Qed.

End spec_algebra.

(** ** Properties of the call, for a lawful provider *)

Section properties.
Context `{ScalarField R, Provider R G, !LawfulProvider R G}.
Implicit Types (s : TDY R) (g gas : G) (p : gmap string (value R))
  (q : planar_params R) (tog : toggle R) (a b : props R).
Local Open Scope scalar_scope.

(** With a provider whose attributes are the function [props_at] of the
    assigned state, the call on two accepted states runs the arithmetic on
    the attributes of those states. *)
Lemma fickian_adf_lawful_run s1 s2 gas p tog a b :
  props_at G s1 = Ok a → props_at G s2 = Ok b →
  ∃ g1 g2, snapshot g1 = a ∧ snapshot g2 = b ∧
    fickian_adf s1 s2 gas p tog =
      (net_flux p (node_of g1) (node_of g2) ≫= mass_flux tog, g2).
Proof.
  intros Ha Hb.
  destruct (set_TDY_Ok s1 gas a Ha) as (g1 & Hs1 & Hg1).
  destruct (set_TDY_Ok s2 g1 b Hb) as (g2 & Hs2 & Hg2).
  exists g1, g2. by rewrite (fickian_adf_run _ _ _ _ _ _ _ Hs1 Hs2).
Qed.

Lemma props_at_species_wf s1 s2 a b :
  props_at G s1 = Ok a → props_at G s2 = Ok b → species_wf (n_species G) a b.
Proof. intros Ha Hb. split; by eapply props_at_species. Qed.

(** What the call returns on two accepted states. *)
Lemma fickian_adf_lawful_spec s1 s2 gas p q tog a b :
  props_at G s1 = Ok a → props_at G s2 = Ok b → has_planar p q →
  (fickian_adf s1 s2 gas p tog).1 =
    Ok (VArr (fickian_spec q a b (tog_num tog))).
Proof.
  intros Ha Hb Hp.
  destruct (fickian_adf_lawful_run s1 s2 gas p tog a b Ha Hb)
    as (g1 & g2 & <- & <- & ->).
  eapply net_flux_spec; [|done]. by eapply props_at_species_wf.
Qed.

(** C5: on two states that the provider accepts, with the five
    coefficients in the dictionary, the call returns the specification's
    fluxes computed from the pure query at the two states, and leaves the
    provider holding the attributes of the second state. *)
Theorem fickian_adf_pure_query s1 s2 gas p q tog a b :
  props_at G s1 = Ok a → props_at G s2 = Ok b → has_planar p q →
  ∃ g', fickian_adf s1 s2 gas p tog =
          (Ok (VArr (fickian_spec q a b (tog_num tog))), g') ∧
        snapshot g' = b.
Proof.
  intros Ha Hb Hp.
  destruct (fickian_adf_lawful_run s1 s2 gas p tog a b Ha Hb)
    as (g1 & g2 & <- & <- & ->).
  exists g2. split; [|done]. f_equal.
  eapply net_flux_spec; [|done]. by eapply props_at_species_wf.
Qed.

(** C10: with the toggle at zero the call returns zeros of the shape of
    what it returns with any other toggle, raises what it raises with any
    other toggle, and leaves the provider in the same state. *)
Theorem fickian_adf_tog_zero s1 s2 gas p tog :
  (fickian_adf s1 s2 gas p (TogNum 0)).1 ≡
    vzeros_like <$> (fickian_adf s1 s2 gas p tog).1 ∧
  (fickian_adf s1 s2 gas p (TogNum 0)).2 = (fickian_adf s1 s2 gas p tog).2.
Proof.
  rewrite !fickian_adf_unfold.
  destruct (set_TDY s1 gas) as [[[]|e] g1]; [|done].
  destruct (set_TDY s2 g1) as [[[]|e] g2]; [|done].
  split; [|done]. cbn [fst].
  destruct (net_flux p (node_of g1) (node_of g2)) as [J|e]; [|done].
  cbn [mbind result_bind]. unfold mass_flux at 1.
  rewrite vmul_zero_l. unfold mass_flux, tog_value, vmul.
  rewrite vbinop_num_l, fmap_Ok. unfold vzeros_like. by rewrite vmap_vmap.
Qed.

(** C29: the toggle scales the flux: the call returns what it returns with
    toggle one, multiplied by the toggle. *)
Theorem fickian_adf_tog_scales s1 s2 gas p tog :
  (fickian_adf s1 s2 gas p tog).1 ≡
    vmap (smul (tog_num tog)) <$> (fickian_adf s1 s2 gas p (TogNum 1)).1.
Proof.
  rewrite !fickian_adf_unfold.
  destruct (set_TDY s1 gas) as [[[]|e] g1]; [|done].
  destruct (set_TDY s2 g1) as [[[]|e] g2]; [|done].
  cbn [fst].
  destruct (net_flux p (node_of g1) (node_of g2)) as [J|e]; [|done].
  cbn [mbind result_bind]. unfold mass_flux at 2.
  rewrite vmul_one_l. unfold mass_flux, tog_value, vmul.
  by rewrite vbinop_num_l, fmap_Ok.
Qed.

(** C8: when both nodes are in the same state, the call returns the zero
    vector, one entry per species. *)
Theorem fickian_adf_zero_gradient s gas p q tog a :
  props_at G s = Ok a → has_planar p q →
  (fickian_adf s s gas p tog).1 ≡ Ok (VArr (replicate (n_species G) 0)).
Proof.
  intros Ha Hp. rewrite (fickian_adf_lawful_spec s s gas p q tog a a) by done.
  do 2 constructor. apply fickian_spec_zero_gradient; [|done..].
  by eapply props_at_species_wf.
Qed.

(** C6: exchanging the two states, and the two weights with them, negates
    the flux. *)
Theorem fickian_adf_antisymmetric s1 s2 gas gas' p p' q tog a b :
  props_at G s1 = Ok a → props_at G s2 = Ok b →
  has_planar p q → has_planar p' (swap_weights q) →
  (fickian_adf s2 s1 gas' p' tog).1 ≡ vneg <$> (fickian_adf s1 s2 gas p tog).1.
Proof.
  intros Ha Hb Hp Hp'.
  rewrite (fickian_adf_lawful_spec s1 s2 gas p q tog a b) by done.
  rewrite (fickian_adf_lawful_spec s2 s1 gas' p' _ tog b a) by done.
  rewrite fmap_Ok. do 2 constructor. apply fickian_spec_antisym.
Qed.

(** What the arithmetic reads of a provider are its five attributes. *)
Lemma node_of_snapshot g g' : snapshot g = snapshot g' → node_of g = node_of g'.
Proof. unfold snapshot, node_of. by intros [= -> -> -> -> ->]. Qed.

(** What a call returns or raises does not depend on what the provider
    held before it. *)
Lemma fickian_adf_indep s1 s2 gas gas' p tog :
  (fickian_adf s1 s2 gas p tog).1 = (fickian_adf s1 s2 gas' p tog).1.
Proof.
  rewrite !fickian_adf_unfold.
  destruct (props_at G s1) as [a|e] eqn:Ha.
  2: { destruct (set_TDY_Raise s1 gas e Ha) as (g & ->).
       by destruct (set_TDY_Raise s1 gas' e Ha) as (g' & ->). }
  destruct (set_TDY_Ok s1 gas a Ha) as (g1 & -> & Hg1).
  destruct (set_TDY_Ok s1 gas' a Ha) as (g1' & -> & Hg1').
  destruct (props_at G s2) as [b|e] eqn:Hb.
  2: { destruct (set_TDY_Raise s2 g1 e Hb) as (g & ->).
       by destruct (set_TDY_Raise s2 g1' e Hb) as (g' & ->). }
  destruct (set_TDY_Ok s2 g1 b Hb) as (g2 & -> & Hg2).
  destruct (set_TDY_Ok s2 g1' b Hb) as (g2' & -> & Hg2').
  cbn [fst]. rewrite (node_of_snapshot g1 g1'), (node_of_snapshot g2 g2');
    congruence.
Qed.

(** C31: the call is stateless but for what it leaves in the provider:
    what it returns or raises does not depend on what the provider held
    before the call, and a second call with the same arguments, on the
    provider as the first call left it, returns or raises the same. *)
Theorem fickian_adf_initial_state_irrelevant s1 s2 gas gas' p tog :
  (fickian_adf s1 s2 gas p tog).1 = (fickian_adf s1 s2 gas' p tog).1 ∧
  (fickian_adf s1 s2 (fickian_adf s1 s2 gas p tog).2 p tog).1 =
    (fickian_adf s1 s2 gas p tog).1.
Proof. split; apply fickian_adf_indep. Qed.

(** C34: the call returns a one-dimensional array with one entry per
    species of the provider. *)
Theorem fickian_adf_shape s1 s2 gas p q tog a b :
  props_at G s1 = Ok a → props_at G s2 = Ok b → has_planar p q →
  vshape <$> (fickian_adf s1 s2 gas p tog).1 = Ok (SArr (n_species G)).
Proof.
  intros Ha Hb Hp.
  rewrite (fickian_adf_lawful_spec s1 s2 gas p q tog a b) by done.
  rewrite fmap_Ok. cbn [vshape]. do 2 f_equal.
  apply fickian_spec_length. by eapply props_at_species_wf.
Qed.

(** C24: between two nodes with the same mass fractions the flux is the
    advective term alone: for every species the averaged partial density
    times the permeability and the pressure drop from node 1 to node 2,
    over the averaged viscosity and the spacing.  The diffusive term of
    line 53 contributes nothing, whatever the diffusion coefficients
    are. *)
Theorem fickian_adf_equal_fractions s1 s2 gas p q tog g1 g2 n :
  set_TDY s1 gas = (Ok (), g1) → set_TDY s2 g1 = (Ok (), g2) →
  species_wf n (snapshot g1) (snapshot g2) → has_planar p q →
  gas_Y g1 = gas_Y g2 →
  (fickian_adf s1 s2 gas p tog).1 ≡
    Ok (VArr (darcy_k q (snapshot g1) (snapshot g2) (tog_num tog)
                <$> gas_Y g1)).
Proof.
  intros Hs1 Hs2 Hwf Hp HY. rewrite (fickian_adf_run _ _ _ _ _ _ _ Hs1 Hs2).
  cbn [fst]. rewrite (net_flux_spec p q tog g1 g2 n) by done.
  do 2 constructor. by apply (fickian_spec_equal_fractions n).
Qed.

End properties.

(** ** The theorems at concrete inputs *)

Section witnesses.
Local Existing Instance ideal_gas.
Local Existing Instance ideal_gas_lawful.
Local Open Scope Q_scope.

Lemma species_wf_ab : species_wf 2 props_a props_b.
Proof. by repeat split. Qed.

Lemma fickian_adf_refines_witness :
  fickian_adf state_a state_b gas0 planar_p (TogNum 1) =
    (Ok (VArr (fickian_spec planar_q props_a props_b 1)), props_b).
Proof.
  exact (fickian_adf_refines state_a state_b gas0 planar_p planar_q
           (TogNum 1) props_a props_b 2 eq_refl eq_refl species_wf_ab
           (has_planar_dict _)).
Defined.

Lemma fickian_adf_pure_query_witness :
  ∃ g', fickian_adf state_a state_b gas0 planar_p (TogNum 1) =
          (Ok (VArr (fickian_spec planar_q props_a props_b 1)), g') ∧
        snapshot g' = props_b.
Proof.
  exact (fickian_adf_pure_query state_a state_b gas0 planar_p planar_q
           (TogNum 1) props_a props_b eq_refl eq_refl (has_planar_dict _)).
Defined.

Lemma fickian_adf_tog_zero_witness :
  (fickian_adf state_a state_b gas0 planar_p (TogNum 0)).1 ≡
    vzeros_like <$> (fickian_adf state_a state_b gas0 planar_p (TogNum 1)).1 ∧
  (fickian_adf state_a state_b gas0 planar_p (TogNum 0)).2 =
    (fickian_adf state_a state_b gas0 planar_p (TogNum 1)).2.
Proof.
  exact (fickian_adf_tog_zero state_a state_b gas0 planar_p (TogNum 1)).
Defined.

Lemma fickian_adf_tog_scales_witness :
  (fickian_adf state_a state_b gas0 planar_p (TogNum 3)).1 ≡
    vmap (Qmult 3) <$> (fickian_adf state_a state_b gas0 planar_p (TogNum 1)).1.
Proof.
  exact (fickian_adf_tog_scales state_a state_b gas0 planar_p (TogNum 3)).
Defined.

Lemma fickian_adf_zero_gradient_witness :
  (fickian_adf state_a state_a gas0 planar_p (TogNum 1)).1 ≡
    Ok (VArr [0; 0]).
Proof.
  exact (fickian_adf_zero_gradient state_a gas0 planar_p planar_q
           (TogNum 1) props_a eq_refl (has_planar_dict _)).
Defined.

Lemma fickian_adf_antisymmetric_witness :
  (fickian_adf state_b state_a gas0 (planar_dict (swap_weights planar_q'))
     (TogNum 1)).1 ≡
    vneg <$> (fickian_adf state_a state_b gas0 (planar_dict planar_q')
                (TogNum 1)).1.
Proof.
  exact (fickian_adf_antisymmetric state_a state_b gas0 gas0 _ _ planar_q'
           (TogNum 1) props_a props_b eq_refl eq_refl (has_planar_dict _)
           (has_planar_dict _)).
Defined.

Lemma species_wf_ac : species_wf 2 props_a props_c.
Proof. by repeat split. Qed.

Lemma fickian_adf_equal_fractions_witness :
  (fickian_adf state_a state_c gas0 planar_p (TogNum 1)).1 ≡
    Ok (VArr (darcy_k planar_q props_a props_c 1 <$> [1 # 2; 1 # 2])).
Proof.
  exact (fickian_adf_equal_fractions state_a state_c gas0 planar_p planar_q
           (TogNum 1) props_a props_c 2 eq_refl eq_refl species_wf_ac
           (has_planar_dict _) eq_refl).
Defined.

Lemma fickian_adf_shape_witness :
  vshape <$> (fickian_adf state_a state_b gas0 planar_p (TogNum 1)).1 =
    Ok (SArr 2).
Proof.
  exact (fickian_adf_shape state_a state_b gas0 planar_p planar_q
           (TogNum 1) props_a props_b eq_refl eq_refl (has_planar_dict _)).
Defined.

Lemma wavg_idempotent_witness :
  wavg planar_p (VArr [3; 5]) (VArr [3; 5]) ≡ Ok (VArr [3; 5]).
Proof.
  exact (wavg_idempotent planar_p planar_q (VArr [3; 5]) (has_planar_dict _)
           eq_refl).
Defined.

Lemma wavg_mean_witness :
  vmap (Qmult (1 + 1)) <$> wavg planar_p (VArr [3; 5]) (VArr [4; 9]) ≡
    vadd (VArr [3; 5]) (VArr [4; 9]).
Proof.
  exact (wavg_mean planar_p planar_q (VArr [3; 5]) (VArr [4; 9])
           (has_planar_dict _) eq_refl eq_refl).
Defined.

Lemma fickian_adf_leaves_state2_witness :
  (fickian_adf state_a state_b gas0 ∅ (TogNum 1)).2 = props_b.
Proof.
  exact (fickian_adf_leaves_state2 state_a state_b gas0 ∅ (TogNum 1)
           props_a props_b eq_refl eq_refl).
Defined.

Lemma fickian_adf_raises_first_witness :
  fickian_adf state_bad state_b gas0 planar_p (TogNum 1) =
    (Raise (CanteraError "density"), gas0).
Proof.
  exact (fickian_adf_raises_first state_bad state_b gas0 planar_p
           (TogNum 1) _ _ eq_refl).
Defined.

Lemma fickian_adf_raises_second_witness :
  fickian_adf state_a state_bad gas0 planar_p (TogNum 1) =
    (Raise (CanteraError "density"), props_a).
Proof.
  exact (fickian_adf_raises_second state_a state_bad gas0 planar_p
           (TogNum 1) _ props_a _ eq_refl eq_refl).
Defined.

Lemma fickian_adf_missing_wt1_witness :
  fickian_adf state_a state_b gas0 (delete "wt1" planar_p) (TogNum 1) =
    (Raise (KeyError "wt1"), props_b).
Proof.
  exact (fickian_adf_missing_wt1 state_a state_b gas0 _ (TogNum 1)
           props_a props_b eq_refl eq_refl (lookup_delete_eq _ _)).
Defined.

End witnesses.
