(* ===== verification/Sweep.v ===== *)
(** * The planar kernel called once per interface

    The design document describes the caller of the kernels, which is
    not part of the repository: a loop of one thread that calls the
    kernel once per interface of the mesh at every time step, on one
    provider, and to which every exception of a call surfaces.  This file
    states that loop as the document describes it and proves what the
    kernel gives to it:

    - [interface]: the arguments of one call, and [flux_at], the call;
    - [sweep]: the calls at a list of interfaces, one after the other on
      the one provider, ended by the first exception;
    - [column]: the interfaces between the cells of a column.

    On a lawful provider the calls of a sweep do not disturb one another:
    every flux is the one the call returns alone ([sweep_serialized]),
    and the provider ends holding the attributes of the last node
    ([sweep_leaves_last]).  A state that the provider refuses surfaces
    from the sweep: the sweep raises the exception of the first refused
    state, in the order in which [fickian_adf] assigns the states, and
    returns no flux ([sweep_refused_state]).  A column at rest has no
    flux at any interface ([sweep_column_at_rest]). *)

From Stdlib Require Import QArith.
From stdpp Require Import base tactics option list strings gmap.
From S2P Require Import Prelude Loops Scalar NumPy Params Provider Fixtures Fickian.

(** ** The sweep *)

(** The arguments of one call. *)
Record interface (R : Type) : Type := Interface {
  i_TDY1 : TDY R;
  i_TDY2 : TDY R;
  i_p : gmap string (value R);
  i_tog : toggle R }.

Arguments Interface {R} _ _ _ _.
Arguments i_TDY1 {R} _.
Arguments i_TDY2 {R} _.
Arguments i_p {R} _.
Arguments i_tog {R} _.

Section sweep.
Context `{Scalar R, Provider R G}.
Implicit Types (i : interface R) (l : list (interface R)) (gas g : G)
  (Js : list (value R)).

(** The call at one interface, as a computation on the provider. *)
Definition flux_at (i : interface R) : prog G (value R) :=
  λ gas, fickian_adf (i_TDY1 i) (i_TDY2 i) gas (i_p i) (i_tog i).

(** One call per interface, in the order of the list. *)
Definition sweep (l : list (interface R)) : prog G (list (value R)) :=
  mapM flux_at l.

(** The interfaces between the cells of a column, from the first cell to
    the last, with one dictionary and one toggle. *)
Definition column (cells : list (TDY R)) (p : gmap string (value R))
    (tog : toggle R) : list (interface R) :=
  zip_with (λ s1 s2, Interface s1 s2 p tog) cells (tail cells).

Lemma column_length cells p tog :
  length (column cells p tog) = pred (length cells).
Proof.
  unfold column. rewrite length_zip_with.
  destruct cells as [|s cells]; [done|]. cbn [tl length pred]. lia.
Qed.

Lemma column_lookup cells p tog j i :
  column cells p tog !! j = Some i →
  ∃ s1 s2, cells !! j = Some s1 ∧ cells !! S j = Some s2 ∧
           i = Interface s1 s2 p tog.
Proof.
  unfold column. rewrite lookup_zip_with_Some, lookup_tail.
  intros (s1 & s2 & -> & ? & ?). by exists s1, s2.
Qed.

(** The first call that raises ends the sweep: the sweep raises the
    exception of that call, and the provider is left as the failing call
    left it. *)
Lemma sweep_fails_fast l1 i l2 gas Js g1 e g2 :
  sweep l1 gas = (Ok Js, g1) →
  flux_at i g1 = (Raise e, g2) →
  sweep (l1 ++ i :: l2) gas = (Raise e, g2).
Proof. apply prog_mapM_Raise. Qed.

End sweep.

(** ** Sweeps on a lawful provider *)

Section lawful.
Context `{Scalar R, Provider R G, !LawfulProvider R G}.
Implicit Types (i : interface R) (l : list (interface R)) (gas g : G)
  (Js : list (value R)).

Lemma flux_at_indep i gas gas' : (flux_at i gas).1 = (flux_at i gas').1.
Proof. apply fickian_adf_indep. Qed.

(** What a sweep returns or raises, from the calls run alone. *)
Lemma sweep_alone l gas gas' :
  (sweep l gas).1 = mapM (λ i, (flux_at i gas').1) l.
Proof. apply prog_mapM_indep. intros; apply flux_at_indep. Qed.

(** C22: the calls of a sweep on one lawful provider do not disturb one
    another.  The sweep returns or raises what the calls give when each
    is run alone, on a provider in any state; in particular the flux it
    returns for an interface is the flux that the call at that interface
    returns alone. *)
Theorem sweep_serialized l gas gas' :
  (sweep l gas).1 = mapM (λ i, (flux_at i gas').1) l ∧
  ∀ Js j i, (sweep l gas).1 = Ok Js → l !! j = Some i →
    ∃ J, Js !! j = Some J ∧ (flux_at i gas').1 = Ok J.
Proof.
  split; [apply sweep_alone|]. intros Js j i HJs Hi.
  rewrite (sweep_alone l gas gas') in HJs.
  by apply (mapM_Ok_lookup _ _ _ _ _ HJs Hi).
Qed.

(** An interface whose two states the provider accepts and whose
    dictionary holds the five coefficients. *)
Definition well_posed (i : interface R) : Prop :=
  is_Ok (props_at G (i_TDY1 i)) ∧ is_Ok (props_at G (i_TDY2 i)) ∧
  ∃ q, has_planar (i_p i) q.

(** The state of an interface that the provider refuses first, in the
    order in which the call assigns them. *)
Definition refused (i : interface R) (e : exn) : Prop :=
  props_at G (i_TDY1 i) = Raise e ∨
  (is_Ok (props_at G (i_TDY1 i)) ∧ props_at G (i_TDY2 i) = Raise e).

Lemma flux_at_well_posed i gas : well_posed i → is_Ok (flux_at i gas).1.
Proof.
  intros ([a Ha] & [b Hb] & [q Hq]). unfold flux_at.
  rewrite (fickian_adf_lawful_spec _ _ _ _ q _ a b) by done. by eexists.
Qed.

Lemma flux_at_refused i gas e : refused i e → (flux_at i gas).1 = Raise e.
Proof.
  unfold flux_at. rewrite fickian_adf_unfold. intros [H1|[[a Ha] H2]].
  - by destruct (set_TDY_Raise _ gas e H1) as (g & ->).
  - destruct (set_TDY_Ok _ gas a Ha) as (g1 & -> & _).
    by destruct (set_TDY_Raise _ g1 e H2) as (g & ->).
Qed.

(** C19: an invalid state surfaces from the sweep.  On a lawful provider,
    when the interfaces before [i] are well posed and the provider refuses
    a state of [i] with [e], the sweep raises [e], the exception of the
    state that [fickian_adf] assigns first, whatever interfaces follow and
    whatever the provider held; and a sweep over well posed interfaces
    returns one flux per interface. *)
Theorem sweep_refused_state l1 i l2 gas e :
  Forall well_posed l1 → refused i e →
  (sweep (l1 ++ i :: l2) gas).1 = Raise e ∧
  ∃ Js, (sweep l1 gas).1 = Ok Js ∧ length Js = length l1.
Proof.
  intros Hl1 Hi. rewrite !(sweep_alone _ gas gas).
  assert (is_Ok (mapM (λ j, (flux_at j gas).1) l1)) as [Js HJs].
  { apply mapM_is_Ok. eapply Forall_impl; [done|].
    intros j. apply flux_at_well_posed. }
  split; [|eauto using mapM_Ok_length].
  apply mapM_Raise; [by exists Js|by apply flux_at_refused].
Qed.

(** The provider after a call that has returned. *)
Lemma flux_at_leaves i gas J g :
  flux_at i gas = (Ok J, g) → props_at G (i_TDY2 i) = Ok (snapshot g).
Proof.
  unfold flux_at. rewrite fickian_adf_unfold.
  destruct (set_TDY (i_TDY1 i) gas) as [[[]|e] g1]; [|done].
  destruct (set_TDY (i_TDY2 i) g1) as [[[]|e] g2] eqn:H2; [|done].
  intros [= _ <-]. by eapply set_TDY_Ok_inv.
Qed.

(** A sweep that returns leaves the provider holding the attributes
    of the second node of the last interface. *)
Lemma sweep_leaves_last l i gas Js g :
  sweep (l ++ [i]) gas = (Ok Js, g) →
  props_at G (i_TDY2 i) = Ok (snapshot g).
Proof.
  intros Hs. destruct (sweep l gas) as [[k|e] g1] eqn:Hl.
  - unfold sweep in *. rewrite (prog_mapM_snoc _ _ _ _ _ _ Hl) in Hs.
    destruct (flux_at i g1) as [[J|e] g2] eqn:Hi; [|done].
    injection Hs as _ <-. by eapply flux_at_leaves.
  - unfold sweep in *.
    by rewrite (prog_mapM_app_Raise _ _ _ _ _ _ Hl) in Hs.
Qed.

End lawful.

(** ** A column at rest *)

Section field.
Context `{ScalarField R, Provider R G, !LawfulProvider R G}.
Implicit Types (s : TDY R) (gas : G) (p : gmap string (value R))
  (q : planar_params R) (tog : toggle R).
Local Open Scope scalar_scope.

Lemma column_replicate n s p tog :
  column (replicate n s) p tog = replicate (pred n) (Interface s s p tog).
Proof.
  unfold column. destruct n as [|n]; [done|]. cbn [pred].
  induction n as [|n IH]; [done|]. cbn [replicate tl zip_with] in *.
  by rewrite IH.
Qed.

(** A column at rest stays at rest.  When all cells of a column are
    in one state that the provider accepts, the sweep over its interfaces
    returns the zero vector, one entry per species, at every interface. *)
Lemma sweep_column_at_rest n s gas p q tog a :
  props_at G s = Ok a → has_planar p q →
  (sweep (column (replicate n s) p tog) gas).1 ≡
    Ok (replicate (pred n) (VArr (replicate (n_species G) 0))).
Proof.
  intros Ha Hp. rewrite column_replicate, (sweep_alone _ gas gas).
  apply mapM_replicate_equiv. unfold flux_at. cbn [i_TDY1 i_TDY2 i_p i_tog].
  rewrite (fickian_adf_lawful_spec s s gas p q tog a a) by done.
  do 2 constructor. apply fickian_spec_zero_gradient; [|done..].
  by eapply props_at_species_wf.
Qed.

End field.

(** ** The theorems at concrete sweeps *)

Section witnesses.
Local Existing Instance ideal_gas.
Local Existing Instance ideal_gas_lawful.
Local Open Scope Q_scope.

Definition i_ab : interface Q := Interface state_a state_b planar_p (TogNum 1).
Definition i_ba : interface Q := Interface state_b state_a planar_p (TogNum 1).
Definition i_bad : interface Q := Interface state_b state_bad planar_p (TogNum 1).

Lemma sweep_ab :
  sweep [i_ab] gas0 =
    (Ok [VArr (fickian_spec planar_q props_a props_b 1)], props_b).
Proof. by vm_compute. Qed.

Lemma sweep_ab_ba :
  sweep ([i_ab] ++ [i_ba]) gas0 =
    (Ok [VArr (fickian_spec planar_q props_a props_b 1);
         VArr (fickian_spec planar_q props_b props_a 1)], props_a).
Proof. by vm_compute. Qed.

Lemma i_ab_well_posed : Forall well_posed [i_ab].
Proof.
  repeat constructor; [by exists props_a | by exists props_b|].
  exists planar_q. apply has_planar_dict.
Qed.

Lemma i_bad_refused : refused i_bad (CanteraError "density").
Proof. right. split; [by exists props_b | done]. Qed.

Lemma sweep_refused_state_witness :
  (sweep ([i_ab] ++ i_bad :: [i_ba]) gas0).1 = Raise (CanteraError "density") ∧
  ∃ Js, (sweep [i_ab] gas0).1 = Ok Js ∧ length Js = length [i_ab].
Proof.
  exact (sweep_refused_state [i_ab] i_bad [i_ba] gas0 _ i_ab_well_posed
           i_bad_refused).
Defined.

Lemma sweep_leaves_last_witness : ideal_props state_a = Ok props_a.
Proof. exact (sweep_leaves_last [i_ab] i_ba gas0 _ _ sweep_ab_ba). Defined.

Lemma sweep_column_at_rest_witness :
  (sweep (column [state_a; state_a; state_a] planar_p (TogNum 1)) gas0).1 ≡
    Ok [VArr [0; 0]; VArr [0; 0]].
Proof.
  exact (sweep_column_at_rest 3 state_a gas0 planar_p planar_q (TogNum 1)
           props_a eq_refl (has_planar_dict _)).
Defined.

End witnesses.
