(* ===== verification/Radial.v ===== *)
(** * The radial kernel: [radial_fdiff]

    [radial_fdiff(rho_k1, rho_k2, p, node, ver, flag)] of
    [src/Shared_Funcs/pemfc_transport_funcs.py], lines 71 to 98: the rate
    at which mass moves from the outer shell, with species densities
    [rho_k1], into the inner shell, with densities [rho_k2], through the
    interface selected by [node].

    [radial_base] is the expression both variants share (lines 89 to 90
    and 92 to 93); [radial_shell] is the two factors that variant 2
    appends (line 94); [radial_fdiff] is the [if]/[elif] on [ver] followed
    by [return drho_dt].  There is no [else]: for any other [ver] the
    local variable is unbound when it is returned, and Python raises
    [UnboundLocalError].  The parameter [flag] is never read.

    [rate_k] is the specification of one species' rate; the refinement
    theorems say that the variants compute it for every species.  The
    antisymmetry of the kernel is proved for all inputs, whatever the
    dictionary holds, by moving the negation through each operation. *)

From Stdlib Require Import QArith.
From stdpp Require Import base tactics option list strings gmap.
From S2P Require Import Prelude Scalar NumPy Params Fixtures.

(** ** The kernel *)

Section kernel.
Context `{Scalar R}.
Local Open Scope scalar_scope.

(** [p['D_eff_naf'] *p['p_eff_SAnaf'] *p['eps/tau2_n2']
     *(p['r_jph'][node]**2 *(rho_k1 - rho_k2) *p['1/dr'][node])]. *)
Definition radial_base (rho_k1 rho_k2 : value R) (p : gmap string (value R))
    (node : Z) : result (value R) :=
  D ← getkey p "D_eff_naf";
  S ← getkey p "p_eff_SAnaf";
  DS ← vmul D S;
  E ← getkey p "eps/tau2_n2";
  DSE ← vmul DS E;
  r ← getkey p "r_jph";
  rn ← getitem r node;
  d ← vsub rho_k1 rho_k2;
  rd ← vmul (vsquare rn) d;
  dr ← getkey p "1/dr";
  drn ← getitem dr node;
  inner ← vmul rd drn;
  vmul DSE inner.

(** [... *p['1/r_j'][node]**2 *p['1/t_shl'][node]]. *)
Definition radial_shell (base : value R) (p : gmap string (value R))
    (node : Z) : result (value R) :=
  rj ← getkey p "1/r_j";
  rjn ← getitem rj node;
  x ← vmul base (vsquare rjn);
  t ← getkey p "1/t_shl";
  tn ← getitem t node;
  vmul x tn.

Definition radial_fdiff {F : Type} (rho_k1 rho_k2 : value R)
    (p : gmap string (value R)) (node : Z) (ver : Z) (flag : F) : result (value R) :=
  if decide (ver = 1%Z) then radial_base rho_k1 rho_k2 p node
  else if decide (ver = 2%Z) then
    radial_base rho_k1 rho_k2 p node ≫= λ base, radial_shell base p node
  else Raise (UnboundLocalError "drho_dt").

(** ** The specification *)

(** The rate of one species through the interface with squared radius
    factor [rj] and inverse spacing [dr]. *)
Definition rate_k (q : radial_params R) (rj dr : R) (r1 r2 : R) : R :=
  D_eff_naf q * p_eff_SAnaf q * eps_tau2_n2 q * (ssquare rj * (r1 - r2) * dr).

(** The factor by which variant 2 multiplies variant 1. *)
Definition shell_factor (rjn tn : R) (x : R) : R := x * ssquare rjn * tn.

End kernel.

(** ** Running the kernel *)

Section run.
Context `{Scalar R} {F : Type}.
Implicit Types (p : gmap string (value R)) (q : radial_params R)
  (node ver : Z) (flag : F) (v w : value R) (xs ys : list R).
Local Open Scope scalar_scope.

Lemma radial_fdiff_ver1 v w p node flag :
  radial_fdiff v w p node 1 flag = radial_base v w p node.
Proof. reflexivity. Qed.

Lemma radial_fdiff_ver2 v w p node flag :
  radial_fdiff v w p node 2 flag =
    radial_base v w p node ≫= λ base, radial_shell base p node.
Proof. reflexivity. Qed.

(** The base expression with the five coefficients in place: the rate
    of the specification applied to the two densities as one NumPy
    operator, whatever their shapes are. *)
Lemma radial_base_spec p q node rj dr v w :
  has_radial_core p q →
  getitem (VArr (r_jph q)) node = Ok (VNum rj) →
  getitem (VArr (inv_dr q)) node = Ok (VNum dr) →
  radial_base v w p node = vbinop (rate_k q rj dr) v w.
Proof.
  intros (HD & HS & HE & Hr & Hdr)%has_radial_core_lookup Hrj Hdrn.
  unfold radial_base. rewrite HD, HS, HE, Hr, Hdr. cbn [mbind result_bind].
  rewrite Hrj, Hdrn. vsimpl.
  trans (vmap (λ d, D_eff_naf q * p_eff_SAnaf q * eps_tau2_n2 q *
                      (ssquare rj * d * dr)) <$> vbinop ssub v w);
    [|by rewrite vbinop_compose].
  destruct (vbinop ssub v w) as [d|e]; [|done].
  repeat first [rewrite bind_Ok | rewrite vbinop_num_l | rewrite vbinop_num_r].
  by rewrite !vmap_vmap.
Qed.

(** The two factors of variant 2 on any value. *)
Lemma radial_shell_run p q node rjn tn v :
  has_radial p q →
  getitem (VArr (inv_r_j q)) node = Ok (VNum rjn) →
  getitem (VArr (inv_t_shl q)) node = Ok (VNum tn) →
  radial_shell v p node = Ok (vmap (shell_factor rjn tn) v).
Proof.
  intros (Hrj & Ht)%has_radial_lookup Hrjn Htn.
  unfold radial_shell. rewrite Hrj, Ht. cbn [mbind result_bind].
  rewrite Hrjn, Htn. unfold vmul, vsquare. cbn [vmap mbind result_bind].
  rewrite !vbinop_num_r. cbn [mbind result_bind].
  rewrite vbinop_num_r, vmap_vmap. done.
Qed.

(** Variant 2 with the seven coefficients in place. *)
Lemma radial_base_shell_spec p q node rj dr rjn tn v w :
  has_radial p q →
  getitem (VArr (r_jph q)) node = Ok (VNum rj) →
  getitem (VArr (inv_dr q)) node = Ok (VNum dr) →
  getitem (VArr (inv_r_j q)) node = Ok (VNum rjn) →
  getitem (VArr (inv_t_shl q)) node = Ok (VNum tn) →
  radial_base v w p node ≫= (λ base, radial_shell base p node) =
    vmap (shell_factor rjn tn) <$> vbinop (rate_k q rj dr) v w.
Proof.
  intros Hp Hrj Hdr Hrjn Htn.
  rewrite (radial_base_spec p q node rj dr) by eauto using has_radial_core_of.
  destruct (vbinop _ v w) as [b|e]; [|done].
  rewrite bind_Ok, fmap_Ok. by eapply radial_shell_run.
Qed.

End run.

(** ** Properties over any scalars *)

Section properties.
Context `{Scalar R} {F : Type}.
Implicit Types (p : gmap string (value R)) (q : radial_params R)
  (node ver : Z) (flag : F) (v w b : value R) (xs ys : list R).
Local Open Scope scalar_scope.

(** C2: with the five coefficients in the dictionary and [node] in
    range, variant 1 is the rate of the specification applied to the two
    densities as one NumPy operator: element by element on arrays of one
    length, on two numbers, or with a number or a one-element array
    stretched over the other operand. *)
Theorem radial_fdiff_ver1_spec p q node flag rj dr v w :
  has_radial_core p q →
  getitem (VArr (r_jph q)) node = Ok (VNum rj) →
  getitem (VArr (inv_dr q)) node = Ok (VNum dr) →
  radial_fdiff v w p node 1 flag = vbinop (rate_k q rj dr) v w.
Proof. intros. rewrite radial_fdiff_ver1. by eapply radial_base_spec. Qed.

(** C3: variant 2 returns the rates of variant 1, each multiplied by the
    squared inverse radius and by the inverse thickness of the shell. *)
Theorem radial_fdiff_ver2_spec p q node flag rj dr rjn tn v w :
  has_radial p q →
  getitem (VArr (r_jph q)) node = Ok (VNum rj) →
  getitem (VArr (inv_dr q)) node = Ok (VNum dr) →
  getitem (VArr (inv_r_j q)) node = Ok (VNum rjn) →
  getitem (VArr (inv_t_shl q)) node = Ok (VNum tn) →
  radial_fdiff v w p node 2 flag =
    vmap (shell_factor rjn tn) <$> vbinop (rate_k q rj dr) v w.
Proof.
  intros. rewrite radial_fdiff_ver2. by eapply radial_base_shell_spec.
Qed.

(** C35: the shape of what either variant returns is the broadcast of the
    shapes of the two densities; densities that do not broadcast (arrays
    of two lengths, neither of them one) raise [ValueError]. *)
Theorem radial_fdiff_shape p q node ver flag rj dr rjn tn v w :
  has_radial p q → ver = 1%Z ∨ ver = 2%Z →
  getitem (VArr (r_jph q)) node = Ok (VNum rj) →
  getitem (VArr (inv_dr q)) node = Ok (VNum dr) →
  getitem (VArr (inv_r_j q)) node = Ok (VNum rjn) →
  getitem (VArr (inv_t_shl q)) node = Ok (VNum tn) →
  vshape <$> radial_fdiff v w p node ver flag =
    match bshape (vshape v) (vshape w) with
    | Some s => Ok s
    | None => Raise ValueError
    end.
Proof.
  intros Hp Hver Hrj Hdr Hrjn Htn. rewrite <-(vbinop_shape (rate_k q rj dr)).
  destruct Hver as [-> | ->].
  - rewrite radial_fdiff_ver1.
    by rewrite (radial_base_spec p q node rj dr) by eauto using has_radial_core_of.
  - rewrite radial_fdiff_ver2.
    rewrite (radial_base_shell_spec p q node rj dr rjn tn) by done.
    destruct (vbinop _ v w) as [b|e]; [|done].
    by rewrite !fmap_Ok, vshape_vmap.
Qed.

(** C25: whatever variant 1 returns, variant 2 returns it multiplied by
    [(1/r_j[node])**2] and then by [1/t_shl[node]], in this order. *)
Theorem radial_fdiff_variants p q node flag rjn tn v w b :
  has_radial p q →
  getitem (VArr (inv_r_j q)) node = Ok (VNum rjn) →
  getitem (VArr (inv_t_shl q)) node = Ok (VNum tn) →
  radial_fdiff v w p node 1 flag = Ok b →
  radial_fdiff v w p node 2 flag = Ok (vmap (shell_factor rjn tn) b).
Proof.
  intros Hp Hrjn Htn. rewrite radial_fdiff_ver1, radial_fdiff_ver2.
  intros ->. cbn [mbind result_bind]. by erewrite radial_shell_run.
Qed.

(** C4: for a variant other than 1 and 2 the function raises
    [UnboundLocalError] for [drho_dt], whatever its other arguments are:
    it reads nothing of the dictionary and returns no value. *)
Theorem radial_fdiff_invalid_ver v w p node ver flag :
  ver ≠ 1%Z → ver ≠ 2%Z →
  radial_fdiff v w p node ver flag = Raise (UnboundLocalError "drho_dt").
Proof. intros H1 H2. unfold radial_fdiff. by rewrite !decide_False. Qed.

(** C26: an index outside the range of ['r_jph'] ends both variants with
    [IndexError], before the densities are looked at. *)
Theorem radial_fdiff_index_error p q node ver flag v w :
  has_radial_core p q → ver = 1%Z ∨ ver = 2%Z →
  (node < - Z.of_nat (length (r_jph q)) ∨ Z.of_nat (length (r_jph q)) ≤ node)%Z →
  radial_fdiff v w p node ver flag = Raise IndexError.
Proof.
  intros (HD & HS & HE & Hr & _)%has_radial_core_lookup Hver
    Hnode%getitem_IndexError.
  assert (radial_base v w p node = Raise IndexError) as Hbase.
  { unfold radial_base. rewrite HD, HS, HE, Hr. cbn [mbind result_bind].
    vsimpl. cbn [mbind result_bind]. by rewrite Hnode. }
  destruct Hver as [-> | ->];
    [by rewrite radial_fdiff_ver1 | by rewrite radial_fdiff_ver2, Hbase].
Qed.

(** A negative index names the element it wraps around to, in the base
    expression and in the factors of variant 2. *)
Lemma radial_base_wrap p q node v w :
  p !! "r_jph" = Some (VArr (r_jph q)) → p !! "1/dr" = Some (VArr (inv_dr q)) →
  length (inv_dr q) = length (r_jph q) →
  (- Z.of_nat (length (r_jph q)) ≤ node < 0)%Z →
  radial_base v w p node =
    radial_base v w p (Z.of_nat (length (r_jph q)) + node).
Proof.
  intros Hr Hdr Hlen Hnode. unfold radial_base.
  do 5 (apply bind_ext; intros ?).
  rewrite (getkey_Some _ _ _ Hr), !bind_Ok, <-getitem_wrap by done.
  do 3 (apply bind_ext; intros ?).
  rewrite (getkey_Some _ _ _ Hdr), !bind_Ok.
  by rewrite (getitem_wrap (inv_dr q)), Hlen by lia.
Qed.

Lemma radial_shell_wrap p q (n : nat) node b :
  p !! "1/r_j" = Some (VArr (inv_r_j q)) →
  p !! "1/t_shl" = Some (VArr (inv_t_shl q)) →
  length (inv_r_j q) = n → length (inv_t_shl q) = n →
  (- Z.of_nat n ≤ node < 0)%Z →
  radial_shell b p node = radial_shell b p (Z.of_nat n + node).
Proof.
  intros Hrj Ht Hl1 Hl2 Hnode. unfold radial_shell.
  rewrite (getkey_Some _ _ _ Hrj), !bind_Ok.
  rewrite (getitem_wrap (inv_r_j q)), Hl1 by lia.
  do 2 (apply bind_ext; intros ?).
  rewrite (getkey_Some _ _ _ Ht), !bind_Ok.
  by rewrite (getitem_wrap (inv_t_shl q)), Hl2 by lia.
Qed.

(** C27: a negative index is not an error: when the four indexed arrays
    have one length [n], the call at [node] between [-n] and [-1] is the
    call at [n + node]. *)
Theorem radial_fdiff_negative_node p q (n : nat) node ver flag v w :
  p !! "r_jph" = Some (VArr (r_jph q)) → p !! "1/dr" = Some (VArr (inv_dr q)) →
  p !! "1/r_j" = Some (VArr (inv_r_j q)) →
  p !! "1/t_shl" = Some (VArr (inv_t_shl q)) →
  length (r_jph q) = n → length (inv_dr q) = n →
  length (inv_r_j q) = n → length (inv_t_shl q) = n →
  (- Z.of_nat n ≤ node < 0)%Z →
  radial_fdiff v w p node ver flag =
    radial_fdiff v w p (Z.of_nat n + node) ver flag.
Proof.
  intros Hr Hdr Hrj Ht <- Hl1 Hl2 Hl3 Hnode. unfold radial_fdiff.
  rewrite <-(radial_base_wrap p q node) by done.
  repeat case_decide; [done | | done].
  apply bind_ext; intros b. by apply (radial_shell_wrap p q).
Qed.

(** Variant 1 reads neither ['1/r_j'] nor ['1/t_shl']. *)
Lemma radial_base_delete p k v w node :
  k ≠ "D_eff_naf" → k ≠ "p_eff_SAnaf" → k ≠ "eps/tau2_n2" →
  k ≠ "r_jph" → k ≠ "1/dr" →
  radial_base v w (delete k p) node = radial_base v w p node.
Proof.
  intros. unfold radial_base. by rewrite !getkey_delete_ne.
Qed.

(** Variant 1 reads neither ['1/r_j'] nor ['1/t_shl']: a dictionary
    without them gives the same outcome. *)
Lemma radial_fdiff_ver1_ignores_shell v w p node flag :
  radial_fdiff v w (delete "1/r_j" (delete "1/t_shl" p)) node 1 flag =
    radial_fdiff v w p node 1 flag.
Proof. rewrite !radial_fdiff_ver1. by rewrite !radial_base_delete. Qed.

(** C33: the comments of the source call ['p_eff_SAnaf'] a parameter of
    the core-shell variant only and ['eps/tau2_n2'] one of the
    flooded-agglomerate variant only; the code reads both in both
    variants, and raises [KeyError] when either is missing. *)
Theorem radial_fdiff_reads_both p node ver flag v w D S :
  ver = 1%Z ∨ ver = 2%Z →
  p !! "D_eff_naf" = Some (VNum D) →
  (p !! "p_eff_SAnaf" = None →
   radial_fdiff v w p node ver flag = Raise (KeyError "p_eff_SAnaf")) ∧
  (p !! "p_eff_SAnaf" = Some (VNum S) → p !! "eps/tau2_n2" = None →
   radial_fdiff v w p node ver flag = Raise (KeyError "eps/tau2_n2")).
Proof.
  intros Hver HD.
  assert (p !! "p_eff_SAnaf" = None →
          radial_base v w p node = Raise (KeyError "p_eff_SAnaf")) as H1.
  { intros HS. unfold radial_base.
    by rewrite (getkey_Some _ _ _ HD), (getkey_None _ _ HS). }
  assert (p !! "p_eff_SAnaf" = Some (VNum S) → p !! "eps/tau2_n2" = None →
          radial_base v w p node = Raise (KeyError "eps/tau2_n2")) as H2.
  { intros HS HE. unfold radial_base.
    by rewrite (getkey_Some _ _ _ HD), (getkey_Some _ _ _ HS),
      (getkey_None _ _ HE). }
  destruct Hver as [-> | ->]; rewrite ?radial_fdiff_ver1, ?radial_fdiff_ver2;
    (split; [intros HS; by rewrite H1 | intros HS HE; by rewrite H2]).
Qed.

End properties.

(** ** Properties over a field *)

Section field.
Context `{ScalarField R} {F : Type}.
Implicit Types (p : gmap string (value R)) (q : radial_params R)
  (node ver : Z) (flag : F) (v w b : value R) (xs ys : list R).
Local Open Scope scalar_scope.

Add Field radial_field : sf_field.

Lemma rate_k_antisym q rj dr r1 r2 :
  rate_k q rj dr r2 r1 ≡ - rate_k q rj dr r1 r2.
Proof. unfold rate_k, ssquare. ring. Qed.

Lemma rate_k_diag q rj dr r : rate_k q rj dr r r ≡ 0.
Proof. unfold rate_k, ssquare. ring. Qed.

(** The rate is linear in the difference of the densities. *)
Lemma rate_k_shift q rj dr r1 r2 c :
  rate_k q rj dr (r1 + c) (r2 + c) ≡ rate_k q rj dr r1 r2.
Proof. unfold rate_k, ssquare. ring. Qed.

Lemma shell_factor_opp rjn tn x :
  shell_factor rjn tn (- x) ≡ - shell_factor rjn tn x.
Proof. unfold shell_factor, ssquare. ring. Qed.

(** What follows the subtraction in the base expression commutes with
    negation, and so do the two factors of variant 2. *)
Lemma radial_base_tail_odd p node (sq DSE : value R) :
  odd_k (λ d, rd ← vmul sq d; dr ← getkey p "1/dr"; drn ← getitem dr node;
              inner ← vmul rd drn; vmul DSE inner).
Proof.
  apply odd_bind; [apply odd_vmul_l|].
  do 2 (apply odd_after; intros ?).
  apply odd_bind; [apply odd_vmul_r | apply odd_vmul_l].
Qed.

Lemma radial_shell_odd p node : odd_k (λ b, radial_shell b p node).
Proof.
  unfold radial_shell. do 2 (apply odd_after; intros ?).
  apply odd_bind; [apply odd_vmul_r|].
  do 2 (apply odd_after; intros ?). apply odd_vmul_r.
Qed.

Lemma radial_base_antisym v w p node :
  radial_base w v p node ≡ vneg <$> radial_base v w p node.
Proof.
  unfold radial_base.
  do 7 (rewrite fmap_bind; apply bind_equiv_ext; intros ?).
  apply bind_odd; [apply vsub_swap | apply radial_base_tail_odd].
Qed.

(** C7: exchanging the two shells negates the rate, for every
    dictionary, index and variant; when one call raises, so does the
    other, with the same exception. *)
Theorem radial_fdiff_antisymmetric v w p node ver flag :
  radial_fdiff w v p node ver flag ≡ vneg <$> radial_fdiff v w p node ver flag.
Proof.
  unfold radial_fdiff. repeat case_decide.
  - apply radial_base_antisym.
  - apply bind_odd; [apply radial_base_antisym | apply radial_shell_odd].
  - constructor.
Qed.

(** C30: equal densities in the two shells give a rate that is zero for
    every species, in variant 1. *)
Theorem radial_fdiff_equal_densities p q node flag rj dr v :
  has_radial_core p q →
  getitem (VArr (r_jph q)) node = Ok (VNum rj) →
  getitem (VArr (inv_dr q)) node = Ok (VNum dr) →
  radial_fdiff v v p node 1 flag ≡ Ok (vzeros_like v).
Proof.
  intros Hp Hrj Hdr.
  rewrite radial_fdiff_ver1, (radial_base_spec p q node rj dr) by done.
  apply (vbinop_diag _ (λ _, 0)), rate_k_diag.
Qed.

End field.

(** ** The theorems at three radial nodes *)

Section witnesses.
Local Open Scope Q_scope.

Lemma radial_p_core : has_radial_core radial_p radial_q.
Proof. apply has_radial_core_of, has_radial_dict. Qed.

Lemma radial_fdiff_ver1_spec_witness :
  radial_fdiff (VArr [1; 2]) (VArr [3; 5]) radial_p 1 1 () =
    vbinop (rate_k radial_q 2 20) (VArr [1; 2]) (VArr [3; 5]).
Proof.
  exact (radial_fdiff_ver1_spec radial_p radial_q 1 () 2 20 (VArr [1; 2])
           (VArr [3; 5]) radial_p_core eq_refl eq_refl).
Defined.

Lemma radial_fdiff_ver2_spec_witness :
  radial_fdiff (VArr [1; 2]) (VArr [3; 5]) radial_p 1 2 () =
    vmap (shell_factor (1#3) 6) <$>
      vbinop (rate_k radial_q 2 20) (VArr [1; 2]) (VArr [3; 5]).
Proof.
  exact (radial_fdiff_ver2_spec radial_p radial_q 1 () 2 20 (1#3) 6
           (VArr [1; 2]) (VArr [3; 5]) (has_radial_dict _) eq_refl eq_refl
           eq_refl eq_refl).
Defined.

Lemma radial_fdiff_shape_witness :
  vshape <$> radial_fdiff (VArr [1; 2]) (VArr [3; 5; 7]) radial_p 1 2 () =
    Raise ValueError.
Proof.
  exact (radial_fdiff_shape radial_p radial_q 1 2 () 2 20 (1#3) 6
           (VArr [1; 2]) (VArr [3; 5; 7]) (has_radial_dict _)
           (or_intror eq_refl) eq_refl eq_refl eq_refl eq_refl).
Defined.

Lemma radial_fdiff_variants_witness :
  radial_fdiff (VNum 1) (VNum 3) radial_p 0 2 () =
    Ok (vmap (shell_factor (1#2) 5) (VNum (rate_k radial_q 1 10 1 3))).
Proof.
  exact (radial_fdiff_variants radial_p radial_q 0 () (1#2) 5 (VNum 1)
           (VNum 3) _ (has_radial_dict _) eq_refl eq_refl eq_refl).
Defined.

Lemma radial_fdiff_invalid_ver_witness :
  radial_fdiff (VNum 1) (VNum 3) radial_p 0 3 () =
    Raise (UnboundLocalError "drho_dt").
Proof.
  exact (radial_fdiff_invalid_ver (VNum 1) (VNum 3) radial_p 0 3 ()
           ltac:(lia) ltac:(lia)).
Defined.

Lemma radial_fdiff_index_error_witness :
  radial_fdiff (VNum 1) (VNum 3) radial_p 3 2 () = Raise IndexError.
Proof.
  refine (radial_fdiff_index_error radial_p radial_q 3 2 () (VNum 1) (VNum 3)
            radial_p_core (or_intror eq_refl) (or_intror _)).
  unfold radial_q; simpl; lia.
Defined.

Lemma radial_fdiff_negative_node_witness :
  radial_fdiff (VNum 1) (VNum 3) radial_p (-1) 2 () =
    radial_fdiff (VNum 1) (VNum 3) radial_p (Z.of_nat 3 + -1) 2 ().
Proof.
  exact (radial_fdiff_negative_node radial_p radial_q 3 (-1) 2 () (VNum 1)
           (VNum 3) eq_refl eq_refl eq_refl eq_refl eq_refl eq_refl eq_refl
           eq_refl ltac:(lia)).
Defined.

Lemma radial_fdiff_reads_both_witness :
  (delete "p_eff_SAnaf" radial_p !! "p_eff_SAnaf" = None →
   radial_fdiff (VNum 1) (VNum 3) (delete "p_eff_SAnaf" radial_p) 0 1 () =
     Raise (KeyError "p_eff_SAnaf")) ∧
  (delete "p_eff_SAnaf" radial_p !! "p_eff_SAnaf" = Some (VNum 0) →
   delete "p_eff_SAnaf" radial_p !! "eps/tau2_n2" = None →
   radial_fdiff (VNum 1) (VNum 3) (delete "p_eff_SAnaf" radial_p) 0 1 () =
     Raise (KeyError "eps/tau2_n2")).
Proof.
  exact (radial_fdiff_reads_both (delete "p_eff_SAnaf" radial_p) 0 1 ()
           (VNum 1) (VNum 3) (1#1000) 0 (or_introl eq_refl) eq_refl).
Defined.

Lemma radial_fdiff_antisymmetric_witness :
  radial_fdiff (VArr [3; 5]) (VArr [1; 2]) radial_p 1 2 () ≡
    vneg <$> radial_fdiff (VArr [1; 2]) (VArr [3; 5]) radial_p 1 2 ().
Proof.
  exact (radial_fdiff_antisymmetric (VArr [1; 2]) (VArr [3; 5]) radial_p 1 2 ()).
Defined.

Lemma radial_fdiff_equal_densities_witness :
  radial_fdiff (VArr [3; 5]) (VArr [3; 5]) radial_p 1 1 () ≡
    Ok (vzeros_like (VArr [3; 5])).
Proof.
  exact (radial_fdiff_equal_densities radial_p radial_q 1 () 2 20
           (VArr [3; 5]) radial_p_core eq_refl eq_refl).
Defined.

End witnesses.
