(* ===== verification/Binary64.v ===== *)
(** * The kernels in binary64, for all doubles

    The source computes in IEEE binary64, where the laws of a field do
    not hold: zero times an infinity is NaN, and a product with zero has
    a sign.  The design document promises the exact zero vector when the
    toggle is zero and when the two nodes are in the same state.  This
    file proves what the code gives instead, for every double and every
    provider, from the specification of the kernel's primitive floats
    ([mul_spec], [sub_spec], [div_spec] of the standard library):

    - [zero_or_nan]: a double that is the positive zero, the negative
      zero or NaN; these are the doubles that the differences [x - x]
      take, and products, quotients and sums keep them;
    - with the toggle at zero every entry of what [fickian_adf] returns
      is such a double ([fickian_adf_tog_zero_binary64]), and which of the
      three it is follows from the net flux of the call: [gate0] keeps
      the sign of a finite entry and turns an infinite one into NaN
      ([fickian_adf_tog_zero_signs]);
    - so is every entry of the flux between two nodes with one pressure
      and the same mass fractions ([fickian_adf_zero_gradient_binary64]),
      and of the radial rate between equal densities
      ([radial_fdiff_equal_binary64]).

    The last section applies the theorems to calls on which the negative
    zero and NaN occur; [Scenarios] has the scenario of the design
    document. *)

From Stdlib Require Import ZArith Floats.
From stdpp Require Import base tactics option list strings gmap.
From S2P Require Import Prelude Scalar NumPy Params Provider Fickian Radial.

(** ** Zeros and NaN *)

Section doubles.
Local Open Scope float_scope.
Implicit Types (x y : float).

Definition zero_or_nan x : Prop := x = 0 ∨ x = -0 ∨ x = nan.

(** A double is determined by its specification. *)
Lemma float_of_spec x s : Prim2SF x = s → x = SF2Prim s.
Proof. intros <-. by rewrite SF2Prim_Prim2SF. Qed.

Lemma SF64sub_diag s m e :
  SF64sub (S754_finite s m e) (S754_finite s m e) = S754_zero false.
Proof.
  unfold SF64sub, SFsub. set (a := cond_Zopp s _).
  by replace (a - a)%Z with 0%Z by (symmetry; apply Z.sub_diag).
Qed.

Lemma sub_diag_zero_or_nan x : zero_or_nan (x - x).
Proof.
  unfold zero_or_nan. rewrite (float_of_spec _ _ (sub_spec x x)).
  destruct (Prim2SF x) as [[]|[]| |s m e]; rewrite ?SF64sub_diag; cbn; auto.
Qed.

Lemma mul_zero_or_nan_l x y : zero_or_nan x → zero_or_nan (x * y).
Proof.
  intros Hx. unfold zero_or_nan. rewrite (float_of_spec _ _ (mul_spec x y)).
  destruct Hx as [->|[->| ->]];
    destruct (Prim2SF y) as [[]|[]| |[] m e]; cbn; auto.
Qed.

Lemma mul_zero_or_nan_r x y : zero_or_nan y → zero_or_nan (x * y).
Proof.
  intros Hy. unfold zero_or_nan. rewrite (float_of_spec _ _ (mul_spec x y)).
  destruct Hy as [->|[->| ->]];
    destruct (Prim2SF x) as [[]|[]| |[] m e]; cbn; auto.
Qed.

Lemma div_zero_or_nan_l x y : zero_or_nan x → zero_or_nan (x / y).
Proof.
  intros Hx. unfold zero_or_nan. rewrite (float_of_spec _ _ (div_spec x y)).
  destruct Hx as [->|[->| ->]];
    destruct (Prim2SF y) as [[]|[]| |[] m e]; cbn; auto.
Qed.

Lemma add_zero_or_nan x y : zero_or_nan x → zero_or_nan y → zero_or_nan (x + y).
Proof.
  intros Hx Hy. unfold zero_or_nan.
  destruct Hx as [->|[->| ->]]; destruct Hy as [->|[->| ->]]; vm_compute; auto.
Qed.

Lemma zero_zero_or_nan : zero_or_nan 0.
Proof. by left. Qed.

(** What the product with the positive zero is: the zero with the sign
    of the factor when the factor is finite, NaN when it is an infinity or
    NaN. *)
Definition gate0 x : float :=
  match Prim2SF x with
  | S754_zero s | S754_finite s _ _ => if s then -0 else 0
  | S754_infinity _ | S754_nan => nan
  end.

Lemma mul_zero_l x : 0 * x = gate0 x.
Proof.
  unfold gate0. rewrite (float_of_spec _ _ (mul_spec 0 x)).
  by destruct (Prim2SF x) as [[]|[]| |[] m e].
Qed.

Lemma gate0_zero_or_nan x : zero_or_nan (gate0 x).
Proof. rewrite <-mul_zero_l. apply mul_zero_or_nan_l, zero_zero_or_nan. Qed.

(** The gated entry is the zero of the design document exactly when the
    entry is finite and not negative. *)
Lemma gate0_zero x :
  gate0 x = 0 ↔ Prim2SF x = S754_zero false ∨
                ∃ m e, Prim2SF x = S754_finite false m e.
Proof.
  unfold gate0. destruct (Prim2SF x) as [[]|[]| |[] m e]; split;
    try (by intros [=]); try (by intros [[=]|(? & ? & [=])]); eauto.
Qed.

End doubles.

(** ** Arrays of zeros and NaN *)

Section arrays.
Implicit Types (a b c : value float).

Lemma vsub_diag_zero_or_nan a c : vsub a a = Ok c → vall zero_or_nan c.
Proof. apply vbinop_all_diag, sub_diag_zero_or_nan. Qed.

(** The step comes first and the operand second, so that a search that
    applies these lemmas finds the operand in the step. *)
Lemma vmul_zero_or_nan_l a b c :
  vmul a b = Ok c → vall zero_or_nan a → vall zero_or_nan c.
Proof.
  intros Hc Ha. revert Ha Hc. apply vbinop_all_l.
  intros x y. apply mul_zero_or_nan_l.
Qed.

Lemma vmul_zero_or_nan_r a b c :
  vmul a b = Ok c → vall zero_or_nan b → vall zero_or_nan c.
Proof.
  intros Hc Hb. revert Hb Hc. apply vbinop_all_r.
  intros x y. apply mul_zero_or_nan_r.
Qed.

Lemma vdiv_zero_or_nan_l a b c :
  vdiv a b = Ok c → vall zero_or_nan a → vall zero_or_nan c.
Proof.
  intros Hc Ha. revert Ha Hc. apply vbinop_all_l.
  intros x y. apply div_zero_or_nan_l.
Qed.

Lemma vadd_zero_or_nan a b c :
  vadd a b = Ok c → vall zero_or_nan a → vall zero_or_nan b →
  vall zero_or_nan c.
Proof.
  intros Hc Ha Hb. revert Ha Hb Hc. apply vbinop_all.
  intros x y. apply add_zero_or_nan.
Qed.

End arrays.

Create HintDb binary64 discriminated.

#[export] Hint Resolve vsub_diag_zero_or_nan vmul_zero_or_nan_l
  vmul_zero_or_nan_r vdiv_zero_or_nan_l vadd_zero_or_nan : binary64.

(** [bind_steps H] splits the hypothesis [H], a sequence of binds that
    returns, into the outcomes of its steps. *)
Ltac bind_steps H :=
  repeat (apply bind_Ok_inv in H as (? & ? & H)).

(** [zero_or_nan_steps H] follows zeros and NaN through the steps of
    [H]. *)
Ltac zero_or_nan_steps H := bind_steps H; eauto 8 with binary64 nocore.

(** ** The planar kernel *)

Section planar.
Context `{Provider float G}.
Implicit Types (s : TDY float) (gas : G) (p : gmap string (value float))
  (tog : toggle float) (J : value float).

(** C11: in binary64, with the toggle at zero the call raises what it
    raises with any other toggle and returns a value of the same shape,
    and every entry of it is the positive zero, the negative zero or NaN.
    It is not always the zero vector that the design document promises. *)
Theorem fickian_adf_tog_zero_binary64 s1 s2 gas p tog :
  vshape <$> (fickian_adf s1 s2 gas p (TogNum 0%float)).1 =
    vshape <$> (fickian_adf s1 s2 gas p tog).1 ∧
  ∀ J, (fickian_adf s1 s2 gas p (TogNum 0%float)).1 = Ok J →
       vall zero_or_nan J.
Proof.
  destruct (fickian_adf_toggle s1 s2 gas p) as (r & g & Hr).
  rewrite !Hr. cbn [fst]. destruct r as [J0|e]; [|done].
  rewrite !fmap_Ok, !vshape_vmap. split; [done|]. intros J [= <-].
  apply (vall_vmap (λ _, True)); [|apply vall_True].
  intros x _. apply mul_zero_or_nan_l, zero_zero_or_nan.
Qed.

(** C23: in binary64, what a toggle of zero returns, entry by entry: the
    net flux of lines 48 to 56 with every finite entry replaced by the
    zero of its sign, and every infinite entry and every NaN by NaN.  The
    result is the zero vector of the design document exactly when no
    entry of the net flux is negative, infinite or NaN. *)
Theorem fickian_adf_tog_zero_signs s1 s2 gas p g1 g2 J :
  set_TDY s1 gas = (Ok (), g1) → set_TDY s2 g1 = (Ok (), g2) →
  net_flux p (node_of g1) (node_of g2) = Ok J →
  (fickian_adf s1 s2 gas p (TogNum 0%float)).1 = Ok (vmap gate0 J).
Proof.
  intros Hs1 Hs2 HJ. rewrite (fickian_adf_run _ _ _ _ _ _ _ Hs1 Hs2).
  cbn [fst]. rewrite HJ, bind_Ok, mass_flux_vmap. f_equal.
  apply vmap_ext, mul_zero_l.
Qed.

(** The two driving terms between nodes with one pressure and the same
    mass fractions. *)
Lemma J_conv_rest p rho_k P mu J :
  J_conv p rho_k P P mu = Ok J → vall zero_or_nan J.
Proof. unfold J_conv. intros HJ. zero_or_nan_steps HJ. Qed.

Lemma J_diff_rest p D_k rho Y J :
  J_diff p D_k rho Y Y = Ok J → vall zero_or_nan J.
Proof. unfold J_diff. intros HJ. zero_or_nan_steps HJ. Qed.

Lemma net_flux_rest p n1 n2 J :
  n_P n1 = n_P n2 → n_Y n1 = n_Y n2 →
  net_flux p n1 n2 = Ok J → vall zero_or_nan J.
Proof.
  unfold net_flux. intros -> -> HJ. bind_steps HJ.
  eauto using vadd_zero_or_nan, J_conv_rest, J_diff_rest.
Qed.

End planar.

Section planar_lawful.
Context `{Provider float G, !LawfulProvider float G}.
Implicit Types (s : TDY float) (gas : G) (p : gmap string (value float))
  (tog : toggle float) (J : value float).

(** C12: in binary64, when both nodes are in the same state every entry
    of the flux is the positive zero, the negative zero or NaN, whatever
    the dictionary and the toggle hold. *)
Theorem fickian_adf_zero_gradient_binary64 s gas p tog J :
  (fickian_adf s s gas p tog).1 = Ok J → vall zero_or_nan J.
Proof.
  rewrite fickian_adf_unfold.
  destruct (set_TDY s gas) as [[[]|e] g1] eqn:H1; [|done].
  destruct (set_TDY s g1) as [[[]|e] g2] eqn:H2; [|done].
  cbn [fst]. rewrite (node_of_snapshot g2 g1)
    by eauto using set_TDY_deterministic.
  intros (Jn & HJn & HJ)%bind_Ok_inv.
  rewrite mass_flux_vmap in HJ. injection HJ as <-.
  eapply vall_vmap; [|by eapply (net_flux_rest p (node_of g1) (node_of g1))].
  intros x Hx. by apply mul_zero_or_nan_r.
Qed.

End planar_lawful.

(** ** The radial kernel *)

Section radial.
Context {F : Type}.
Implicit Types (p : gmap string (value float)) (v r : value float)
  (node ver : Z) (flag : F).

Lemma radial_base_equal v p node r :
  radial_base v v p node = Ok r → vall zero_or_nan r.
Proof. unfold radial_base. intros Hr. zero_or_nan_steps Hr. Qed.

Lemma radial_shell_zero_or_nan v p node r :
  vall zero_or_nan v → radial_shell v p node = Ok r → vall zero_or_nan r.
Proof. unfold radial_shell. intros Hv Hr. zero_or_nan_steps Hr. Qed.

(** C28: in binary64, between two shells with the same densities every
    entry of the rate is the positive zero, the negative zero or NaN, in
    both variants and whatever the dictionary holds. *)
Theorem radial_fdiff_equal_binary64 v p node ver flag r :
  radial_fdiff v v p node ver flag = Ok r → vall zero_or_nan r.
Proof.
  unfold radial_fdiff. repeat case_decide; [| |done].
  - apply radial_base_equal.
  - intros (b & Hb & Hr)%bind_Ok_inv.
    eauto using radial_base_equal, radial_shell_zero_or_nan.
Qed.

End radial.

(** ** The theorems at concrete calls *)

(** A provider over the doubles with one species, and a call between two
    nodes in one state.  The flux it returns is the negative zero: the
    advective and the diffusive term are both products of a negative
    factor with the positive zero of [P - P] and [Y - Y]. *)

Section witnesses.
Local Open Scope float_scope.

Definition fquery (s : TDY float) : result (props float) :=
  if decide (length (tdy_Y s) = 1%nat) then
    Ok (Props [0x1.4f8b588e368f1p-16] (tdy_D s) 0x1.4f8b588e368f1p-16
          (tdy_D s * 287 * tdy_T s) (tdy_Y s))
  else Raise (CanteraError "species").

Lemma fquery_species s pr : fquery s = Ok pr → props_species 1 pr.
Proof. unfold fquery. case_decide; intros [= <-]. by split. Qed.

Definition fgas : Provider float (props float) := pure_provider fquery.

Definition fgas_lawful : @LawfulProvider float (props float) fgas :=
  pure_provider_lawful fquery 1 fquery_species.

Local Existing Instance fgas.
Local Existing Instance fgas_lawful.

Definition fstate : TDY float := MkTDY 350 1 [1].

Definition fdict : gmap string (value float) :=
  planar_dict (PlanarParams 0.5 0.5 0x1.19799812dea11p-40 100 0.5).

Definition fgas0 : props float := Props [] 0 0 0 [].

Definition fradial : gmap string (value float) :=
  radial_dict (RadialParams 0.5 0.5 0.25 [1; 2] [10; 20] [0.5; 0.25] [5; 6]).

Lemma rest_run :
  (fickian_adf fstate fstate fgas0 fdict (TogNum 1)).1 = Ok (VArr [-0]).
Proof. by vm_compute. Qed.

Lemma equal_shells_run :
  radial_fdiff (VArr [1; infinity]) (VArr [1; infinity]) fradial 1 1 () =
    Ok (VArr [0; nan]).
Proof. by vm_compute. Qed.

(** A call from a colder node, at the lower pressure, into a warmer one:
    the net flux is negative and the toggle zero turns it into the
    negative zero. *)
Definition fcold : TDY float := MkTDY 340 1 [1].

Definition fprops (P : float) : props float :=
  Props [0x1.4f8b588e368f1p-16] 1 0x1.4f8b588e368f1p-16 P [1].

Lemma uphill_net_flux :
  net_flux fdict (node_of (fprops 97580)) (node_of (fprops 100450)) =
    Ok (VArr [-0x1.d63886594af4dp-7]).
Proof. by vm_compute. Qed.

Lemma fickian_adf_tog_zero_signs_witness :
  (fickian_adf fcold fstate fgas0 fdict (TogNum 0)).1 =
    Ok (vmap gate0 (VArr [-0x1.d63886594af4dp-7])).
Proof.
  exact (fickian_adf_tog_zero_signs fcold fstate fgas0 fdict (fprops 97580)
           (fprops 100450) _ eq_refl eq_refl uphill_net_flux).
Defined.

Lemma uphill_run :
  (fickian_adf fcold fstate fgas0 fdict (TogNum 0)).1 = Ok (VArr [-0]).
Proof. by vm_compute. Qed.

(** A node whose pressure overflows: the net flux is infinite and the
    toggle zero turns it into NaN. *)
Lemma overflow_run :
  (fickian_adf fstate (MkTDY 0x1p1023 1 [1]) fgas0 fdict (TogNum 1)).1 =
    Ok (VArr [neg_infinity]) ∧
  (fickian_adf fstate (MkTDY 0x1p1023 1 [1]) fgas0 fdict (TogNum 0)).1 =
    Ok (VArr [nan]).
Proof. split; by vm_compute. Qed.

Lemma fickian_adf_tog_zero_binary64_witness : vall zero_or_nan (VArr [-0]).
Proof.
  exact (proj2 (fickian_adf_tog_zero_binary64 fcold fstate fgas0 fdict
                  (TogNum 1)) _ uphill_run).
Defined.

Lemma fickian_adf_zero_gradient_binary64_witness : vall zero_or_nan (VArr [-0]).
Proof.
  exact (fickian_adf_zero_gradient_binary64 fstate fgas0 fdict (TogNum 1) _
           rest_run).
Defined.

Lemma radial_fdiff_equal_binary64_witness : vall zero_or_nan (VArr [0; nan]).
Proof.
  exact (radial_fdiff_equal_binary64 (VArr [1; infinity]) fradial 1 1 () _
           equal_shells_run).
Defined.

End witnesses.
