(* ===== verification/Sign.v ===== *)
(** * The sign convention, over the rationals

    Both kernels promise a direction: a positive component of the planar
    flux is a flux from node 1 into node 2, a positive radial rate is a
    transfer from the outer shell into the inner one.  The direction is a
    statement about order, so it is proved here over the rationals, for
    coefficients and attributes that are not negative:

    - [flux_k_downhill], [flux_k_uphill]: the flux of one species that is
      not more concentrated at node 2, under a pressure that is not
      higher there, is not negative; and the other way round;
    - [fickian_adf_direction]: the same for every entry of the array that
      [fickian_adf] returns;
    - [rate_k_direction], [radial_fdiff_direction]: the rate of a species
      is not negative when the outer shell is not less dense, for both
      variants.

    [physical_params], [physical_props] and [physical_radial] are the
    conditions on the inputs, as boolean functions. *)

From Stdlib Require Import QArith Lqa.
From stdpp Require Import base tactics option list strings gmap.
From S2P Require Import Prelude Scalar NumPy Params Provider Fixtures Fickian Radial.

Local Open Scope Q_scope.

(** ** Inputs that are not negative *)

Definition Qnonneg (x : Q) : bool := Qle_bool 0 x.

(** The weights, the permeability, the inverse spacing and the porosity
    factor of the planar kernel. *)
Definition physical_params (q : planar_params Q) : bool :=
  Qnonneg (wt1 q) && Qnonneg (wt2 q) && Qnonneg (K_g q) &&
  Qnonneg (inv_dy q) && Qnonneg (eps_tau2 q).

(** The attributes of a node. *)
Definition physical_props (a : props Q) : bool :=
  Qnonneg (pr_rho a) && Qnonneg (pr_mu a) &&
  forallb Qnonneg (pr_D_k a) && forallb Qnonneg (pr_Y a).

(** The coefficients of the radial kernel. *)
Definition physical_radial (q : radial_params Q) : bool :=
  Qnonneg (D_eff_naf q) && Qnonneg (p_eff_SAnaf q) && Qnonneg (eps_tau2_n2 q) &&
  forallb Qnonneg (inv_dr q) && forallb Qnonneg (inv_t_shl q).

Lemma Qnonneg_spec x : Qnonneg x = true ↔ 0 <= x.
Proof. apply Qle_bool_iff. Qed.

Lemma forallb_Qnonneg_lookup (l : list Q) (k : nat) (x : Q) :
  forallb Qnonneg l = true → l !! k = Some x → 0 <= x.
Proof.
  rewrite forallb_forall. intros Hl Hk. apply Qnonneg_spec, Hl.
  apply list_elem_of_In. by eapply list_elem_of_lookup_2.
Qed.

Lemma physical_params_spec q :
  physical_params q = true →
  0 <= wt1 q ∧ 0 <= wt2 q ∧ 0 <= K_g q ∧ 0 <= inv_dy q ∧ 0 <= eps_tau2 q.
Proof.
  unfold physical_params. rewrite !andb_true_iff, !Qnonneg_spec. tauto.
Qed.

Lemma physical_props_spec a :
  physical_props a = true →
  0 <= pr_rho a ∧ 0 <= pr_mu a ∧
  (∀ k d, pr_D_k a !! k = Some d → 0 <= d) ∧
  (∀ k y, pr_Y a !! k = Some y → 0 <= y).
Proof.
  unfold physical_props. rewrite !andb_true_iff, !Qnonneg_spec.
  intros [[[??] HD] HY]. repeat split; eauto using forallb_Qnonneg_lookup.
Qed.

Lemma physical_radial_spec q :
  physical_radial q = true →
  0 <= D_eff_naf q ∧ 0 <= p_eff_SAnaf q ∧ 0 <= eps_tau2_n2 q ∧
  (∀ k d, inv_dr q !! k = Some d → 0 <= d) ∧
  (∀ k t, inv_t_shl q !! k = Some t → 0 <= t).
Proof.
  unfold physical_radial. rewrite !andb_true_iff, !Qnonneg_spec.
  intros [[[[??] ?] Hd] Ht]. repeat split; eauto using forallb_Qnonneg_lookup.
Qed.

(** ** Sums and products that are not negative *)

Lemma Qplus_nonneg a b : 0 <= a → 0 <= b → 0 <= a + b.
Proof. lra. Qed.

Lemma Qnonpos_opp a : 0 <= - a → a <= 0.
Proof. lra. Qed.

Lemma Qsquare_nonneg a : 0 <= a * a.
Proof.
  destruct (Qlt_le_dec a 0) as [Ha|Ha].
  - setoid_replace (a * a) with (- a * - a) using relation Qeq by ring.
    apply Qmult_le_0_compat; lra.
  - by apply Qmult_le_0_compat.
Qed.

(** Splits a goal [0 <= e] along the sums, products and inverses of [e]
    down to linear facts. *)
Ltac Qnonneg_tac :=
  repeat first
    [ lra
    | apply Qsquare_nonneg
    | apply Qmult_le_0_compat
    | apply Qplus_nonneg
    | apply Qinv_le_0_compat ].

(** Turns the operations of the scalar class into those of [Q]. *)
Ltac Qops :=
  cbn [sadd smul ssub sopp sdiv sinv szero sone Q_scalar] in *.

(** ** The planar flux *)

Section planar.
Implicit Types (q : planar_params Q) (a b : props Q).

(** The flux of one species as the sum of a pressure-driven and a
    concentration-driven term, each a product of the drop from node 1 to
    node 2 with factors that are not negative. *)
Lemma flux_k_drops q a b d1 d2 y1 y2 :
  flux_k q a b 1 d1 d2 y1 y2 ==
    (wt1 q * (pr_rho a * y1) + wt2 q * (pr_rho b * y2)) * K_g q *
      (pr_P a - pr_P b) * inv_dy q * / (wt1 q * pr_mu a + wt2 q * pr_mu b) +
    eps_tau2 q * (wt1 q * d1 + wt2 q * d2) *
      (wt1 q * pr_rho a + wt2 q * pr_rho b) * (y1 - y2) * inv_dy q.
Proof. unfold flux_k. Qops. unfold Qdiv. ring. Qed.

Lemma flux_k_downhill q a b d1 d2 y1 y2 :
  physical_params q = true → physical_props a = true → physical_props b = true →
  0 <= d1 → 0 <= d2 → 0 <= y1 → 0 <= y2 →
  pr_P b <= pr_P a → y2 <= y1 →
  0 <= flux_k q a b 1 d1 d2 y1 y2.
Proof.
  intros (?&?&?&?&?)%physical_params_spec (?&?&_)%physical_props_spec
    (?&?&_)%physical_props_spec ??????.
  rewrite flux_k_drops. Qnonneg_tac.
Qed.

Lemma flux_k_uphill q a b d1 d2 y1 y2 :
  physical_params q = true → physical_props a = true → physical_props b = true →
  0 <= d1 → 0 <= d2 → 0 <= y1 → 0 <= y2 →
  pr_P a <= pr_P b → y1 <= y2 →
  flux_k q a b 1 d1 d2 y1 y2 <= 0.
Proof.
  intros (?&?&?&?&?)%physical_params_spec (?&?&_)%physical_props_spec
    (?&?&_)%physical_props_spec ??????.
  apply Qnonpos_opp. rewrite flux_k_drops.
  match goal with |- 0 <= - (?A * ?dP * ?dy * ?i + ?B * ?dY * ?dy) =>
    setoid_replace (- (A * dP * dy * i + B * dY * dy))
      with (A * (pr_P b - pr_P a) * dy * i + B * (y2 - y1) * dy)
      using relation Qeq by ring
  end.
  Qnonneg_tac.
Qed.

(** The rows of the specification are the attributes of one species. *)
Lemma species_rows_lookup a b k r :
  species_rows a b !! k = Some r →
  pr_D_k a !! k = Some r.1.1 ∧ pr_D_k b !! k = Some r.1.2 ∧
  pr_Y a !! k = Some r.2.1 ∧ pr_Y b !! k = Some r.2.2.
Proof.
  unfold species_rows.
  intros ([d1 d2] & [y1 y2] & -> & (?&?&[= <- <-]&?&?)%lookup_zip_with_Some
            & (?&?&[= <- <-]&?&?)%lookup_zip_with_Some)%lookup_zip_with_Some.
  done.
Qed.

End planar.

(** ** The direction of the planar flux *)

Section planar_call.
Context `{Provider Q G, !LawfulProvider Q G}.
Implicit Types (s : TDY Q) (gas : G) (p : gmap string (value Q))
  (q : planar_params Q) (a b : props Q).

(** C13: the sign convention of [fickian_adf].  With coefficients and
    attributes that are not negative, the flux of a species whose mass
    fraction does not rise from node 1 to node 2, under a pressure that
    does not rise, is not negative (it goes from node 1 into node 2); when
    both do not fall, it is not positive. *)
Theorem fickian_adf_direction s1 s2 gas p q a b :
  props_at G s1 = Ok a → props_at G s2 = Ok b → has_planar p q →
  physical_params q = true → physical_props a = true → physical_props b = true →
  ∃ fs, (fickian_adf s1 s2 gas p (TogNum 1)).1 = Ok (VArr fs) ∧
    ∀ k y1 y2 f,
      pr_Y a !! k = Some y1 → pr_Y b !! k = Some y2 → fs !! k = Some f →
      (pr_P b <= pr_P a → y2 <= y1 → 0 <= f) ∧
      (pr_P a <= pr_P b → y1 <= y2 → f <= 0).
Proof.
  intros Ha Hb Hp Hq Hpa Hpb. eexists. split.
  { by apply (fickian_adf_lawful_spec s1 s2 gas p q _ a b). }
  intros k y1 y2 f Hy1 Hy2.
  unfold fickian_spec. rewrite list_lookup_fmap.
  destruct (species_rows a b !! k) as [r|] eqn:Hr; [|done]. intros [= <-].
  apply species_rows_lookup in Hr as (Hd1 & Hd2 & Hr1 & Hr2).
  rewrite Hy1 in Hr1. rewrite Hy2 in Hr2. injection Hr1 as <-. injection Hr2 as <-.
  destruct (physical_props_spec a Hpa) as (_ & _ & HDa & HYa).
  destruct (physical_props_spec b Hpb) as (_ & _ & HDb & HYb).
  split; intros; [apply flux_k_downhill | apply flux_k_uphill]; eauto.
Qed.

End planar_call.

(** ** The direction of the radial rate *)

Section radial.
Context {F : Type}.
Implicit Types (q : radial_params Q) (p : gmap string (value Q)) (flag : F).

Lemma rate_k_direction q rj dr r1 r2 :
  physical_radial q = true → 0 <= dr →
  (r2 <= r1 → 0 <= rate_k q rj dr r1 r2) ∧
  (r1 <= r2 → rate_k q rj dr r1 r2 <= 0).
Proof.
  intros (?&?&?&_)%physical_radial_spec Hdr.
  unfold rate_k, ssquare. Qops. split; intros Hr.
  - Qnonneg_tac.
  - apply Qnonpos_opp.
    setoid_replace
      (- (D_eff_naf q * p_eff_SAnaf q * eps_tau2_n2 q * (rj * rj * (r1 - r2) * dr)))
      with (D_eff_naf q * p_eff_SAnaf q * eps_tau2_n2 q * (rj * rj * (r2 - r1) * dr))
      using relation Qeq by ring.
    Qnonneg_tac.
Qed.

Lemma shell_factor_direction rjn tn x :
  0 <= tn →
  (0 <= x → 0 <= shell_factor rjn tn x) ∧ (x <= 0 → shell_factor rjn tn x <= 0).
Proof.
  intros Ht. unfold shell_factor, ssquare. Qops. split; intros Hx.
  - setoid_replace (x * (rjn * rjn) * tn) with (x * ((rjn * rjn) * tn))
      using relation Qeq by ring.
    Qnonneg_tac.
  - apply Qnonpos_opp.
    setoid_replace (- (x * (rjn * rjn) * tn)) with (- x * ((rjn * rjn) * tn))
      using relation Qeq by ring.
    Qnonneg_tac.
Qed.

(** An element selected by an index that is in range is an element of the
    array. *)
Lemma getitem_lookup (xs : list Q) node x :
  getitem (VArr xs) node = Ok (VNum x) → ∃ k, xs !! k = Some x.
Proof.
  intros (xs' & k & x' & [= <-] & _ & Hk & [= <-])%getitem_Ok_inv. eauto.
Qed.

(** C37: the sign convention of [radial_fdiff], on two numbers.  With
    coefficients that are not negative, both variants return a rate that
    is not negative when the outer density [x] is not below the inner
    density [y], and not positive when it is not above. *)
Theorem radial_fdiff_direction p q node ver flag rj dr rjn tn x y :
  has_radial p q → physical_radial q = true → ver = 1%Z ∨ ver = 2%Z →
  getitem (VArr (r_jph q)) node = Ok (VNum rj) →
  getitem (VArr (inv_dr q)) node = Ok (VNum dr) →
  getitem (VArr (inv_r_j q)) node = Ok (VNum rjn) →
  getitem (VArr (inv_t_shl q)) node = Ok (VNum tn) →
  ∃ r, radial_fdiff (VNum x) (VNum y) p node ver flag = Ok (VNum r) ∧
       (y <= x → 0 <= r) ∧ (x <= y → r <= 0).
Proof.
  intros Hp Hq Hver Hrj Hdr Hrjn Htn.
  destruct (physical_radial_spec q Hq) as (_ & _ & _ & Hds & Hts).
  destruct (getitem_lookup _ _ _ Hdr) as [k1 Hk1%Hds].
  destruct (getitem_lookup _ _ _ Htn) as [k2 Hk2%Hts].
  destruct (rate_k_direction q rj dr x y Hq Hk1) as [Hpos Hneg].
  destruct Hver as [-> | ->].
  - exists (rate_k q rj dr x y). split; [|done].
    rewrite radial_fdiff_ver1.
    by rewrite (radial_base_spec p q node rj dr)
      by eauto using has_radial_core_of.
  - exists (shell_factor rjn tn (rate_k q rj dr x y)). split.
    { rewrite radial_fdiff_ver2.
      by rewrite (radial_base_shell_spec p q node rj dr rjn tn). }
    destruct (shell_factor_direction rjn tn (rate_k q rj dr x y) Hk2).
    split; auto.
Qed.

End radial.

(** ** The theorems at concrete inputs *)

Section witnesses.
Local Existing Instance ideal_gas.
Local Existing Instance ideal_gas_lawful.

Lemma fickian_adf_direction_witness :
  ∃ fs, (fickian_adf state_a state_b gas0 planar_p (TogNum 1)).1 = Ok (VArr fs) ∧
    ∀ k y1 y2 f,
      pr_Y props_a !! k = Some y1 → pr_Y props_b !! k = Some y2 →
      fs !! k = Some f →
      (pr_P props_b <= pr_P props_a → y2 <= y1 → 0 <= f) ∧
      (pr_P props_a <= pr_P props_b → y1 <= y2 → f <= 0).
Proof.
  exact (fickian_adf_direction state_a state_b gas0 planar_p planar_q
           props_a props_b eq_refl eq_refl (has_planar_dict _) eq_refl eq_refl
           eq_refl).
Defined.

Lemma radial_fdiff_direction_witness :
  ∃ r, radial_fdiff (VNum 3) (VNum 1) radial_p 1 2 () = Ok (VNum r) ∧
       (1 <= 3 → 0 <= r) ∧ (3 <= 1 → r <= 0).
Proof.
  exact (radial_fdiff_direction radial_p radial_q 1 2 () 2 20 (1#3) 6 3 1
           (has_radial_dict _) eq_refl (or_intror eq_refl) eq_refl eq_refl
           eq_refl eq_refl).
Defined.

End witnesses.
