(* ===== verification/Scenarios.v ===== *)
(** * Runs of the planar kernel

    The kernels are executable; this file runs [fickian_adf] on the
    scenario that the design document gives for it, exactly and in
    binary64, with a provider that serves prepared attributes
    ([scripted_provider]):

    one species, both nodes at 350 K with density 1 and mass fraction 1,
    equal weights, [K_g] = 1e-12, [1/dy] = 100, [eps/tau2] = 0.5,
    [D_k] = 2e-5, [mu] = 2e-5, and pressures 101325 at node 1 and 101300
    at node 2.

    Over the rationals the flux is 1/8000 = 1.25e-4, positive: the higher
    pressure is at node 1 and the flux goes from node 1 into node 2
    ([scenario_flux_rational]).  In binary64 it is the double nearest to
    1.25e-4 ([scenario_flux_binary64]).  The document states -0.125.

    Two variations of the scenario are runs of what [Binary64] proves of
    a toggle of zero for every call: on a negative flux it gives the
    negative zero ([toggle_zero_negative_zero]), and on a flux that is
    not finite it gives NaN ([toggle_zero_nan]).

    These are evaluations of the executable model, kept as a record of
    what the code computes on the documented inputs; the properties they
    are instances of are in [Fickian] and [Binary64]. *)

From Stdlib Require Import QArith Floats.
From stdpp Require Import base tactics option list strings gmap.
From S2P Require Import Prelude Scalar NumPy Params Provider Fixtures Fickian.

(** ** The scenario over the rationals *)

Section rational.
Local Existing Instance scripted_provider.
Local Open Scope Q_scope.

(** The attributes served for node 1 and for node 2. *)
Definition scen_props (P : Q) : props Q :=
  Props [2 # 100000] 1 (2 # 100000) P [1].

Definition scen_gas : list (props Q) * props Q :=
  ([scen_props 101325; scen_props 101300], gas0).

Definition scen_q : planar_params Q :=
  PlanarParams (1 # 2) (1 # 2) (1 # 1000000000000) 100 (1 # 2).

Definition scen_state : TDY Q := MkTDY 350 1 [1].

(** The two assignments of the call, on the scripted provider. *)
Lemma scen_first :
  set_TDY scen_state scen_gas =
    (Ok (), ([scen_props 101300], scen_props 101325)).
Proof. reflexivity. Qed.

Lemma scen_second :
  set_TDY scen_state ([scen_props 101300], scen_props 101325) =
    (Ok (), ([], scen_props 101300)).
Proof. reflexivity. Qed.

Lemma scen_species_wf :
  species_wf 1 (scen_props 101325) (scen_props 101300).
Proof. by repeat split. Qed.

(** What the call returns, as the specification's list. *)
Lemma scen_run tog :
  fickian_adf scen_state scen_state scen_gas (planar_dict scen_q) tog =
    (Ok (VArr (fickian_spec scen_q (scen_props 101325) (scen_props 101300)
                 (tog_num tog))),
     ([], scen_props 101300)).
Proof.
  rewrite (fickian_adf_run _ _ _ _ _ _ _ scen_first scen_second).
  pose proof (net_flux_spec (planar_dict scen_q) scen_q tog
                ([scen_props 101300], scen_props 101325)
                ([], scen_props 101300) 1) as Hspec.
  by rewrite (Hspec scen_species_wf (has_planar_dict _)).
Qed.

(** The scenario of the design document.  The call returns one flux,
    1/8000 (that is 1.25e-4), from node 1 into node 2; it does not return
    -1/8 (the -0.125 of the document), and the provider is left with the
    attributes of node 2 and an empty script. *)
Lemma scenario_flux_rational :
  let r := fickian_adf scen_state scen_state scen_gas (planar_dict scen_q) (TogNum 1) in
  r.1 ≡ Ok (VArr [1 # 8000]) ∧ ¬ r.1 ≡ Ok (VArr [- (1 # 8)]) ∧
  r.2 = ([], scen_props 101300).
Proof.
  cbv zeta. rewrite scen_run. cbn [fst snd]. split; [|split; [|done]].
  - by repeat constructor.
  - intros Hr. inversion Hr as [?? Hv|]; subst. inversion Hv as [|?? Hl]; subst.
    inversion Hl as [|???? Hx]; subst. vm_compute in Hx. discriminate.
Qed.

End rational.

(** ** The scenario in binary64 *)

Section binary64.
Local Existing Instance scripted_provider.
Local Open Scope float_scope.

(** The doubles nearest to 2e-5 and to 1e-12. *)
Definition f_2em5 : float := 0x1.4f8b588e368f1p-16.
Definition f_1em12 : float := 0x1.19799812dea11p-40.

Definition fscen_props (mu P : float) : props float :=
  Props [f_2em5] 1 mu P [1].

Definition fscen_gas (mu P1 P2 : float) : list (props float) * props float :=
  ([fscen_props mu P1; fscen_props mu P2], Props [] 0 0 0 []).

Definition fscen_q : planar_params float :=
  PlanarParams 0.5 0.5 f_1em12 100 0.5.

Definition fscen_state : TDY float := MkTDY 350 1 [1].

(** The call of the scenario, with the viscosity, the two pressures and
    the toggle left open. *)
Definition fscen_call (mu P1 P2 : float) (tog : toggle float) : result (value float) :=
  (fickian_adf fscen_state fscen_state (fscen_gas mu P1 P2)
     (planar_dict fscen_q) tog).1.

(** In binary64 the scenario returns the double nearest to 1.25e-4,
    and the same double whether the toggle is the number one or the
    boolean [True]. *)
Lemma scenario_flux_binary64 :
  fscen_call f_2em5 101325 101300 (TogNum 1) = Ok (VArr [0x1.0624dd2f1a9fcp-13]) ∧
  fscen_call f_2em5 101325 101300 (TogBool true) =
    fscen_call f_2em5 101325 101300 (TogNum 1).
Proof. split; [by vm_compute | reflexivity]. Qed.

(** With the pressures of the scenario exchanged the flux is negative,
    and a toggle of zero gives the negative zero. *)
Lemma toggle_zero_negative_zero :
  fscen_call f_2em5 101300 101325 (TogNum 1) = Ok (VArr [- 0x1.0624dd2f1a9fcp-13]) ∧
  fscen_call f_2em5 101300 101325 (TogNum 0) = Ok (VArr [- 0]) ∧
  fscen_call f_2em5 101300 101325 (TogNum 0) ≠ Ok (VArr [0]).
Proof.
  split; [by vm_compute|]. split; [by vm_compute|].
  vm_compute. intros [=].
Qed.

(** With a viscosity of zero in the scenario the division of line 52
    raises nothing; the flux is infinite and a toggle of zero turns it
    into NaN. *)
Lemma toggle_zero_nan :
  fscen_call 0 101325 101300 (TogNum 1) = Ok (VArr [infinity]) ∧
  fscen_call 0 101325 101300 (TogNum 0) = Ok (VArr [nan]).
Proof. split; by vm_compute. Qed.

End binary64.
