(* ===== verification/Steps.v ===== *)
(** * The planar kernel step by step, and two calls on one provider

    [fickian_adf] assigns to the provider and reads it back, twice.  When
    two calls share one provider object and their statements interleave,
    a call can read the attributes of a state that the other call
    assigned.  This file makes the statements of lines 26 to 41 the atomic
    steps of a small machine:

    - [instr]: one statement, an assignment [gas.TDY = s], the read of one
      attribute, or the local product [rho_k = rho*Y];
    - [thread]: a call in progress, with the statements still to run, the
      values of its local variables, and its outcome once it has one;
    - [step_thread]: one statement of a call on the shared provider;
      [finish] is the arithmetic of lines 46 to 56 on the locals;
    - [config], [sched_step], [run_sched]: two calls and the provider
      they share, run along a schedule; [cstep] is the step relation;
    - [overtaking]: the schedule on which the first call runs its first
      assignment, the second call runs to its end, and the first call
      then runs the rest of its statements.

    The theorems: a call run alone is [fickian_adf] ([call_refines]); a
    finished call keeps its outcome ([cstep_out_stable]); two calls run
    one after the other on a lawful provider return what they return
    alone ([serialized_calls]); and a call that is overtaken after its
    first assignment returns the flux between the last node of the other
    call and its own second node, for all states and dictionaries of the
    two calls ([overtaken_call_reads_other_state]), which on the inputs of
    [Fixtures] is another flux than the call returns alone
    ([overtaken_call_differs]).

    Every statement of a call is a step that ends, and a call has
    fifteen of them; the machine has no loop, so nothing is claimed of
    termination. *)

From Stdlib Require Import QArith.
From stdpp Require Import base tactics option list strings gmap relations.
From S2P Require Import Prelude Scalar NumPy Params Provider Fixtures Fickian.

(** ** Statements and calls *)

(** The attributes a call reads, in the order of lines 27 to 31. *)
Inductive attr : Type := AD_k | ARho | AMu | AP | AY.

Inductive instr (R : Type) : Type :=
| ISet (s : TDY R)
| IRead (a : attr)
| IRhoK.

Arguments ISet {R} s.
Arguments IRead {R} a.
Arguments IRhoK {R}.

(** A call in progress. *)
Record thread (R : Type) : Type := Thread {
  t_code : list (instr R);
  t_vals : list (value R);
  t_p : gmap string (value R);
  t_tog : toggle R;
  t_out : option (result (value R)) }.

Arguments Thread {R} _ _ _ _ _.
Arguments t_code {R} _.
Arguments t_vals {R} _.
Arguments t_p {R} _.
Arguments t_tog {R} _.
Arguments t_out {R} _.

Section machine.
Context `{Scalar R, Provider R G}.
Implicit Types (t : thread R) (g gas : G) (s : TDY R) (c : list (instr R))
  (vs : list (value R)) (p : gmap string (value R)) (tog : toggle R).

Definition read_attr (a : attr) (g : G) : value R :=
  match a with
  | AD_k => VArr (mix_diff_coeffs_mass g)
  | ARho => VNum (density_mass g)
  | AMu => VNum (viscosity g)
  | AP => VNum (gas_P g)
  | AY => VArr (gas_Y g)
  end.

(** Lines 26 to 32 for the state [s]. *)
Definition node_instrs (s : TDY R) : list (instr R) :=
  [ISet s; IRead AD_k; IRead ARho; IRead AMu; IRead AP; IRead AY; IRhoK].

(** Lines 26 to 41. *)
Definition call_instrs (s1 s2 : TDY R) : list (instr R) :=
  node_instrs s1 ++ node_instrs s2.

Definition spawn (s1 s2 : TDY R) p tog : thread R :=
  Thread (call_instrs s1 s2) [] p tog None.

(** [rho*Y] on the density and the mass fractions read last. *)
Definition rho_k_of (vs : list (value R)) : result (value R) :=
  match reverse vs with
  | Y :: _ :: _ :: rho :: _ => vmul rho Y
  | _ => Raise (UnboundLocalError "rho")
  end.

(** Lines 46 to 56 on the twelve locals. *)
Definition finish p tog (vs : list (value R)) : result (value R) :=
  match vs with
  | [D1; rho1; mu1; P1; Y1; rk1; D2; rho2; mu2; P2; Y2; rk2] =>
      net_flux p (Node D1 rho1 mu1 P1 Y1 rk1) (Node D2 rho2 mu2 P2 Y2 rk2)
        ≫= mass_flux tog
  | _ => Raise (UnboundLocalError "D_k1")
  end.

Definition halt t (r : result (value R)) : thread R :=
  Thread [] (t_vals t) (t_p t) (t_tog t) (Some r).

Definition continue t c vs : thread R :=
  Thread c vs (t_p t) (t_tog t) None.

(** One statement of the call [t] on the provider [g]. *)
Definition step_thread t g : thread R * G :=
  match t_out t with
  | Some _ => (t, g)
  | None =>
      match t_code t with
      | [] => (halt t (finish (t_p t) (t_tog t) (t_vals t)), g)
      | ISet s :: c =>
          match set_TDY s g with
          | (Ok _, g') => (continue t c (t_vals t), g')
          | (Raise e, g') => (halt t (Raise e), g')
          end
      | IRead a :: c => (continue t c (t_vals t ++ [read_attr a g]), g)
      | IRhoK :: c =>
          match rho_k_of (t_vals t) with
          | Ok rk => (continue t c (t_vals t ++ [rk]), g)
          | Raise e => (halt t (Raise e), g)
          end
      end
  end.

(** [n] statements of one call. *)
Fixpoint run_thread (n : nat) t g : thread R * G :=
  match n with
  | 0 => (t, g)
  | S n => let '(t', g') := step_thread t g in run_thread n t' g'
  end.

(** ** Two calls on one provider *)

Record config : Type := Config {
  c_left : thread R;
  c_right : thread R;
  c_gas : G }.

(** One statement of the left call ([true]) or of the right one. *)
Definition sched_step (b : bool) (k : config) : config :=
  if b then
    let '(t, g) := step_thread (c_left k) (c_gas k) in Config t (c_right k) g
  else
    let '(t, g) := step_thread (c_right k) (c_gas k) in Config (c_left k) t g.

Definition run_sched (l : list bool) (k : config) : config :=
  foldl (λ k b, sched_step b k) k l.

Inductive cstep : config → config → Prop :=
| cstep_left k : cstep k (sched_step true k)
| cstep_right k : cstep k (sched_step false k).

End machine.

Arguments config : clear implicits.

(** ** One call alone *)

Section alone.
Context `{Scalar R, Provider R G}.
Implicit Types (t : thread R) (g gas : G) (s : TDY R) (c : list (instr R))
  (vs : list (value R)) (p : gmap string (value R)) (tog : toggle R).

Lemma step_done t g r : t_out t = Some r → step_thread t g = (t, g).
Proof. unfold step_thread. by intros ->. Qed.

Lemma run_done n t g r : t_out t = Some r → run_thread n t g = (t, g).
Proof.
  intros Hr. induction n as [|n IH]; [done|].
  simpl. by rewrite (step_done t g r Hr).
Qed.

Lemma run_thread_add n m t g :
  run_thread (n + m) t g =
    let '(t', g') := run_thread n t g in run_thread m t' g'.
Proof.
  revert t g. induction n as [|n IH]; intros t g; [done|].
  simpl. destruct (step_thread t g) as [t' g']. apply IH.
Qed.

(** The steps, one equation per statement. *)
Lemma run_step n t g t' g' :
  step_thread t g = (t', g') → run_thread (S n) t g = run_thread n t' g'.
Proof. intros Hs. simpl. by rewrite Hs. Qed.

Lemma step_set_Ok s c vs p tog g g' :
  set_TDY s g = (Ok (), g') →
  step_thread (Thread (ISet s :: c) vs p tog None) g =
    (Thread c vs p tog None, g').
Proof. intros Hs. unfold step_thread. cbn [t_out t_code]. by rewrite Hs. Qed.

Lemma step_set_Raise s c vs p tog g g' e :
  set_TDY s g = (Raise e, g') →
  step_thread (Thread (ISet s :: c) vs p tog None) g =
    (Thread [] vs p tog (Some (Raise e)), g').
Proof. intros Hs. unfold step_thread. cbn [t_out t_code]. by rewrite Hs. Qed.

Lemma step_read a c vs p tog g :
  step_thread (Thread (IRead a :: c) vs p tog None) g =
    (Thread c (vs ++ [read_attr a g]) p tog None, g).
Proof. reflexivity. Qed.

Lemma step_rho_k_Ok c vs p tog g rk :
  rho_k_of vs = Ok rk →
  step_thread (Thread (IRhoK :: c) vs p tog None) g =
    (Thread c (vs ++ [rk]) p tog None, g).
Proof. intros Hs. unfold step_thread. cbn [t_out t_code t_vals]. by rewrite Hs. Qed.

Lemma step_finish vs p tog g :
  step_thread (Thread [] vs p tog None) g =
    (Thread [] vs p tog (Some (finish p tog vs)), g).
Proof. reflexivity. Qed.

(** The values that the statements of one node add to the locals. *)
Definition node_vals (g : G) : list (value R) :=
  [VArr (mix_diff_coeffs_mass g); VNum (density_mass g); VNum (viscosity g);
   VNum (gas_P g); VArr (gas_Y g); VArr (smul (density_mass g) <$> gas_Y g)].

Lemma rho_k_of_node vs g :
  rho_k_of (vs ++ [VArr (mix_diff_coeffs_mass g); VNum (density_mass g);
                   VNum (viscosity g); VNum (gas_P g); VArr (gas_Y g)]) =
    Ok (VArr (smul (density_mass g) <$> gas_Y g)).
Proof. unfold rho_k_of. by rewrite reverse_app. Qed.

(** The seven statements of a node whose state the provider accepts. *)
Lemma run_node_Ok s c vs p tog g g' :
  set_TDY s g = (Ok (), g') →
  run_thread 7 (Thread (node_instrs s ++ c) vs p tog None) g =
    (Thread c (vs ++ node_vals g') p tog None, g').
Proof.
  intros Hs. unfold node_instrs. cbn [app].
  erewrite run_step by (by apply step_set_Ok).
  do 5 (erewrite run_step by apply step_read).
  erewrite run_step
    by (apply step_rho_k_Ok; rewrite <-!app_assoc; apply rho_k_of_node).
  cbn [run_thread]. by rewrite <-!app_assoc.
Qed.

(** A node whose state the provider refuses ends the call at once. *)
Lemma run_node_Raise n s c vs p tog g g' e :
  set_TDY s g = (Raise e, g') →
  run_thread (S n) (Thread (node_instrs s ++ c) vs p tog None) g =
    (Thread [] vs p tog (Some (Raise e)), g').
Proof.
  intros Hs. unfold node_instrs. cbn [app].
  erewrite run_step by (by apply step_set_Raise). by erewrite run_done.
Qed.

Lemma finish_nodes p tog g1 g2 :
  finish p tog (node_vals g1 ++ node_vals g2) =
    net_flux p (node_of g1) (node_of g2) ≫= mass_flux tog.
Proof. reflexivity. Qed.

(** The outcome and the provider after the fifteen steps of a call run
    alone. *)
Lemma run_call s1 s2 p tog gas :
  let '(t, g) := run_thread 15 (spawn s1 s2 p tog) gas in
  (t_out t, g) =
    (Some (fickian_adf s1 s2 gas p tog).1, (fickian_adf s1 s2 gas p tog).2).
Proof.
  rewrite fickian_adf_unfold. unfold spawn, call_instrs.
  destruct (set_TDY s1 gas) as [[[]|e] g1] eqn:H1.
  2: { by rewrite (run_node_Raise 14 _ _ _ _ _ _ _ _ H1). }
  rewrite (run_thread_add 7 8), (run_node_Ok _ _ _ _ _ _ _ H1).
  rewrite <-(app_nil_r (node_instrs s2)).
  destruct (set_TDY s2 g1) as [[[]|e] g2] eqn:H2.
  2: { by rewrite (run_node_Raise 7 _ _ _ _ _ _ _ _ H2). }
  rewrite (run_thread_add 7 1), (run_node_Ok _ _ _ _ _ _ _ H2).
  erewrite run_step by apply step_finish. cbn [run_thread app].
  by rewrite finish_nodes.
Qed.

(** The same, as two equations. *)
Lemma call_steps s1 s2 p tog gas :
  t_out (run_thread 15 (spawn s1 s2 p tog) gas).1 =
    Some (fickian_adf s1 s2 gas p tog).1 ∧
  (run_thread 15 (spawn s1 s2 p tog) gas).2 = (fickian_adf s1 s2 gas p tog).2.
Proof.
  pose proof (run_call s1 s2 p tog gas) as Hrun.
  destruct (run_thread 15 _ gas) as [t g]. by injection Hrun as Ht Hg.
Qed.

(** C9: a call run alone, statement by statement, is [fickian_adf]: after
    fifteen steps or more it has the outcome of the function and the
    provider is as the function leaves it. *)
Theorem call_refines s1 s2 p tog gas :
  ∀ n, 15 ≤ n →
    t_out (run_thread n (spawn s1 s2 p tog) gas).1 =
      Some (fickian_adf s1 s2 gas p tog).1 ∧
    (run_thread n (spawn s1 s2 p tog) gas).2 = (fickian_adf s1 s2 gas p tog).2.
Proof.
  intros n Hn. replace n with (15 + (n - 15)) by lia.
  rewrite run_thread_add.
  destruct (call_steps s1 s2 p tog gas) as [Ht Hg].
  destruct (run_thread 15 _ gas) as [t g]. cbn [fst snd] in *.
  by rewrite (run_done _ _ _ _ Ht).
Qed.

(** The first statement of a call whose first state is accepted. *)
Lemma spawn_first_step s1 s2 p tog gas g1 :
  set_TDY s1 gas = (Ok (), g1) →
  step_thread (spawn s1 s2 p tog) gas =
    (Thread ([IRead AD_k; IRead ARho; IRead AMu; IRead AP; IRead AY; IRhoK]
               ++ node_instrs s2) [] p tog None, g1).
Proof. intros Hs. unfold spawn, call_instrs. by apply step_set_Ok. Qed.

(** The six statements that follow the assignment of a state. *)
Lemma run_reads c vs p tog g :
  run_thread 6 (Thread ([IRead AD_k; IRead ARho; IRead AMu; IRead AP;
                         IRead AY; IRhoK] ++ c) vs p tog None) g =
    (Thread c (vs ++ node_vals g) p tog None, g).
Proof.
  cbn [app]. do 5 (erewrite run_step by apply step_read).
  erewrite run_step
    by (apply step_rho_k_Ok; rewrite <-!app_assoc; apply rho_k_of_node).
  cbn [run_thread]. by rewrite <-!app_assoc.
Qed.

(** The second node and the arithmetic, for a call that holds the values
    it read at node 1 from the provider [g1]. *)
Lemma run_second_node s2 p tog g1 g :
  t_out (run_thread 8 (Thread (node_instrs s2) (node_vals g1) p tog None) g).1 =
    Some match set_TDY s2 g with
         | (Ok _, g2) => net_flux p (node_of g1) (node_of g2) ≫= mass_flux tog
         | (Raise e, _) => Raise e
         end.
Proof.
  rewrite <-(app_nil_r (node_instrs s2)).
  destruct (set_TDY s2 g) as [[[]|e] g2] eqn:H2.
  2: { by rewrite (run_node_Raise 7 _ _ _ _ _ _ _ _ H2). }
  rewrite (run_thread_add 7 1), (run_node_Ok _ _ _ _ _ _ _ H2).
  by erewrite run_step by apply step_finish.
Qed.

End alone.

(** ** Two calls on one provider *)

Section shared.
Context `{Scalar R, Provider R G}.
Implicit Types (t : thread R) (g gas : G) (k : config R G) (l : list bool).

Lemma run_sched_cons b l k : run_sched (b :: l) k = run_sched l (sched_step b k).
Proof. reflexivity. Qed.

Lemma run_sched_app l l' k :
  run_sched (l ++ l') k = run_sched l' (run_sched l k).
Proof. apply foldl_app. Qed.

Lemma sched_step_left k :
  sched_step true k =
    Config (step_thread (c_left k) (c_gas k)).1 (c_right k)
      (step_thread (c_left k) (c_gas k)).2.
Proof. unfold sched_step. by destruct (step_thread _ _). Qed.

Lemma sched_step_right k :
  sched_step false k =
    Config (c_left k) (step_thread (c_right k) (c_gas k)).1
      (step_thread (c_right k) (c_gas k)).2.
Proof. unfold sched_step. by destruct (step_thread _ _). Qed.

(** A schedule is a sequence of steps, and the other way round. *)
Lemma run_sched_rtc l k : rtc cstep k (run_sched l k).
Proof.
  revert k. induction l as [|b l IH]; intros k; [done|].
  rewrite run_sched_cons. eapply rtc_l; [|apply IH].
  destruct b; constructor.
Qed.

Lemma rtc_run_sched k k' : rtc cstep k k' → ∃ l, k' = run_sched l k.
Proof.
  induction 1 as [k|k k1 k' Hstep _ [l ->]]; [by exists []|].
  destruct Hstep; [by exists (true :: l) | by exists (false :: l)].
Qed.

(** Runs of one side only. *)
Lemma run_sched_left n k :
  run_sched (replicate n true) k =
    Config (run_thread n (c_left k) (c_gas k)).1 (c_right k)
      (run_thread n (c_left k) (c_gas k)).2.
Proof.
  revert k. induction n as [|n IH]; intros k; [by destruct k|].
  cbn [replicate]. rewrite run_sched_cons, IH, sched_step_left.
  cbn [c_left c_right c_gas run_thread]. by destruct (step_thread _ _).
Qed.

Lemma run_sched_right n k :
  run_sched (replicate n false) k =
    Config (c_left k) (run_thread n (c_right k) (c_gas k)).1
      (run_thread n (c_right k) (c_gas k)).2.
Proof.
  revert k. induction n as [|n IH]; intros k; [by destruct k|].
  cbn [replicate]. rewrite run_sched_cons, IH, sched_step_right.
  cbn [c_left c_right c_gas run_thread]. by destruct (step_thread _ _).
Qed.

(** A call that has finished keeps its outcome, whatever steps the
    two calls take afterwards. *)
Lemma cstep_out_stable k k' r :
  rtc cstep k k' →
  (t_out (c_left k) = Some r → t_out (c_left k') = Some r) ∧
  (t_out (c_right k) = Some r → t_out (c_right k') = Some r).
Proof.
  induction 1 as [k|k k1 k' Hstep _ [IHl IHr]]; [done|].
  split; intros Hr; [apply IHl | apply IHr];
    destruct Hstep; rewrite ?sched_step_left, ?sched_step_right;
    cbn [c_left c_right]; by rewrite ?(step_done _ _ r Hr).
Qed.

End shared.

(** ** Serialized calls and interleaved calls *)

(** The left call assigns its first state, the right call runs from its
    start to its end, and the left call goes on. *)
Definition overtaking : list bool :=
  [true] ++ replicate 15 false ++ replicate 14 true.

Section lawful.
Context `{Scalar R, Provider R G, !LawfulProvider R G}.
Implicit Types (s : TDY R) (gas : G) (p : gmap string (value R))
  (tog : toggle R).

(** C21: two calls on one lawful provider, run one after the other, each
    return or raise what they do when they are run alone on the provider
    as it was at the start. *)
Theorem serialized_calls s1 s2 p tog s1' s2' p' tog' gas :
  let k := run_sched (replicate 15 true ++ replicate 15 false)
             (Config (spawn s1 s2 p tog) (spawn s1' s2' p' tog') gas) in
  t_out (c_left k) = Some (fickian_adf s1 s2 gas p tog).1 ∧
  t_out (c_right k) = Some (fickian_adf s1' s2' gas p' tog').1.
Proof.
  cbv zeta. rewrite run_sched_app, run_sched_left, run_sched_right.
  cbn [c_left c_right c_gas].
  destruct (call_steps s1 s2 p tog gas) as [-> ->].
  destruct (call_steps s1' s2' p' tog' (fickian_adf s1 s2 gas p tog).2)
    as [-> _].
  split; [done|]. f_equal. apply fickian_adf_indep.
Qed.

(** The provider after a call on two states that it accepts. *)
Lemma fickian_adf_leaves s1 s2 gas p tog a b :
  props_at G s1 = Ok a → props_at G s2 = Ok b →
  snapshot (fickian_adf s1 s2 gas p tog).2 = b.
Proof.
  intros Ha Hb.
  destruct (set_TDY_Ok s1 gas a Ha) as (g1 & Hs1 & _).
  destruct (set_TDY_Ok s2 g1 b Hb) as (g2 & Hs2 & Hg2).
  by rewrite (fickian_adf_run _ _ _ _ _ _ _ Hs1 Hs2).
Qed.

(** What a call returns when node 1 has been read from a provider that
    holds the attributes of the state [s]: the flux between [s] and its
    second state. *)
Lemma second_node_outcome s s2 gas p tog g1 g b :
  props_at G s = Ok b → snapshot g1 = b → snapshot g = b →
  match set_TDY s2 g with
  | (Ok _, g2) => net_flux p (node_of g1) (node_of g2) ≫= mass_flux tog
  | (Raise e, _) => Raise e
  end = (fickian_adf s s2 gas p tog).1.
Proof.
  intros Hb Hg1 Hg. rewrite fickian_adf_unfold.
  destruct (set_TDY_Ok s gas b Hb) as (h1 & -> & Hh1).
  destruct (props_at G s2) as [c|e] eqn:Hc.
  - destruct (set_TDY_Ok s2 g c Hc) as (g2 & -> & Hg2).
    destruct (set_TDY_Ok s2 h1 c Hc) as (h2 & -> & Hh2). cbn [fst].
    by rewrite (node_of_snapshot g1 h1), (node_of_snapshot g2 h2) by congruence.
  - destruct (set_TDY_Raise s2 g e Hc) as (g2 & ->).
    by destruct (set_TDY_Raise s2 h1 e Hc) as (h2 & ->).
Qed.

(** C20: a call that is overtaken computes another flux.  When the left
    call has assigned its first state and the right call then runs from
    its start to its end, on a lawful provider that accepts the first
    state of the left call and both states of the right call, the right
    call returns what it returns alone, and the left call returns or
    raises what [fickian_adf] does between the second state of the right
    call and its own second state: its own first state has no part in
    what it returns. *)
Theorem overtaken_call_reads_other_state s1 s2 p tog s1' s2' p' tog' gas :
  is_Ok (props_at G s1) → is_Ok (props_at G s1') → is_Ok (props_at G s2') →
  let k := run_sched overtaking
             (Config (spawn s1 s2 p tog) (spawn s1' s2' p' tog') gas) in
  t_out (c_left k) = Some (fickian_adf s2' s2 gas p tog).1 ∧
  t_out (c_right k) = Some (fickian_adf s1' s2' gas p' tog').1.
Proof.
  intros [a Ha] [a' Ha'] [b' Hb']. cbv zeta. unfold overtaking.
  destruct (set_TDY_Ok s1 gas a Ha) as (g1 & Hs1 & _).
  rewrite !run_sched_app, run_sched_right, run_sched_left.
  change (run_sched [true] ?k) with (sched_step true k).
  rewrite sched_step_left. cbn [c_left c_right c_gas].
  rewrite (spawn_first_step _ _ _ _ _ _ Hs1). cbn [fst snd].
  destruct (call_steps s1' s2' p' tog' g1) as [-> ->].
  split; [|f_equal; apply fickian_adf_indep].
  rewrite (run_thread_add 6 8), (run_reads (node_instrs s2)).
  rewrite app_nil_l, run_second_node. f_equal.
  apply (second_node_outcome s2' s2 gas p tog _ _ b'); [done| |];
    by apply fickian_adf_leaves with a'.
Qed.

End lawful.

(** ** The theorems at concrete calls *)

Section witnesses.
Local Existing Instance ideal_gas.
Local Open Scope Q_scope.

Lemma call_refines_witness :
  t_out (run_thread 15 (spawn state_a state_b planar_p (TogNum 1)) gas0).1 =
    Some (fickian_adf state_a state_b gas0 planar_p (TogNum 1)).1 ∧
  (run_thread 15 (spawn state_a state_b planar_p (TogNum 1)) gas0).2 =
    (fickian_adf state_a state_b gas0 planar_p (TogNum 1)).2.
Proof.
  exact (call_refines state_a state_b planar_p (TogNum 1) gas0 15 (le_n 15)).
Defined.

Local Existing Instance ideal_gas_lawful.

Lemma state_a_accepted : is_Ok (props_at (props Q) state_a).
Proof. by exists props_a. Qed.

Lemma state_b_accepted : is_Ok (props_at (props Q) state_b).
Proof. by exists props_b. Qed.

Lemma overtaken_call_reads_other_state_witness :
  let k := run_sched overtaking
             (Config (spawn state_a state_b planar_p (TogNum 1))
                     (spawn state_a state_b planar_p (TogNum 1)) gas0) in
  t_out (c_left k) =
    Some (fickian_adf state_b state_b gas0 planar_p (TogNum 1)).1 ∧
  t_out (c_right k) =
    Some (fickian_adf state_a state_b gas0 planar_p (TogNum 1)).1.
Proof.
  exact (overtaken_call_reads_other_state state_a state_b planar_p (TogNum 1)
           state_a state_b planar_p (TogNum 1) gas0
           state_a_accepted state_a_accepted state_b_accepted).
Defined.

(** Two calls with the same arguments, one overtaking the other: the
    call that overtakes returns the flux between [state_a] and [state_b],
    the call that is overtaken returns zeros. *)
Lemma overtaken_call_differs :
  let k := run_sched overtaking
             (Config (spawn state_a state_b planar_p (TogNum 1))
                     (spawn state_a state_b planar_p (TogNum 1)) gas0) in
  ∃ r r', t_out (c_left k) = Some r ∧ t_out (c_right k) = Some r' ∧
          r ≡ Ok (VArr [0; 0]) ∧ ¬ r ≡ r'.
Proof.
  eexists _, _. split; [by vm_compute|]. split; [by vm_compute|].
  split; [by repeat constructor|].
  intros Hr. inversion Hr as [?? Hv|]; subst. inversion Hv as [|?? Hl]; subst.
  inversion Hl as [|???? Hx]; subst. vm_compute in Hx. discriminate.
Qed.

End witnesses.
