(* ===== verification/Typed.v ===== *)
(** * The typed interface of the design notes

    The design notes ask for three changes of interface: the variant of
    the radial kernel as an enumeration, the dictionaries as records, and
    the provider as a pure query.  This file states the two kernels behind
    that interface and proves that the code, called through it, computes
    the same:

    - [variant], [ver_of], [variant_of]: the two variants and the
      integers that select them;
    - [radial_rate]: the radial kernel on a record of coefficients, a
      variant, a node counted from zero and two lists of densities;
    - [planar_of_dict], [radial_of_dict]: reading a dictionary into a
      record, with [KeyError] for a missing key and [TypeError] for a
      value of the wrong shape;
    - [planar_flux]: the planar kernel on a record of coefficients and a
      pure query of the provider.

    The theorems say that [radial_fdiff] and [fickian_adf] return or raise
    exactly what the typed functions say, errors included. *)

From Stdlib Require Import QArith.
From stdpp Require Import base tactics option list strings gmap.
From S2P Require Import Prelude Scalar NumPy Params Provider Fixtures Fickian Radial.

(** ** The variants *)

Inductive variant : Type := CoreShell | FloodedAgg.

#[export] Instance variant_eq_dec : EqDecision variant.
Proof. solve_decision. Defined.

Definition ver_of (v : variant) : Z :=
  match v with CoreShell => 1 | FloodedAgg => 2 end.

Definition variant_of (ver : Z) : option variant :=
  if decide (ver = 1%Z) then Some CoreShell
  else if decide (ver = 2%Z) then Some FloodedAgg
  else None.

(** ** Reading a dictionary into a record *)

Section parse.
Context {R : Type}.
Implicit Types (p : gmap string (value R)).

(** [p[k]], which has to be a number. *)
Definition get_num p (k : string) : result R :=
  v ← getkey p k;
  match v with VNum x => Ok x | VArr _ => Raise TypeError end.

(** [p[k]], which has to be an array. *)
Definition get_arr p (k : string) : result (list R) :=
  v ← getkey p k;
  match v with VArr xs => Ok xs | VNum _ => Raise TypeError end.

Definition planar_of_dict p : result (planar_params R) :=
  w1 ← get_num p "wt1";
  w2 ← get_num p "wt2";
  K ← get_num p "K_g";
  dy ← get_num p "1/dy";
  et ← get_num p "eps/tau2";
  Ok (PlanarParams w1 w2 K dy et).

Definition radial_of_dict p : result (radial_params R) :=
  D ← get_num p "D_eff_naf";
  S ← get_num p "p_eff_SAnaf";
  E ← get_num p "eps/tau2_n2";
  r ← get_arr p "r_jph";
  dr ← get_arr p "1/dr";
  rj ← get_arr p "1/r_j";
  t ← get_arr p "1/t_shl";
  Ok (RadialParams D S E r dr rj t).

End parse.

(** ** The kernels behind the typed interface *)

Section typed.
Context `{Scalar R}.
Local Open Scope scalar_scope.

(** The rate of every species through the interface [node]; [None] when
    an array of coefficients has no entry for [node]. *)
Definition radial_rate (q : radial_params R) (v : variant) (node : nat)
    (rho_k1 rho_k2 : list R) : option (list R) :=
  rj ← r_jph q !! node;
  dr ← inv_dr q !! node;
  let base := zip_with (rate_k q rj dr) rho_k1 rho_k2 in
  match v with
  | CoreShell => Some base
  | FloodedAgg =>
      rjn ← inv_r_j q !! node;
      tn ← inv_t_shl q !! node;
      Some (shell_factor rjn tn <$> base)
  end.

(** The flux of every species from a pure query of the provider. *)
Definition planar_flux (query : TDY R → result (props R))
    (q : planar_params R) (s1 s2 : TDY R) (enable : bool) : result (list R) :=
  a ← query s1;
  b ← query s2;
  Ok (fickian_spec q a b (if enable then 1 else 0)).

End typed.

(** ** Variants *)

Lemma variant_of_ver_of v : variant_of (ver_of v) = Some v.
Proof. by destruct v. Qed.

Lemma variant_of_Some ver v : variant_of ver = Some v → ver = ver_of v.
Proof.
  unfold variant_of. repeat case_decide; intros [= <-]; by subst.
Qed.

Lemma variant_of_None ver : variant_of ver = None ↔ ver ≠ 1%Z ∧ ver ≠ 2%Z.
Proof.
  unfold variant_of. repeat case_decide; split; try done; by intros [??].
Qed.

(** ** Dictionaries *)

Section parse_lemmas.
Context {R : Type}.
Implicit Types (p : gmap string (value R)) (q : planar_params R).

Lemma get_num_Ok p k x : get_num p k = Ok x ↔ p !! k = Some (VNum x).
Proof.
  unfold get_num, getkey. destruct (p !! k) as [[y|ys]|]; simpl;
    split; intros; by simplify_eq.
Qed.

Lemma get_arr_Ok p k xs : get_arr p k = Ok xs ↔ p !! k = Some (VArr xs).
Proof.
  unfold get_arr, getkey. destruct (p !! k) as [[y|ys]|]; simpl;
    split; intros; by simplify_eq.
Qed.

Lemma has_planar_get_num p q :
  has_planar p q →
  get_num p "wt1" = Ok (wt1 q) ∧ get_num p "wt2" = Ok (wt2 q) ∧
  get_num p "K_g" = Ok (K_g q) ∧ get_num p "1/dy" = Ok (inv_dy q) ∧
  get_num p "eps/tau2" = Ok (eps_tau2 q).
Proof.
  intros (H1 & H2 & H3 & H4 & H5)%has_planar_lookup.
  unfold get_num. by rewrite H1, H2, H3, H4, H5.
Qed.

(** The dictionary of a record, and perhaps more keys, reads back as the
    record. *)
Lemma planar_of_dict_has p q : has_planar p q → planar_of_dict p = Ok q.
Proof.
  intros (H1 & H2 & H3 & H4 & H5)%has_planar_get_num.
  unfold planar_of_dict. rewrite H1, H2, H3, H4, H5. by destruct q.
Qed.

(** A dictionary that reads as a record holds its coefficients. *)
Lemma planar_of_dict_Ok p q : planar_of_dict p = Ok q → has_planar p q.
Proof.
  unfold planar_of_dict.
  intros (w1 & Hw1%get_num_Ok & (w2 & Hw2%get_num_Ok & (K & HK%get_num_Ok &
    (dy & Hdy%get_num_Ok & (et & Het%get_num_Ok & [= <-])%bind_Ok_inv
    )%bind_Ok_inv)%bind_Ok_inv)%bind_Ok_inv)%bind_Ok_inv.
  unfold has_planar, planar_dict. cbn [wt1 wt2 K_g inv_dy eps_tau2].
  repeat (apply insert_subseteq_l; [done|]). apply map_empty_subseteq.
Qed.

(** Reading the dictionary of a record of planar coefficients gives the
    record back, and a dictionary reads as a record exactly when it holds
    the record's five coefficients as numbers. *)
Lemma planar_of_dict_roundtrip p q :
  planar_of_dict (planar_dict q) = Ok q ∧
  (planar_of_dict p = Ok q ↔ has_planar p q).
Proof.
  split; [apply planar_of_dict_has, has_planar_dict|].
  split; [apply planar_of_dict_Ok | apply planar_of_dict_has].
Qed.

Lemma has_radial_get p (r : radial_params R) :
  has_radial p r →
  get_num p "D_eff_naf" = Ok (D_eff_naf r) ∧
  get_num p "p_eff_SAnaf" = Ok (p_eff_SAnaf r) ∧
  get_num p "eps/tau2_n2" = Ok (eps_tau2_n2 r) ∧
  get_arr p "r_jph" = Ok (r_jph r) ∧ get_arr p "1/dr" = Ok (inv_dr r) ∧
  get_arr p "1/r_j" = Ok (inv_r_j r) ∧ get_arr p "1/t_shl" = Ok (inv_t_shl r).
Proof.
  intros Hp. destruct (has_radial_lookup _ _ Hp) as (H6 & H7).
  destruct (has_radial_core_lookup _ _ (has_radial_core_of _ _ Hp))
    as (H1 & H2 & H3 & H4 & H5).
  unfold get_num, get_arr. by rewrite H1, H2, H3, H4, H5, H6, H7.
Qed.

Lemma radial_of_dict_has p (r : radial_params R) :
  has_radial p r → radial_of_dict p = Ok r.
Proof.
  intros (H1 & H2 & H3 & H4 & H5 & H6 & H7)%has_radial_get.
  unfold radial_of_dict. rewrite H1, H2, H3, H4, H5, H6, H7. by destruct r.
Qed.

Lemma radial_of_dict_Ok p (r : radial_params R) :
  radial_of_dict p = Ok r → has_radial p r.
Proof.
  unfold radial_of_dict.
  intros (D & HD%get_num_Ok & (S & HS%get_num_Ok & (E & HE%get_num_Ok &
    (rs & Hr%get_arr_Ok & (dr & Hdr%get_arr_Ok & (rj & Hrj%get_arr_Ok &
    (t & Ht%get_arr_Ok & [= <-])%bind_Ok_inv)%bind_Ok_inv)%bind_Ok_inv
    )%bind_Ok_inv)%bind_Ok_inv)%bind_Ok_inv)%bind_Ok_inv.
  unfold has_radial, radial_dict, radial_dict_core.
  cbn [D_eff_naf p_eff_SAnaf eps_tau2_n2 r_jph inv_dr inv_r_j inv_t_shl].
  repeat (apply insert_subseteq_l; [done|]). apply map_empty_subseteq.
Qed.

(** The same for the seven coefficients of the radial kernel: three
    numbers and four arrays. *)
Lemma radial_of_dict_roundtrip p (r : radial_params R) :
  radial_of_dict (radial_dict r) = Ok r ∧
  (radial_of_dict p = Ok r ↔ has_radial p r).
Proof.
  split; [apply radial_of_dict_has, has_radial_dict|].
  split; [apply radial_of_dict_Ok | apply radial_of_dict_has].
Qed.

End parse_lemmas.

(** ** The radial kernel *)

Section radial_typed.
Context `{Scalar R} {F : Type}.
Implicit Types (q : radial_params R) (v : variant) (node : nat)
  (xs ys rs : list R) (flag : F).

Lemma getitem_nat_None (zs : list R) node :
  zs !! node = None → getitem (VArr zs) (Z.of_nat node) = Raise IndexError.
Proof.
  intros Hn%lookup_ge_None. apply getitem_IndexError. lia.
Qed.

(** The base expression on the dictionary of a record, at a node counted
    from zero. *)
Lemma radial_base_typed q node xs ys :
  length xs = length ys →
  radial_base (VArr xs) (VArr ys) (radial_dict q) (Z.of_nat node) =
    match r_jph q !! node, inv_dr q !! node with
    | Some rj, Some dr => Ok (VArr (zip_with (rate_k q rj dr) xs ys))
    | _, _ => Raise IndexError
    end.
Proof.
  intros Hlen.
  destruct (has_radial_core_lookup _ _ (has_radial_core_of _ _ (has_radial_dict q)))
    as (HD & HS & HE & Hr & Hdr).
  destruct (r_jph q !! node) as [rj|] eqn:Hrj.
  - destruct (inv_dr q !! node) as [dr|] eqn:Hdrn.
    + rewrite (radial_base_spec _ q _ rj dr)
        by eauto using has_radial_core_of, has_radial_dict, getitem_nat.
      by rewrite vbinop_arr_arr.
    + unfold radial_base. rewrite HD, HS, HE, Hr, Hdr. vsimpl.
      rewrite (getitem_nat _ _ _ Hrj). vsimpl.
      by rewrite (getitem_nat_None _ _ Hdrn).
  - unfold radial_base. rewrite HD, HS, HE, Hr. vsimpl.
    by rewrite (getitem_nat_None _ _ Hrj).
Qed.

Lemma radial_shell_typed q node b :
  radial_shell b (radial_dict q) (Z.of_nat node) =
    match inv_r_j q !! node, inv_t_shl q !! node with
    | Some rjn, Some tn => Ok (vmap (shell_factor rjn tn) b)
    | _, _ => Raise IndexError
    end.
Proof.
  destruct (has_radial_lookup _ _ (has_radial_dict q)) as (Hrj & Ht).
  destruct (inv_r_j q !! node) as [rjn|] eqn:Hrjn.
  - destruct (inv_t_shl q !! node) as [tn|] eqn:Htn.
    + by rewrite (radial_shell_run _ q _ rjn tn)
        by eauto using has_radial_dict, getitem_nat.
    + unfold radial_shell. rewrite Hrj, Ht. rewrite bind_Ok.
      rewrite (getitem_nat _ _ _ Hrjn), bind_Ok.
      unfold vmul, vsquare. cbn [vmap]. rewrite vbinop_num_r, !bind_Ok.
      by rewrite (getitem_nat_None _ _ Htn).
  - unfold radial_shell. rewrite Hrj, bind_Ok.
    by rewrite (getitem_nat_None _ _ Hrjn).
Qed.

(** C15: on the dictionary of a record, a node counted from zero and two
    arrays of one length, [radial_fdiff] is [radial_rate]: it returns the
    array [radial_rate] gives, and raises [IndexError] exactly when
    [radial_rate] gives nothing. *)
Theorem radial_fdiff_typed q v node xs ys flag :
  length xs = length ys →
  radial_fdiff (VArr xs) (VArr ys) (radial_dict q) (Z.of_nat node) (ver_of v) flag =
    match radial_rate q v node xs ys with
    | Some rs => Ok (VArr rs)
    | None => Raise IndexError
    end.
Proof.
  intros Hlen. unfold radial_rate. destruct v; cbn [ver_of].
  - rewrite radial_fdiff_ver1, radial_base_typed by done.
    by destruct (r_jph q !! node), (inv_dr q !! node).
  - rewrite radial_fdiff_ver2, radial_base_typed by done.
    destruct (r_jph q !! node) as [rj|], (inv_dr q !! node) as [dr|];
      try done.
    rewrite bind_Ok, radial_shell_typed.
    by destruct (inv_r_j q !! node), (inv_t_shl q !! node).
Qed.

(** The integers that select a variant are 1 and 2; for any other
    integer [variant_of] gives nothing and [radial_fdiff] raises. *)
Lemma radial_fdiff_variant_of (a b : value R) (p : gmap string (value R))
    (k ver : Z) flag :
  match variant_of ver with
  | Some x => ver = ver_of x
  | None =>
      radial_fdiff a b p k ver flag = Raise (UnboundLocalError "drho_dt")
  end.
Proof.
  destruct (variant_of ver) as [x|] eqn:Hv.
  - by apply variant_of_Some.
  - apply variant_of_None in Hv as [H1 H2].
    unfold radial_fdiff. by rewrite !decide_False.
Qed.

End radial_typed.

(** ** The planar kernel *)

Section planar_typed.
Context `{Scalar R, Provider R G, !LawfulProvider R G}.
Implicit Types (s : TDY R) (gas : G) (q : planar_params R).

(** C14: for a lawful provider and the dictionary of a record,
    [fickian_adf] is [planar_flux] on the provider's pure query: it
    returns the same fluxes and raises the same exception, that of the
    first state the provider refuses. *)
Theorem fickian_adf_typed s1 s2 gas q (enable : bool) :
  (fickian_adf s1 s2 gas (planar_dict q) (TogBool enable)).1 =
    VArr <$> planar_flux (props_at G) q s1 s2 enable.
Proof.
  rewrite fickian_adf_unfold. unfold planar_flux.
  destruct (props_at G s1) as [a|e] eqn:Ha.
  2: { by destruct (set_TDY_Raise s1 gas e Ha) as (g & ->). }
  destruct (set_TDY_Ok s1 gas a Ha) as (g1 & -> & <-).
  destruct (props_at G s2) as [b|e] eqn:Hb.
  2: { by destruct (set_TDY_Raise s2 g1 e Hb) as (g & ->). }
  destruct (set_TDY_Ok s2 g1 b Hb) as (g2 & -> & <-).
  cbn [fst]. rewrite !bind_Ok, fmap_Ok.
  apply (net_flux_spec _ q (TogBool enable) g1 g2 (n_species G));
    [|apply has_planar_dict].
  split; by eapply props_at_species.
Qed.

End planar_typed.

(** ** The theorems at concrete inputs *)

Section witnesses.
Local Open Scope Q_scope.

Lemma radial_fdiff_typed_witness :
  radial_fdiff (VArr [1; 2]) (VArr [3; 5]) radial_p (Z.of_nat 1) 2 () =
    match radial_rate radial_q FloodedAgg 1 [1; 2] [3; 5] with
    | Some rs => Ok (VArr rs)
    | None => Raise IndexError
    end.
Proof.
  exact (radial_fdiff_typed radial_q FloodedAgg 1 [1; 2] [3; 5] () eq_refl).
Defined.

End witnesses.
